(** * Hostel room allocation engine: a shallow embedding

    The development follows [services/allocationEngine.js]: the batch
    runner [runAllocation], the single-request allocator [allocateBed] and
    the waitlist manager [addToWaitlist], together with the few helpers
    they call ([createAuditLog] of the audit middleware and the two
    notification senders of [utils/email.js]).  It then follows the
    routes that write the same tables: the route that starts a run, the
    submission of a request, the manual assignment of a bed, the change of
    a role and the deletion of a user, with [authorize] and the audit
    middleware in front of them, and the quoting of the CSV reports.

    The persistent store (Prisma over PostgreSQL, tables as created by the
    migration) is modelled as a record of row lists.  Every store call is
    labelled with the place it is made from; an environment decides, per
    call, whether the store rejects it, so that a theorem quantified over
    all environments covers every pattern of store failures.

    Conventions of the model:
    - keys and categories are strings, compared byte by byte;
    - the [preferences] JSON object is read through its two keys, each of
      them optional; a [preferredHostels] that is present is a list of
      hostel keys;
    - [async] functions become store computations: a function from the
      store to a result (a value or a raised error) and the store
      after; one call runs to its end before the next one starts, and the
      competing transactions of other callers show only as rows that
      [FOR UPDATE SKIP LOCKED] does not return;
    - ranks and counters are unbounded integers;
    - an e-mail is sent or not, and nothing of it is kept. *)

From Stdlib Require Import String Ascii List ZArith NArith Bool Lia.
From Stdlib Require Import Sorting.Sorted Sorting.Permutation.
Import ListNotations.

Local Open Scope string_scope.
Local Open Scope Z_scope.

Set Implicit Arguments.

(* ================================================================== *)
(** * Part I: the program *)

(** ** A stable sort, standing for the store's [ORDER BY] *)

Section OrderByDef.
Variable A : Type.
Variable leb : A -> A -> bool.

Fixpoint insertBy (x : A) (l : list A) : list A :=
  match l with
  | [] => [x]
  | y :: l' => if leb x y then x :: l else y :: insertBy x l'
  end.

Definition orderBy (l : list A) : list A := fold_right insertBy [] l.
End OrderByDef.

(** ** Data model (the tables of the migration) *)

Inductive ApplicationStatus :=
  PENDING | IN_PROGRESS | ALLOCATED | REJECTED | WAITLISTED.

Inductive RoomStatus := AVAILABLE | OCCUPIED | MAINTENANCE | RESERVED.

Definition ApplicationStatus_eqb (a b : ApplicationStatus) : bool :=
  match a, b with
  | PENDING, PENDING | IN_PROGRESS, IN_PROGRESS | ALLOCATED, ALLOCATED
  | REJECTED, REJECTED | WAITLISTED, WAITLISTED => true
  | _, _ => false
  end.

Definition RoomStatus_eqb (a b : RoomStatus) : bool :=
  match a, b with
  | AVAILABLE, AVAILABLE | OCCUPIED, OCCUPIED
  | MAINTENANCE, MAINTENANCE | RESERVED, RESERVED => true
  | _, _ => false
  end.

Module User.
Record t := mk { id : string; email : string; name : string }.
End User.

Module Block.
Record t := mk { id : string; hostelId : string; name : string }.
End Block.

Module Room.
Record t := mk {
  id : string; blockId : string; number : string;
  capacity : Z; status : RoomStatus }.
End Room.

Module Bed.
Record t := mk {
  id : string; roomId : string; bedNumber : Z;
  occupiedBy : option string }.
End Bed.

(** The [preferences] JSON object of an application, as the engine reads
    it: both keys are optional. *)
Record Preferences := mkPreferences {
  preferredHostels : option (list string);
  roomType : option string }.

Module Application.
(** A row of [applications].  [studentRel] is the [users] row referenced
    by the NOT NULL foreign key [student_id]. *)
Record row := mkRow {
  id : string; studentId : string; preferences : option Preferences;
  status : ApplicationStatus; appliedAt : Z;
  priorityCategory : option string; studentRel : User.t }.

(** The object a caller passes to the engine: the scalar fields, and the
    [student] relation when the query that produced the object asked for
    it with [include: { student: true }]. *)
Record t := mk { fields : row; student : option User.t }.

Definition withStudent (r : row) : t := mk r (Some (studentRel r)).
Definition plain (r : row) : t := mk r None.
Definition setStatus (s : ApplicationStatus) (r : row) : row :=
  mkRow (id r) (studentId r) (preferences r) s (appliedAt r)
        (priorityCategory r) (studentRel r).
End Application.
Coercion Application.fields : Application.t >-> Application.row.

Module Allocation.
Record t := mk {
  id : string; applicationId : string; studentId : string;
  roomId : string; bedId : string; allocatedAt : Z; allocatedBy : string }.
End Allocation.

Module WaitlistEntry.
Record t := mk {
  id : string; applicationId : string; rank : Z;
  hostelId : option string; roomType : option string }.
Definition setRank (r : Z) (e : t) : t :=
  mk (id e) (applicationId e) r (hostelId e) (roomType e).
End WaitlistEntry.

Record Stats := mkStats { allocated : nat; waitlisted : nat; errors : nat }.

Inductive AuditAction := CREATE | ALLOCATE.

Inductive AuditDetails :=
| BatchDetails (stats : Stats) (timestamp : Z)
| AllocationDetails (applicationId studentId roomId bedId : string)
                    (automated : bool).

Module AuditLog.
Record t := mk {
  id : string; actorId : string; action : AuditAction;
  targetType : string; targetId : string; details : AuditDetails }.
End AuditLog.

Record DB := mkDB {
  blocks : list Block.t;
  rooms : list Room.t;
  beds : list Bed.t;
  applications : list Application.row;
  allocations : list Allocation.t;
  waitlistEntries : list WaitlistEntry.t;
  auditLogs : list AuditLog.t }.

Definition setBeds (l : list Bed.t) (db : DB) : DB :=
  mkDB (blocks db) (rooms db) l (applications db) (allocations db)
       (waitlistEntries db) (auditLogs db).
Definition setApplications (l : list Application.row) (db : DB) : DB :=
  mkDB (blocks db) (rooms db) (beds db) l (allocations db)
       (waitlistEntries db) (auditLogs db).
Definition setAllocations (l : list Allocation.t) (db : DB) : DB :=
  mkDB (blocks db) (rooms db) (beds db) (applications db) l
       (waitlistEntries db) (auditLogs db).
Definition setWaitlistEntries (l : list WaitlistEntry.t) (db : DB) : DB :=
  mkDB (blocks db) (rooms db) (beds db) (applications db) (allocations db)
       l (auditLogs db).
Definition setAuditLogs (l : list AuditLog.t) (db : DB) : DB :=
  mkDB (blocks db) (rooms db) (beds db) (applications db) (allocations db)
       (waitlistEntries db) l.

(** ** The environment of a run

    One label per store call of the engine, carrying the request (and the
    bed) the call is made for. *)

Inductive Op :=
| RunFindApplications
| RunMarkInProgress (app : string)
| RunResetStatus (app : string)
| RunAuditLog
| TxFindCandidates (app : string)
| TxLockBed (app bed : string)
| TxUpdateBed (app : string)
| TxUpdateApplication (app : string)
| TxDeleteWaitlist (app : string)
| TxCreateAllocation (app : string)
| TxCreateAuditLog (app : string)
| TxCommit (app : string)
| WlFindMaxRank (app : string)
| WlUpsert (app : string)
| WlUpdateStatus (app : string)
| SendEmail (to : string).

(** [fails op]: the store (or, for [SendEmail], the mail transport)
    rejects the call.  [skipLocked app bed]: the row of [bed] is held by a
    competing transaction when [app]'s transaction asks for it, so that
    [FOR UPDATE SKIP LOCKED] returns no row.  [newId] and [clock] stand for
    the column defaults (generated key, CURRENT_TIMESTAMP).
    [descNullsFirst]: where the database puts NULL in a descending order;
    PostgreSQL, the database of the migration, puts it first. *)
Record Env := mkEnv {
  fails : Op -> bool;
  skipLocked : string -> string -> bool;
  newId : Op -> string;
  clock : Op -> Z;
  descNullsFirst : bool }.

Inductive Error :=
| StoreError (op : Op)
| RecordNotFound (op : Op)
| TypeError.

Inductive Result (A : Type) :=
| Ok (a : A)
| Err (e : Error).
Arguments Err {A} e.

(** Store computations: state passing over [DB], with exceptions. *)
Definition M (A : Type) : Type := DB -> Result A * DB.

Definition ret {A} (a : A) : M A := fun db => (Ok a, db).
Definition throw {A} (e : Error) : M A := fun db => (Err e, db).
Definition bind {A B} (m : M A) (k : A -> M B) : M B :=
  fun db => match m db with
            | (Ok a, db') => k a db'
            | (Err e, db') => (Err e, db')
            end.
Definition tryCatch {A} (m : M A) (h : Error -> M A) : M A :=
  fun db => match m db with
            | (Ok a, db') => (Ok a, db')
            | (Err e, db') => h e db'
            end.

Declare Scope store_scope.
Delimit Scope store_scope with store.
Notation "x <- m ;; k" := (bind m (fun x => k))
  (at level 100, m at next level, right associativity) : store_scope.
Notation "m ;;; k" := (bind m (fun _ => k))
  (at level 100, right associativity) : store_scope.
Local Open Scope store_scope.

(** A read: fails when the environment says so. *)
Definition query {A} (env : Env) (op : Op) (f : DB -> A) : M A :=
  fun db => if fails env op then (Err (StoreError op), db) else (Ok (f db), db).

(** A write. *)
Definition exec (env : Env) (op : Op) (f : DB -> DB) : M unit :=
  fun db => if fails env op then (Err (StoreError op), db) else (Ok tt, f db).

(** [prisma.$transaction(async (tx) => body)]: the writes of [body] reach
    the store only if [body] returns and the commit is accepted. *)
Definition transaction {A} (env : Env) (commit : Op) (body : M A) : M A :=
  fun db => match body db with
            | (Ok a, db') =>
                if fails env commit then (Err (StoreError commit), db)
                else (Ok a, db')
            | (Err e, _) => (Err e, db)
            end.

(** The effect of a status update on one row. *)
Definition updateStatus (app : string) (s : ApplicationStatus)
    (r : Application.row) : Application.row :=
  if (Application.id r =? app)%string then Application.setStatus s r else r.

(** [prisma.application.update({ where: { id }, data: { status } })];
    Prisma raises when no row has that key. *)
Definition applicationUpdate (env : Env) (op : Op) (id : string)
    (s : ApplicationStatus) : M unit :=
  fun db =>
    if fails env op then (Err (StoreError op), db)
    else if existsb (fun r => Application.id r =? id)%string (applications db)
    then (Ok tt,
          setApplications
            (map (updateStatus id s) (applications db)) db)
    else (Err (RecordNotFound op), db).

(** [tx.bed.update({ where: { id }, data: { occupiedBy } })]. *)
Definition occupy (studentId : string) (b : Bed.t) : Bed.t :=
  Bed.mk (Bed.id b) (Bed.roomId b) (Bed.bedNumber b) (Some studentId).

Definition bedUpdate (env : Env) (op : Op) (id studentId : string) : M unit :=
  fun db =>
    if fails env op then (Err (StoreError op), db)
    else if existsb (fun b => Bed.id b =? id)%string (beds db)
    then (Ok tt,
          setBeds (map (fun b => if (Bed.id b =? id)%string
                                 then occupy studentId b else b)
                       (beds db)) db)
    else (Err (RecordNotFound op), db).

(** ** Notifications ([utils/email.js])

    [sendEmail] catches every transport error and returns a boolean. *)

Definition sendEmail (env : Env) (to : string) : bool :=
  negb (fails env (SendEmail to)).

(** ** Audit middleware: [createAuditLog] swallows store errors. *)

Definition createAuditLog (env : Env) (op : Op) (actorId : string)
    (action : AuditAction) (targetType targetId : string)
    (details : AuditDetails) : M unit :=
  tryCatch
    (exec env op (fun db =>
       setAuditLogs
         (auditLogs db ++
          [AuditLog.mk (newId env op) actorId action targetType targetId
                       details]) db))
    (fun _ => ret tt).

(** ** [allocateBed] *)

(** JavaScript truthiness of a string: only the empty string is falsy. *)
Definition truthy (s : string) : bool := negb (s =? "")%string.

(** [application.preferences || {}], then
    [preferences.preferredHostels || []]. *)
Definition preferredHostelsOf (application : Application.t) : list string :=
  match Application.preferences application with
  | Some preferences =>
      match preferredHostels preferences with
      | Some l => l
      | None => []
      end
  | None => []
  end.

(** [preferences.roomType || 'STANDARD']: computed by [allocateBed], and
    used by nothing after. *)
Definition roomTypeOf (application : Application.t) : string :=
  match Application.preferences application with
  | Some preferences =>
      match roomType preferences with
      | Some r => if truthy r then r else "STANDARD"
      | None => "STANDARD"
      end
  | None => "STANDARD"
  end.

(** The filter on the parent room: [{ status: 'AVAILABLE' }], with
    [block: { hostelId: { in: preferredHostels } }] added when the list is
    not empty. *)
Record RoomFilter := mkRoomFilter {
  filterStatus : RoomStatus;
  filterHostelIn : option (list string) }.

Definition baseRoomFilter (application : Application.t) : RoomFilter :=
  let preferredHostels := preferredHostelsOf application in
  mkRoomFilter AVAILABLE
    (if (0 <? length preferredHostels)%nat then Some preferredHostels
     else None).

Definition findBlock (db : DB) (id : string) : option Block.t :=
  find (fun b => Block.id b =? id)%string (blocks db).

Definition findRoom (db : DB) (id : string) : option Room.t :=
  find (fun r => Room.id r =? id)%string (rooms db).

Definition roomMatches (db : DB) (f : RoomFilter) (room : Room.t) : bool :=
  RoomStatus_eqb (Room.status room) (filterStatus f) &&
  match filterHostelIn f with
  | None => true
  | Some hostels =>
      match findBlock db (Room.blockId room) with
      | Some b => existsb (String.eqb (Block.hostelId b)) hostels
      | None => false
      end
  end.

(** [bedWhere = { occupiedBy: null, room: baseRoomFilter }]. *)
Definition bedWhere (db : DB) (f : RoomFilter) (bed : Bed.t) : bool :=
  match Bed.occupiedBy bed with
  | Some _ => false
  | None =>
      match findRoom db (Bed.roomId bed) with
      | Some room => roomMatches db f room
      | None => false
      end
  end.

Definition bedIdLeb (a b : Bed.t) : bool := String.leb (Bed.id a) (Bed.id b).

(** [tx.bed.findMany({ where: bedWhere, orderBy: { id: 'asc' }, take: 10 })]. *)
Definition findCandidateBeds (f : RoomFilter) (db : DB) : list Bed.t :=
  firstn 10 (orderBy bedIdLeb (filter (bedWhere db f) (beds db))).

(** [SELECT id FROM beds WHERE id = $1 AND occupied_by IS NULL
     FOR UPDATE SKIP LOCKED LIMIT 1]. *)
Definition lockQuery (env : Env) (app : string) (db : DB) (bedId : string)
    : list string :=
  if skipLocked env app bedId then []
  else firstn 1
         (map Bed.id
            (filter (fun b => (Bed.id b =? bedId)%string &&
                              match Bed.occupiedBy b with
                              | None => true
                              | Some _ => false
                              end) (beds db))).

(** The loop over the candidates: a query that raises is skipped
    ([continue]), the first candidate whose row comes back is kept. *)
Fixpoint lockFirst (env : Env) (app : string) (db : DB)
    (candidateBeds : list Bed.t) : option Bed.t :=
  match candidateBeds with
  | [] => None
  | candidate :: rest =>
      if fails env (TxLockBed app (Bed.id candidate))
      then lockFirst env app db rest
      else if (0 <? length (lockQuery env app db (Bed.id candidate)))%nat
           then Some candidate
           else lockFirst env app db rest
  end.

Record TxResult := mkTxResult {
  allocation : Allocation.t;
  bed : Bed.t }.

(** [tx.waitlistEntry.deleteMany({ where: { applicationId } })]. *)
Definition deleteWaitlist (app : string) (db : DB) : DB :=
  setWaitlistEntries
    (filter (fun e => negb (WaitlistEntry.applicationId e =? app)%string)
            (waitlistEntries db)) db.

(** The row of [tx.allocation.create]; [roomId] is [updatedBed.room.id],
    the key of the room the bed belongs to. *)
Definition newAllocation (env : Env) (application : Application.t)
    (bed : Bed.t) (allocatedBy : string) : Allocation.t :=
  let op := TxCreateAllocation (Application.id application) in
  Allocation.mk (newId env op) (Application.id application)
    (Application.studentId application) (Bed.roomId bed) (Bed.id bed)
    (clock env op) allocatedBy.

(** The row of [tx.auditLog.create]. *)
Definition allocationAudit (env : Env) (application : Application.t)
    (a : Allocation.t) (allocatedBy : string) : AuditLog.t :=
  AuditLog.mk (newId env (TxCreateAuditLog (Application.id application)))
    allocatedBy ALLOCATE "ALLOCATION" (Allocation.id a)
    (AllocationDetails (Application.id application)
       (Application.studentId application) (Allocation.roomId a)
       (Allocation.bedId a) true).

(** The callback given to [prisma.$transaction]. *)
Definition allocationTx (env : Env) (application : Application.t)
    (allocatedBy : string) : M (option TxResult) :=
  let app := Application.id application in
  candidateBeds <- query env (TxFindCandidates app)
                     (findCandidateBeds (baseRoomFilter application));;
  match candidateBeds with
  | [] => ret None
  | _ :: _ =>
      lockedBed <- (fun db => (Ok (lockFirst env app db candidateBeds), db));;
      match lockedBed with
      | None => ret None
      | Some bed =>
          bedUpdate env (TxUpdateBed app) (Bed.id bed)
            (Application.studentId application);;;
          applicationUpdate env (TxUpdateApplication app) app ALLOCATED;;;
          exec env (TxDeleteWaitlist app) (deleteWaitlist app);;;
          let allocation := newAllocation env application bed allocatedBy in
          exec env (TxCreateAllocation app)
            (fun db => setAllocations (allocations db ++ [allocation]) db);;;
          exec env (TxCreateAuditLog app)
            (fun db =>
               setAuditLogs
                 (auditLogs db ++
                  [allocationAudit env application allocation allocatedBy])
                 db);;;
          ret (Some (mkTxResult allocation
                       (occupy (Application.studentId application) bed)))
      end
  end.

(** The call [sendAllocationNotification(application.student.email, ...)]:
    reading [.email] of an absent [student] raises a TypeError before the
    sender is entered; the sender itself never raises. *)
Definition sendAllocationNotification (env : Env)
    (application : Application.t) (result : TxResult) : M bool :=
  match Application.student application with
  | None => throw TypeError
  | Some student => ret (sendEmail env (User.email student))
  end.

Definition allocateBed (env : Env) (application : Application.t)
    (allocatedBy : string) : M bool :=
  tryCatch
    (result <- transaction env (TxCommit (Application.id application))
                 (allocationTx env application allocatedBy);;
     match result with
     | Some r => sendAllocationNotification env application r;;; ret true
     | None => ret false
     end)
    (fun _ => ret false).

(** ** [addToWaitlist] *)

(** [where: hostelId ? { hostelId } : {}]. *)
Definition waitlistWhere (hostelId : option string) (e : WaitlistEntry.t)
    : bool :=
  match hostelId with
  | Some h =>
      if truthy h
      then match WaitlistEntry.hostelId e with
           | Some h' => (h' =? h)%string
           | None => false
           end
      else true
  | None => true
  end.

Definition rankDescLeb (a b : WaitlistEntry.t) : bool :=
  WaitlistEntry.rank b <=? WaitlistEntry.rank a.

(** [findFirst({ where, orderBy: { rank: 'desc' } })]. *)
Definition findMaxRankEntry (hostelId : option string) (db : DB)
    : option WaitlistEntry.t :=
  hd_error (orderBy rankDescLeb
              (filter (waitlistWhere hostelId) (waitlistEntries db))).

(** [preferences.roomType || null]. *)
Definition waitlistRoomType (application : Application.t) : option string :=
  match Application.preferences application with
  | Some preferences =>
      match roomType preferences with
      | Some r => if truthy r then Some r else None
      | None => None
      end
  | None => None
  end.

(** [upsert({ where: { applicationId }, update: { rank }, create: ... })]. *)
Definition upsertWaitlist (env : Env) (application : Application.t)
    (newRank : Z) (hostelId : option string) (db : DB) : DB :=
  let app := Application.id application in
  if existsb (fun e => WaitlistEntry.applicationId e =? app)%string
             (waitlistEntries db)
  then setWaitlistEntries
         (map (fun e => if (WaitlistEntry.applicationId e =? app)%string
                        then WaitlistEntry.setRank newRank e else e)
              (waitlistEntries db)) db
  else setWaitlistEntries
         (waitlistEntries db ++
          [WaitlistEntry.mk (newId env (WlUpsert app)) app newRank hostelId
                            (waitlistRoomType application)]) db.

Definition sendWaitlistNotification (env : Env)
    (application : Application.t) (rank : Z) : M bool :=
  match Application.student application with
  | None => throw TypeError
  | Some student => ret (sendEmail env (User.email student))
  end.

Definition waitlistHostel (application : Application.t) : option string :=
  hd_error (preferredHostelsOf application).

Definition newRankOf (maxRankEntry : option WaitlistEntry.t) : Z :=
  match maxRankEntry with
  | Some e => WaitlistEntry.rank e + 1
  | None => 1
  end.

Definition addToWaitlist (env : Env) (application : Application.t) : M unit :=
  let app := Application.id application in
  let hostelId := waitlistHostel application in
  maxRankEntry <- query env (WlFindMaxRank app) (findMaxRankEntry hostelId);;
  let newRank := newRankOf maxRankEntry in
  exec env (WlUpsert app) (upsertWaitlist env application newRank hostelId);;;
  applicationUpdate env (WlUpdateStatus app) app WAITLISTED;;;
  sendWaitlistNotification env application newRank;;;
  ret tt.

(** ** [runAllocation] *)

Definition statusIn (l : list ApplicationStatus) (s : ApplicationStatus)
    : bool :=
  existsb (ApplicationStatus_eqb s) l.

(** [{ priorityCategory: 'desc' }] on a nullable TEXT column: rows with a
    category come by decreasing category; the rows without one come before
    them or after them, as the database has it ([nullsFirst]). *)
Definition priorityDesc (nullsFirst : bool) (a b : option string)
    : comparison :=
  match a, b with
  | None, None => Eq
  | None, Some _ => if nullsFirst then Lt else Gt
  | Some _, None => if nullsFirst then Gt else Lt
  | Some x, Some y => String.compare y x
  end.

(** [orderBy: [{ priorityCategory: 'desc' }, { appliedAt: 'asc' }]]. *)
Definition applicationLeb (nullsFirst : bool) (a b : Application.row) : bool :=
  match priorityDesc nullsFirst (Application.priorityCategory a)
                     (Application.priorityCategory b) with
  | Lt => true
  | Gt => false
  | Eq => Application.appliedAt a <=? Application.appliedAt b
  end.

Definition selectable (r : Application.row) : bool :=
  statusIn [PENDING; WAITLISTED] (Application.status r).

(** [prisma.application.findMany({ where, include: { student: true },
     orderBy })]. *)
Definition findApplications (env : Env) (db : DB) : list Application.t :=
  map Application.withStudent
      (orderBy (applicationLeb (descNullsFirst env))
               (filter selectable (applications db))).

Definition incAllocated (s : Stats) : Stats :=
  mkStats (S (allocated s)) (waitlisted s) (errors s).
Definition incWaitlisted (s : Stats) : Stats :=
  mkStats (allocated s) (S (waitlisted s)) (errors s).
Definition incErrors (s : Stats) : Stats :=
  mkStats (allocated s) (waitlisted s) (S (errors s)).

(** [application.status === 'WAITLISTED' ? 'WAITLISTED' : 'PENDING'],
    read from the object fetched at the start of the run. *)
Definition resetStatus (application : Application.t) : ApplicationStatus :=
  if ApplicationStatus_eqb (Application.status application) WAITLISTED
  then WAITLISTED else PENDING.

(** The [catch] block of the loop: count the error, put the status back. *)
Definition resetOnError (env : Env) (application : Application.t)
    (stats : Stats) (error : Error) : M Stats :=
  let app := Application.id application in
  applicationUpdate env (RunResetStatus app) app (resetStatus application);;;
  ret (incErrors stats).

(** The body of the [for] loop, with its [try]/[catch]. *)
Definition processApplication (env : Env) (allocatedBy : string)
    (application : Application.t) (stats : Stats) : M Stats :=
  let app := Application.id application in
  tryCatch
    (applicationUpdate env (RunMarkInProgress app) app IN_PROGRESS;;;
     allocated <- allocateBed env application allocatedBy;;
     if allocated : bool then ret (incAllocated stats)
     else (addToWaitlist env application;;;
           ret (incWaitlisted stats)))
    (resetOnError env application stats).

Fixpoint processAll (env : Env) (allocatedBy : string)
    (applications : list Application.t) (stats : Stats) : M Stats :=
  match applications with
  | [] => ret stats
  | application :: rest =>
      stats' <- processApplication env allocatedBy application stats;;
      processAll env allocatedBy rest stats'
  end.

Definition runAllocation (env : Env) (allocatedBy : string) : M Stats :=
  tryCatch
    (applications <- query env RunFindApplications (findApplications env);;
     stats <- processAll env allocatedBy applications (mkStats 0 0 0);;
     createAuditLog env RunAuditLog allocatedBy CREATE "ALLOCATION" "batch"
       (BatchDetails stats (clock env RunAuditLog));;;
     ret stats)
    (fun error => throw error).

(** ** Vocabulary of the statements *)

Definition noFaults : Env :=
  mkEnv (fun _ => false) (fun _ _ => false) (fun _ => "generated") (fun _ => 0) true.

(** The same, on a database that puts NULL last in a descending order. *)
Definition nullsLast : Env :=
  mkEnv (fun _ => false) (fun _ _ => false) (fun _ => "generated") (fun _ => 0)
        false.

(** The five writes of the allocation transaction, in the order of the
    callback. *)
Definition commitWrites (env : Env) (application : Application.t)
    (allocatedBy : string) (bed : Bed.t) (db : DB) : DB :=
  let app := Application.id application in
  let db1 :=
    setBeds (map (fun b => if (Bed.id b =? Bed.id bed)%string
                           then occupy (Application.studentId application) b
                           else b) (beds db)) db in
  let db2 :=
    setApplications
      (map (updateStatus app ALLOCATED) (applications db1)) db1 in
  let db3 := deleteWaitlist app db2 in
  let a := newAllocation env application bed allocatedBy in
  let db4 := setAllocations (allocations db3 ++ [a]) db3 in
  setAuditLogs
    (auditLogs db4 ++ [allocationAudit env application a allocatedBy]) db4.

(** No store call of the allocation transaction is rejected. *)
Definition txAccepted (env : Env) (app : string) : bool :=
  negb (fails env (TxFindCandidates app)) &&
  negb (fails env (TxUpdateBed app)) &&
  negb (fails env (TxUpdateApplication app)) &&
  negb (fails env (TxDeleteWaitlist app)) &&
  negb (fails env (TxCreateAllocation app)) &&
  negb (fails env (TxCreateAuditLog app)) &&
  negb (fails env (TxCommit app)).

Definition hasRow (db : DB) (app : string) : bool :=
  existsb (fun r => Application.id r =? app)%string (applications db).

Definition hasAllocation (db : DB) (app : string) : bool :=
  existsb (fun a => Allocation.applicationId a =? app)%string (allocations db).

Definition hasWaitlistEntry (db : DB) (app : string) : bool :=
  existsb (fun e => WaitlistEntry.applicationId e =? app)%string
          (waitlistEntries db).

Definition statusOf (db : DB) (app : string) : option ApplicationStatus :=
  option_map Application.status
    (find (fun r => Application.id r =? app)%string (applications db)).

Definition isSome {A} (o : option A) : bool :=
  match o with Some _ => true | None => false end.

(** A bed that nobody occupies, in a room whose status is AVAILABLE. *)
Definition freeInAvailableRoom (db : DB) (bed : Bed.t) : bool :=
  match Bed.occupiedBy bed with
  | Some _ => false
  | None =>
      match findRoom db (Bed.roomId bed) with
      | Some room => RoomStatus_eqb (Room.status room) AVAILABLE
      | None => false
      end
  end.

(** ** Test data, after [__tests__/allocationEngine.test.js]: one hostel,
    one block, one AVAILABLE room with one bed, two students. *)

Definition student1 : User.t :=
  User.mk "student1" "student1-test@university.edu" "Test Student 1".
Definition student2 : User.t :=
  User.mk "student2" "student2-test@university.edu" "Test Student 2".

Definition testPreferences : option Preferences :=
  Some (mkPreferences (Some ["hostel1"]) None).

Definition app1 : Application.row :=
  Application.mkRow "app1" "student1" testPreferences PENDING 1000 None
                    student1.
Definition app2 : Application.row :=
  Application.mkRow "app2" "student2" testPreferences PENDING 2000 None
                    student2.

Definition testBed : Bed.t := Bed.mk "bed1" "room101" 1 None.

Definition testDb : DB :=
  mkDB [Block.mk "block1" "hostel1" "Test Block"]
       [Room.mk "room101" "block1" "101" 2 AVAILABLE]
       [testBed] [app1; app2] [] [] [].

(** The processing order in the words of the specification: requests
    with a priority category before those without, and by submission time
    inside each of the two tiers. *)
Definition specifiedBefore (a b : Application.row) : Prop :=
  (isSome (Application.priorityCategory a) = true /\
   isSome (Application.priorityCategory b) = false) \/
  (isSome (Application.priorityCategory a) =
   isSome (Application.priorityCategory b) /\
   Application.appliedAt a <= Application.appliedAt b).

(** The processing order of the code, between two requests that both have
    a category or that have the same one. *)
Definition processedBefore (a b : Application.row) : Prop :=
  (forall x y,
     Application.priorityCategory a = Some x ->
     Application.priorityCategory b = Some y ->
     String.leb y x = true) /\
  (Application.priorityCategory a = Application.priorityCategory b ->
   Application.appliedAt a <= Application.appliedAt b).

Definition request1 : Application.row :=
  Application.mkRow "R1" "student1" None PENDING 1000 None student1.
Definition request2 : Application.row :=
  Application.mkRow "R2" "student2" None PENDING 1005 (Some "MERIT") student2.
Definition request3 : Application.row :=
  Application.mkRow "R3" "student1" None PENDING 900 None student1.

Definition handicapped0900 : Application.row :=
  Application.mkRow "early" "student1" None PENDING 900 (Some "HANDICAPPED")
                    student1.
Definition merit1000 : Application.row :=
  Application.mkRow "late" "student2" None PENDING 1000 (Some "MERIT")
                    student2.

(** The rank stored for a request, if it has a waitlist entry. *)
Definition rankOf (db : DB) (app : string) : option Z :=
  option_map WaitlistEntry.rank
    (find (fun e => WaitlistEntry.applicationId e =? app)%string
          (waitlistEntries db)).

(** The rank [addToWaitlist] computes for a request in a given store. *)
Definition assignedRank (hostelId : option string) (db : DB) : Z :=
  newRankOf (findMaxRankEntry hostelId db).

(** The ranks computed by successive calls of [addToWaitlist]. *)
Fixpoint ranksAssigned (env : Env) (apps : list Application.t) (db : DB)
    : list Z :=
  match apps with
  | [] => []
  | a :: rest =>
      assignedRank (waitlistHostel a) db
        :: ranksAssigned env rest (snd (addToWaitlist env a db))
  end.

(** The rank in the words of the specification: an entry belongs to the
    bucket named by its own scope, the bucket of a request is its first
    preferred hostel or the unscoped bucket, and the rank is one more than
    the largest in the bucket, 1 for an empty bucket. *)
Definition inBucket (bucket : option string) (e : WaitlistEntry.t) : bool :=
  match bucket, WaitlistEntry.hostelId e with
  | None, None => true
  | Some h, Some h' => (h' =? h)%string
  | _, _ => false
  end.

Definition specifiedRank (application : Application.t) (db : DB) : Z :=
  match map WaitlistEntry.rank
            (filter (inBucket (waitlistHostel application))
                    (waitlistEntries db)) with
  | [] => 1
  | r :: rs => fold_right Z.max r rs + 1
  end.

Definition unscopedApp : Application.row :=
  Application.mkRow "app3" "student1" None PENDING 3000 None student1.

Definition scopedEntry : WaitlistEntry.t :=
  WaitlistEntry.mk "w1" "app1" 7 (Some "hostel1") None.

(** How the handling of one request ended. *)
Inductive Outcome := Allocated | Waitlisted | Errored.

Definition tally (stats : Stats) (o : Outcome) : Stats :=
  match o with
  | Allocated => incAllocated stats
  | Waitlisted => incWaitlisted stats
  | Errored => incErrors stats
  end.

Definition finalStatus (application : Application.t) (o : Outcome)
    : ApplicationStatus :=
  match o with
  | Allocated => ALLOCATED
  | Waitlisted => WAITLISTED
  | Errored => Application.status application
  end.

(** [m] leaves every store in relation [R] with the store it started from,
    whether it returns or raises. *)
Definition preserves {A} (R : DB -> DB -> Prop) (m : M A) : Prop :=
  forall db, R db (snd (m db)).

(** What the handling of request [app] may change: nothing of the blocks
    and rooms, no key of a bed or of an application, and no status,
    allocation or waitlist entry of another request. *)
Definition frame (app : string) (db db' : DB) : Prop :=
  blocks db' = blocks db /\
  rooms db' = rooms db /\
  map Bed.id (beds db') = map Bed.id (beds db) /\
  map Application.id (applications db') = map Application.id (applications db) /\
  (forall app', app' <> app ->
     statusOf db' app' = statusOf db app' /\
     hasAllocation db' app' = hasAllocation db app' /\
     hasWaitlistEntry db' app' = hasWaitlistEntry db app').

(** The [try] block of the loop. *)
Definition processBody (env : Env) (allocatedBy : string)
    (application : Application.t) (stats : Stats) : M Stats :=
  let app := Application.id application in
  applicationUpdate env (RunMarkInProgress app) app IN_PROGRESS;;;
  allocated <- allocateBed env application allocatedBy;;
  if allocated : bool then ret (incAllocated stats)
  else (addToWaitlist env application;;;
        ret (incWaitlisted stats)).

Definition isAllocated (o : Outcome) : bool :=
  match o with Allocated => true | _ => false end.
Definition isWaitlisted (o : Outcome) : bool :=
  match o with Waitlisted => true | _ => false end.
Definition isErrored (o : Outcome) : bool :=
  match o with Errored => true | _ => false end.

(** An environment in which the store goes away while the first request
    of [testDb] is being handled: the rank query and the status reset for
    [app1] are both rejected. *)
Definition storeLost : Env :=
  mkEnv (fun op => match op with
                   | WlFindMaxRank app | RunResetStatus app =>
                       (app =? "app1")%string
                   | _ => false
                   end)
        (fun _ _ => false) (fun _ => "generated") (fun _ => 0) true.

Definition noBedsDb : DB := mkDB [] [] [] [app1; app2] [] [] [].

(** An environment in which the call for [app1] holds the row of [bed1]
    while the call for [app2] asks for it. *)
Definition heldByFirst : Env :=
  mkEnv (fun _ => false)
        (fun app bed => (app =? "app2")%string && (bed =? "bed1")%string)
        (fun _ => "generated") (fun _ => 0) true.

Definition idOf (a : Application.t) : string := Application.id a.

(** An environment with a single store error: the upsert of the waitlist
    entry of [app2] is rejected. *)
Definition upsertRejected : Env :=
  mkEnv (fun op => match op with
                   | WlUpsert app => (app =? "app2")%string
                   | _ => false
                   end)
        (fun _ _ => false) (fun _ => "generated") (fun _ => 0) true.

(** No request has both an allocation and a waitlist entry. *)
Definition exclusive (db : DB) : Prop :=
  forall app, hasAllocation db app = true -> hasWaitlistEntry db app = false.

(** The stores a batch run starts from: application keys are unique, no
    request has both an allocation and a waitlist entry, and a request
    that is still PENDING or WAITLISTED has no allocation. *)
Definition wellFormed (db : DB) : Prop :=
  NoDup (map Application.id (applications db)) /\
  exclusive db /\
  (forall app,
     statusOf db app = Some PENDING \/ statusOf db app = Some WAITLISTED ->
     hasAllocation db app = false).

(** [testDb] with [app1] already on the waitlist of its hostel. *)
Definition app1Waitlisted : Application.row :=
  Application.setStatus WAITLISTED app1.

Definition waitlistedDb : DB :=
  mkDB [Block.mk "block1" "hostel1" "Test Block"]
       [Room.mk "room101" "block1" "101" 2 AVAILABLE]
       [testBed] [app1Waitlisted; app2] []
       [WaitlistEntry.mk "w1" "app1" 1 (Some "hostel1") None] [].

(** An environment in which the store rejects nothing and no competing
    transaction holds a bed. *)
Definition quiet (env : Env) : Prop :=
  (forall op, fails env op = false) /\
  (forall app bed, skipLocked env app bed = false).

(** The store after the IN_PROGRESS mark, and after a completed
    [addToWaitlist] that follows it. *)
Definition afterMark (a : Application.t) (db : DB) : DB :=
  setApplications
    (map (updateStatus (Application.id a) IN_PROGRESS) (applications db)) db.

Definition afterWaitlist (env : Env) (a : Application.t) (db : DB) : DB :=
  let db1 := afterMark a db in
  let db2 := upsertWaitlist env a (assignedRank (waitlistHostel a) db1)
                            (waitlistHostel a) db1 in
  setApplications
    (map (updateStatus (Application.id a) WAITLISTED) (applications db2)) db2.

(** A store in which a batch run finds nothing to allocate: every request
    it would select is WAITLISTED, has its waitlist entry, and has no
    candidate bed. *)
Definition settled (db : DB) : Prop :=
  forall r, In r (applications db) -> selectable r = true ->
    Application.status r = WAITLISTED /\
    hasWaitlistEntry db (Application.id r) = true /\
    findCandidateBeds (baseRoomFilter (Application.withStudent r)) db = [].

(** A waitlist entry without its rank. *)
Definition forgetRank (e : WaitlistEntry.t) : WaitlistEntry.t :=
  WaitlistEntry.setRank 0 e.

(** Two stores that differ at most in the ranks of their waitlist
    entries. *)
Definition sameButRanks (db db' : DB) : Prop :=
  blocks db' = blocks db /\
  rooms db' = rooms db /\
  beds db' = beds db /\
  applications db' = applications db /\
  allocations db' = allocations db /\
  auditLogs db' = auditLogs db /\
  map forgetRank (waitlistEntries db') = map forgetRank (waitlistEntries db).

(** ** Vocabulary of the store invariants *)

(** The bed of every allocation is occupied by the student of the
    allocation, and no bed has two allocations. *)
Definition occupancyConsistent (db : DB) : Prop :=
  NoDup (map Allocation.bedId (allocations db)) /\
  forall a b, In a (allocations db) -> In b (beds db) ->
    Bed.id b = Allocation.bedId a ->
    Bed.occupiedBy b = Some (Allocation.studentId a).

(** What may become of a row of [beds]: its key, room and number stay,
    and so does its occupant when it has one. *)
Definition bedKept (b b' : Bed.t) : Prop :=
  Bed.id b' = Bed.id b /\
  Bed.roomId b' = Bed.roomId b /\
  Bed.bedNumber b' = Bed.bedNumber b /\
  (Bed.occupiedBy b = None \/ Bed.occupiedBy b' = Bed.occupiedBy b).

(** The bed that [lockFirst] returns for a request in a given store. *)
Definition lockedBed (env : Env) (a : Application.t) (db : DB)
    : option Bed.t :=
  lockFirst env (Application.id a) db
            (findCandidateBeds (baseRoomFilter a) db).

(** [testDb] after a manual assignment of [student2] to its only bed. *)
Definition occupiedDb : DB :=
  mkDB [Block.mk "block1" "hostel1" "Test Block"]
       [Room.mk "room101" "block1" "101" 2 AVAILABLE]
       [Bed.mk "bed1" "room101" 1 (Some "student2")]
       [app1; Application.setStatus ALLOCATED app2]
       [Allocation.mk "alloc1" "app2" "student2" "room101" "bed1" 0 "warden"]
       [] [].

(** What a step that commits nothing may leave behind: the status of the
    request, and its waitlist entry. *)
Definition uncommitted (a : Application.t) (db db' : DB) : Prop :=
  blocks db' = blocks db /\ rooms db' = rooms db /\ beds db' = beds db /\
  allocations db' = allocations db /\ auditLogs db' = auditLogs db /\
  (applications db' = applications db \/
   exists s, (s = IN_PROGRESS \/ s = WAITLISTED \/ s = resetStatus a) /\
             applications db' =
               map (updateStatus (Application.id a) s) (applications db)).

(** An allocation made by a run started by [allocatedBy], for one of the
    requests [apps]. *)
Definition madeFor (allocatedBy : string) (apps : list Application.t)
    (al : Allocation.t) : Prop :=
  Allocation.allocatedBy al = allocatedBy /\
  exists a : Application.t,
    In a apps /\
    Allocation.applicationId al = Application.id a /\
    Allocation.studentId al = Application.studentId a.

(** A candidate the lock loop passes over: its lock query raised, or
    returned no row. *)
Definition passedOver (env : Env) (app : string) (db : DB) (c : Bed.t)
    : Prop :=
  fails env (TxLockBed app (Bed.id c)) = true \/
  lockQuery env app db (Bed.id c) = [].

(** A bed that matches what the request asks for: nobody occupies it, its
    room is AVAILABLE and, when the request names hostels, the room is in
    one of them. *)
Definition matchesRequest (db : DB) (a : Application.t) (bed : Bed.t)
    : Prop :=
  Bed.occupiedBy bed = None /\
  exists room,
    findRoom db (Bed.roomId bed) = Some room /\
    Room.status room = AVAILABLE /\
    (preferredHostelsOf a <> [] ->
     exists block,
       findBlock db (Room.blockId room) = Some block /\
       In (Block.hostelId block) (preferredHostelsOf a)).

(** An environment in which the store rejects the commit of every
    allocation transaction, and nothing else. *)
Definition commitRejected : Env :=
  mkEnv (fun op => match op with TxCommit _ => true | _ => false end)
        (fun _ _ => false) (fun _ => "generated") (fun _ => 0) true.

(** ** The HTTP layer

    [middleware/auth.js], the audit middleware and the routes that write
    the tables of the engine or the users: [POST /api/allocate/run],
    [POST /api/applications], [POST /api/rooms/:id/assign],
    [PATCH /api/users/:id/role] and [DELETE /api/users/:id].  A route is
    modelled from the point where
    [authenticate] has put the user in [req.user]; the JSON body is read
    through the fields the route reads, with the types the validators let
    through.  A handler ends by sending a response or by passing an error
    to [next]; the store calls of the routes have labels and an
    environment of their own. *)

Inductive UserRole := STUDENT | WARDEN | ADMIN.

Definition UserRole_eqb (a b : UserRole) : bool :=
  match a, b with
  | STUDENT, STUDENT | WARDEN, WARDEN | ADMIN, ADMIN => true
  | _, _ => false
  end.

Module Account.
(** What the routes read of a row of [users]; [authenticate] selects
    exactly these columns into [req.user]. *)
Record t := mk { id : string; email : string; role : UserRole; name : string }.
End Account.

(** The [student] relation of an application, for a row of [users]. *)
Definition studentOf (u : Account.t) : User.t :=
  User.mk (Account.id u) (Account.email u) (Account.name u).

(** The body of a request, as the audit middleware copies it into the
    details of its record: the routes it wraps in this model carry a role,
    or nothing. *)
Inductive RequestBody :=
| RoleBody (role : option UserRole)
| NoBody.

(** The [details] the routes put in their audit records:
    [{ manual: true, roomId, bedId }], [{ action: 'role_change', oldRole,
    newRole }] and, from the audit middleware, [{ method, path, body }]. *)
Inductive RouteDetails :=
| ManualDetails (roomId bedId : string)
| RoleChangeDetails (oldRole newRole : UserRole)
| RequestDetails (method path : string) (body : RequestBody).

Module RouteAudit.
(** A row of [audit_logs] written by a route. *)
Record t := mk {
  id : string; actorId : string; action : string;
  targetType : string; targetId : string; details : RouteDetails }.
End RouteAudit.

(** The store as the routes see it: the tables of the engine, the users,
    and the audit records written by the routes (rows of [audit_logs] too;
    no code of the model reads that table). *)
Record Site := mkSite {
  store : DB;
  users : list Account.t;
  routeAudit : list RouteAudit.t }.

Definition setStore (db : DB) (s : Site) : Site :=
  mkSite db (users s) (routeAudit s).

Inductive RouteOp :=
| SubmitFindApplication | SubmitFindAllocation | SubmitCreate
| AssignFindRoom | AssignFindStudent | AssignFindAllocation
| AssignLockBed | AssignUpdateBed | AssignFindApplication
| AssignCreateApplication | AssignUpdateApplication
| AssignCreateAllocation | AssignCreateAuditLog | AssignCommit
| RoleFindUser | RoleUpdateUser | RoleAuditLog | RoleRequestLog
| DeleteFindUser | DeleteUser | DeleteRequestLog.

(** [rejects op]: the store rejects the call; [freshId] and [stamp] stand
    for the column defaults; [engine] is the environment of the engine
    calls made by a route. *)
Record Web := mkWeb {
  engine : Env;
  rejects : RouteOp -> bool;
  freshId : RouteOp -> string;
  stamp : RouteOp -> Z }.

Inductive Payload :=
| Failure (message : string)
| Invalid (paths : list string)
| Submitted (application : Application.t)
| Assigned (allocation : Allocation.t)
| RunCompleted (result : Stats)
| UserUpdated (user : Account.t)
| Done (message : string).

Record Response := mkResponse { statusCode : Z; payload : Payload }.

(** What a handler passes to [next]. *)
Inductive Thrown :=
| Rejected (op : RouteOp)
| KeyTaken (op : RouteOp)
| NotFound (op : RouteOp)
| Raised (e : Error)
| BedAlreadyOccupied
| NullRead.

Inductive Reply :=
| Sent (response : Response)
| Next (error : Thrown).

(** Handler computations: state passing over [Site]; a computation goes
    on with a value, or stops with the reply of the handler. *)
Inductive Step (A : Type) :=
| Continue (a : A)
| Stop (r : Reply).
Arguments Stop {A} r.

Definition Handler (A : Type) : Type := Site -> Step A * Site.

Definition hret {A} (a : A) : Handler A := fun s => (Continue a, s).
Definition hbind {A B} (m : Handler A) (k : A -> Handler B) : Handler B :=
  fun s => match m s with
           | (Continue a, s') => k a s'
           | (Stop r, s') => (Stop r, s')
           end.

(** [return res.status(code).json(...)]. *)
Definition respond {A} (code : Z) (p : Payload) : Handler A :=
  fun s => (Stop (Sent (mkResponse code p)), s).

(** A [throw], or a rejected promise, inside the [try] of a handler. *)
Definition raise {A} (e : Thrown) : Handler A := fun s => (Stop (Next e), s).

Declare Scope route_scope.
Delimit Scope route_scope with route.
Notation "x <- m ;; k" := (hbind m (fun x => k))
  (at level 100, m at next level, right associativity) : route_scope.
Notation "m ;;; k" := (hbind m (fun _ => k))
  (at level 100, right associativity) : route_scope.
Local Open Scope route_scope.

Definition readStore {A} (web : Web) (op : RouteOp) (f : Site -> A) : Handler A :=
  fun s => if rejects web op then (Stop (Next (Rejected op)), s)
           else (Continue (f s), s).

Definition writeStore (web : Web) (op : RouteOp) (f : Site -> Site) : Handler unit :=
  fun s => if rejects web op then (Stop (Next (Rejected op)), s)
           else (Continue tt, f s).

(** An engine call made by a handler; an error it raises goes to [next]. *)
Definition liftM {A} (m : M A) : Handler A :=
  fun s => match m (store s) with
           | (Ok a, db') => (Continue a, setStore db' s)
           | (Err e, db') => (Stop (Next (Raised e)), setStore db' s)
           end.

(** [prisma.$transaction] in a handler. *)
Definition transactionH {A} (web : Web) (commit : RouteOp) (body : Handler A) : Handler A :=
  fun s => match body s with
           | (Continue a, s') =>
               if rejects web commit then (Stop (Next (Rejected commit)), s)
               else (Continue a, s')
           | (Stop r, _) => (Stop r, s)
           end.

(** The handler as a whole: the response it ends with, or what it
    stopped with. *)
Definition reply (m : Handler Response) (s : Site) : Reply * Site :=
  match m s with
  | (Continue response, s') => (Sent response, s')
  | (Stop r, s') => (r, s')
  end.

(** [authorize(...roles)]. *)
Definition authorize (roles : list UserRole) (user : option Account.t)
    : Handler unit :=
  match user with
  | None => respond 401 (Failure "Authentication required")
  | Some user =>
      if negb (existsb (UserRole_eqb (Account.role user)) roles)
      then respond 403 (Failure "Insufficient permissions")
      else hret tt
  end.

(** *** [POST /api/allocate/run] *)

Definition runRoute (web : Web) (user : Account.t) : Site -> Reply * Site :=
  reply
    (authorize [ADMIN] (Some user);;;
     result <- liftM (runAllocation (engine web) (Account.id user));;
     hret (mkResponse 200 (RunCompleted result))).

(** *** [POST /api/applications] *)

(** The body: [preferences] when it is an object, [priorityCategory] when
    it is there (a string). *)
Record SubmitBody := mkSubmitBody {
  bodyPreferences : option Preferences;
  bodyPriorityCategory : option string }.

(** [body('preferences').isObject()]. *)
Definition submitErrors (body : SubmitBody) : list string :=
  match bodyPreferences body with
  | Some _ => []
  | None => ["preferences"]
  end.

(** [priorityCategory || null]. *)
Definition orNull (s : option string) : option string :=
  match s with
  | Some x => if truthy x then Some x else None
  | None => None
  end.

Definition activeStatuses : list ApplicationStatus :=
  [PENDING; WAITLISTED; IN_PROGRESS].

(** [prisma.application.create]; the primary key refuses a key that is
    taken. *)
Definition createApplication (web : Web) (op : RouteOp)
    (r : Application.row) : Handler Application.row :=
  fun s =>
    if rejects web op then (Stop (Next (Rejected op)), s)
    else if hasRow (store s) (Application.id r)
    then (Stop (Next (KeyTaken op)), s)
    else (Continue r,
          setStore (setApplications (applications (store s) ++ [r]) (store s)) s).

Definition submitApplication (web : Web) (user : Account.t)
    (body : SubmitBody) : Site -> Reply * Site :=
  reply
    (authorize [STUDENT] (Some user);;;
     if (0 <? length (submitErrors body))%nat
     then respond 400 (Invalid (submitErrors body))
     else
       let preferences := bodyPreferences body in
       let priorityCategory := bodyPriorityCategory body in
       let studentId := Account.id user in
       existingApplication <-
         readStore web SubmitFindApplication
           (fun s => find (fun r =>
                             (Application.studentId r =? studentId)%string &&
                             statusIn activeStatuses (Application.status r))
                          (applications (store s)));;
       match existingApplication with
       | Some _ =>
           respond 400 (Failure "You already have an active application")
       | None =>
           existingAllocation <-
             readStore web SubmitFindAllocation
               (fun s => find (fun a =>
                                 (Allocation.studentId a =? studentId)%string)
                              (allocations (store s)));;
           match existingAllocation with
           | Some _ =>
               respond 400 (Failure "You already have a room allocation")
           | None =>
               application <-
                 createApplication web SubmitCreate
                   (Application.mkRow (freshId web SubmitCreate) studentId
                      preferences PENDING (stamp web SubmitCreate)
                      (orNull priorityCategory) (studentOf user));;
               hret (mkResponse 201
                       (Submitted (Application.withStudent application)))
           end
       end).

(** *** [POST /api/rooms/:id/assign] *)

(** The body: [studentId] (absent is read as the empty string, as the
    validator does) and [bedNumber] when it is there (a number). *)
Record AssignBody := mkAssignBody {
  bodyStudentId : string;
  bodyBedNumber : option Z }.

(** [body('studentId').notEmpty()] and
    [body('bedNumber').optional().isInt({ min: 1 })]. *)
Definition assignErrors (body : AssignBody) : list string :=
  ((if truthy (bodyStudentId body) then [] else ["studentId"]) ++
   match bodyBedNumber body with
   | Some n => if 1 <=? n then [] else ["bedNumber"]
   | None => []
   end)%list.

(** [!b.occupiedBy]: no occupant, or the empty string. *)
Definition vacant (b : Bed.t) : bool :=
  match Bed.occupiedBy b with
  | None => true
  | Some s => negb (truthy s)
  end.

(** [include: { beds: true }]. *)
Definition bedsOf (db : DB) (room : Room.t) : list Bed.t :=
  filter (fun b => Bed.roomId b =? Room.id room)%string (beds db).

Definition createAllocationRow (web : Web) (op : RouteOp)
    (a : Allocation.t) : Handler Allocation.t :=
  fun s =>
    if rejects web op then (Stop (Next (Rejected op)), s)
    else if existsb (fun x => Allocation.id x =? Allocation.id a)%string
                    (allocations (store s))
    then (Stop (Next (KeyTaken op)), s)
    else (Continue a,
          setStore (setAllocations (allocations (store s) ++ [a]) (store s)) s).

(** [tx.application.update({ where: { id }, data: { status } })], which
    returns the updated row. *)
Definition updateApplicationRow (web : Web) (op : RouteOp)
    (application : Application.row) (status : ApplicationStatus)
    : Handler Application.row :=
  fun s =>
    if rejects web op then (Stop (Next (Rejected op)), s)
    else
      match find (fun r => Application.id r =? Application.id application)%string
                 (applications (store s)) with
      | Some r =>
          (Continue (Application.setStatus status r),
           setStore (setApplications
                       (map (updateStatus (Application.id application) status)
                            (applications (store s))) (store s)) s)
      | None => (Stop (Next (NotFound op)), s)
      end.

Definition updateBedRow (web : Web) (op : RouteOp) (id studentId : string)
    : Handler unit :=
  fun s =>
    if rejects web op then (Stop (Next (Rejected op)), s)
    else if existsb (fun b => Bed.id b =? id)%string (beds (store s))
    then (Continue tt,
          setStore (setBeds (map (fun b => if (Bed.id b =? id)%string
                                           then occupy studentId b else b)
                                 (beds (store s))) (store s)) s)
    else (Stop (Next (NotFound op)), s).

(** The callback given to [prisma.$transaction]. *)
Definition assignTx (web : Web) (user : Account.t) (roomId studentId : string)
    (student : Account.t) (bed : Bed.t) : Handler Allocation.t :=
  lockedBed <- readStore web AssignLockBed
                 (fun s => find (fun b => Bed.id b =? Bed.id bed)%string
                                (beds (store s)));;
  match lockedBed with
  | None => raise NullRead
  | Some lockedBed =>
      if negb (vacant lockedBed) then raise BedAlreadyOccupied
      else
        updateBedRow web AssignUpdateBed (Bed.id bed) studentId;;;
        found <- readStore web AssignFindApplication
                   (fun s => find (fun r =>
                                     (Application.studentId r =? studentId)%string &&
                                     statusIn [PENDING; WAITLISTED]
                                              (Application.status r))
                                  (applications (store s)));;
        application <-
          match found with
          | None =>
              createApplication web AssignCreateApplication
                (Application.mkRow (freshId web AssignCreateApplication)
                   studentId (Some (mkPreferences None None)) ALLOCATED
                   (stamp web AssignCreateApplication) None (studentOf student))
          | Some application =>
              updateApplicationRow web AssignUpdateApplication application
                                   ALLOCATED
          end;;
        allocation <-
          createAllocationRow web AssignCreateAllocation
            (Allocation.mk (freshId web AssignCreateAllocation)
               (Application.id application) studentId roomId (Bed.id bed)
               (stamp web AssignCreateAllocation) (Account.id user));;
        writeStore web AssignCreateAuditLog
          (fun s => mkSite (store s) (users s)
                      (routeAudit s ++
                       [RouteAudit.mk (freshId web AssignCreateAuditLog)
                          (Account.id user) "ALLOCATE" "ALLOCATION"
                          (Allocation.id allocation)
                          (ManualDetails roomId (Bed.id bed))]));;;
        hret allocation
  end.

(** The bed the handler picks among the beds of the room, and the message
    it answers with when there is none: the vacant bed with the number
    asked for when [bedNumber] is truthy, the first vacant bed otherwise. *)
Definition chooseBed (bedNumber : option Z) (roomBeds : list Bed.t)
    : option Bed.t * string :=
  let requested := match bedNumber with
                   | Some n => if n =? 0 then None else Some n
                   | None => None
                   end in
  match requested with
  | Some n =>
      (find (fun b => (Bed.bedNumber b =? n) && vacant b) roomBeds,
       "Specified bed is not available")
  | None =>
      (find vacant roomBeds, "No available beds in this room")
  end.

Definition assignRoom (web : Web) (user : Account.t) (roomId : string)
    (body : AssignBody) : Site -> Reply * Site :=
  reply
    (authorize [WARDEN; ADMIN] (Some user);;;
     if (0 <? length (assignErrors body))%nat
     then respond 400 (Invalid (assignErrors body))
     else
       let studentId := bodyStudentId body in
       let bedNumber := bodyBedNumber body in
       room <- readStore web AssignFindRoom
                 (fun s => option_map
                             (fun room => (room, bedsOf (store s) room))
                             (findRoom (store s) roomId));;
       match room with
       | None => respond 404 (Failure "Room not found")
       | Some (room, roomBeds) =>
           student <- readStore web AssignFindStudent
                        (fun s => find (fun u => Account.id u =? studentId)%string
                                       (users s));;
           match student with
           | None => respond 404 (Failure "Student not found")
           | Some student =>
               if negb (UserRole_eqb (Account.role student) STUDENT)
               then respond 400 (Failure "User is not a student")
               else
                 existingAllocation <-
                   readStore web AssignFindAllocation
                     (fun s => find (fun a =>
                                       (Allocation.studentId a =? studentId)%string)
                                    (allocations (store s)));;
                 match existingAllocation with
                 | Some _ =>
                     respond 400 (Failure "Student already has an allocation")
                 | None =>
                     match chooseBed bedNumber roomBeds with
                     | (None, message) => respond 400 (Failure message)
                     | (Some bed, _) =>
                         allocation <-
                           transactionH web AssignCommit
                             (assignTx web user roomId studentId student bed);;
                         hret (mkResponse 201 (Assigned allocation))
                     end
                 end
           end
       end).

(** *** The audit middleware, and the routes that change and delete users *)

(** [createAuditLog] as the routes call it: the record is written, or the
    error is swallowed. *)
Definition logAudit (web : Web) (op : RouteOp)
    (actorId action targetType targetId : string) (details : RouteDetails)
    (s : Site) : Site :=
  if rejects web op then s
  else mkSite (store s) (users s)
         (routeAudit s ++
          [RouteAudit.mk (freshId web op) actorId action targetType targetId
                         details]).

(** [a || b] on an optional string. *)
Definition orElse (a : option string) (b : string) : string :=
  match a with
  | Some x => if truthy x then x else b
  | None => b
  end.

(** [auditMiddleware(action, targetType)] around the rest of the chain: a
    response sent with a 2xx status, for a request that has a user, is
    preceded by an audit record whose target is
    [req.params.id || req.body.id || data.id || 'unknown'].  The JSON that
    the routes of the model send has no [id] of its own. *)
Definition auditMiddleware (web : Web) (op : RouteOp)
    (action targetType : string) (user : option Account.t)
    (paramsId bodyId : option string) (method path : string)
    (body : RequestBody) (rest : Site -> Reply * Site)
    : Site -> Reply * Site :=
  fun s =>
    match rest s with
    | (Sent response, s') =>
        match user with
        | Some user =>
            if (200 <=? statusCode response) && (statusCode response <? 300)
            then (Sent response,
                  logAudit web op (Account.id user) action targetType
                    (orElse paramsId (orElse bodyId (orElse None "unknown")))
                    (RequestDetails method path body) s')
            else (Sent response, s')
        | None => (Sent response, s')
        end
    | (Next e, s') => (Next e, s')
    end.

(** A chain [authorize(...roles), rest]. *)
Definition authorized (roles : list UserRole) (user : Account.t)
    (rest : Site -> Reply * Site) : Site -> Reply * Site :=
  fun s =>
    match authorize roles (Some user) s with
    | (Continue _, s') => rest s'
    | (Stop r, s') => (r, s')
    end.

Definition setRole (role : UserRole) (u : Account.t) : Account.t :=
  Account.mk (Account.id u) (Account.email u) role (Account.name u).

(** [prisma.user.update({ where: { id }, data: { role }, select })]. *)
Definition updateUserRole (web : Web) (op : RouteOp) (id : string)
    (role : UserRole) : Handler Account.t :=
  fun s =>
    if rejects web op then (Stop (Next (Rejected op)), s)
    else
      match find (fun u => Account.id u =? id)%string (users s) with
      | Some u =>
          (Continue (setRole role u),
           mkSite (store s)
                  (map (fun u => if (Account.id u =? id)%string
                                 then setRole role u else u) (users s))
                  (routeAudit s))
      | None => (Stop (Next (NotFound op)), s)
      end.

(** [PATCH /api/users/:id/role]; [role] is the role of the body when it is
    one of the three. *)
Definition updateRole (web : Web) (user : Account.t) (id : string)
    (role : option UserRole) : Site -> Reply * Site :=
  authorized [ADMIN] user
    (auditMiddleware web RoleRequestLog "UPDATE" "USER" (Some user) (Some id)
       None "PATCH" ("/" ++ id ++ "/role") (RoleBody role)
       (reply
          match role with
          | None => respond 400 (Invalid ["role"])
          | Some role =>
              if (id =? Account.id user)%string &&
                 negb (UserRole_eqb role ADMIN)
              then respond 400 (Failure "You cannot remove your own admin role")
              else
                found <- readStore web RoleFindUser
                           (fun s => find (fun u => Account.id u =? id)%string
                                          (users s));;
                match found with
                | None => respond 404 (Failure "User not found")
                | Some existing =>
                    updatedUser <- updateUserRole web RoleUpdateUser id role;;
                    (fun s =>
                       (Continue tt,
                        logAudit web RoleAuditLog (Account.id user) "UPDATE"
                          "USER" id
                          (RoleChangeDetails (Account.role existing) role) s));;;
                    hret (mkResponse 200 (UserUpdated updatedUser))
                end
          end)).

(** What the foreign keys of the migration do when a row of [users] is
    deleted: the applications, the allocations and the audit records of
    the user go (ON DELETE CASCADE), with the allocations and the waitlist
    entries of those applications, and the beds of the user are released
    (ON DELETE SET NULL). *)
Definition release (id : string) (b : Bed.t) : Bed.t :=
  match Bed.occupiedBy b with
  | Some u => if (u =? id)%string
              then Bed.mk (Bed.id b) (Bed.roomId b) (Bed.bedNumber b) None
              else b
  | None => b
  end.

Definition requestOfUser (db : DB) (id app : string) : bool :=
  existsb (fun r => (Application.id r =? app)%string &&
                    (Application.studentId r =? id)%string)
          (applications db).

(** No request with key [app] belongs to user [id]. *)
Definition ofOther (db : DB) (id app : string) : Prop :=
  forall r, In r (applications db) -> Application.id r = app ->
            Application.studentId r <> id.

Definition deleteCascade (id : string) (s : Site) : Site :=
  let db := store s in
  mkSite
    (mkDB (blocks db) (rooms db)
          (map (release id) (beds db))
          (filter (fun r => negb (Application.studentId r =? id)%string)
                  (applications db))
          (filter (fun a => negb (Allocation.studentId a =? id)%string &&
                            negb (requestOfUser db id
                                    (Allocation.applicationId a)))
                  (allocations db))
          (filter (fun e => negb (requestOfUser db id
                                    (WaitlistEntry.applicationId e)))
                  (waitlistEntries db))
          (filter (fun l => negb (AuditLog.actorId l =? id)%string)
                  (auditLogs db)))
    (filter (fun u => negb (Account.id u =? id)%string) (users s))
    (filter (fun l => negb (RouteAudit.actorId l =? id)%string)
            (routeAudit s)).

(** [DELETE /api/users/:id]. *)
Definition deleteUser (web : Web) (user : Account.t) (id : string)
    : Site -> Reply * Site :=
  authorized [ADMIN] user
    (auditMiddleware web DeleteRequestLog "DELETE" "USER" (Some user)
       (Some id) None "DELETE" ("/" ++ id) NoBody
       (reply
          (if (id =? Account.id user)%string
           then respond 400 (Failure "You cannot delete your own account")
           else
             found <- readStore web DeleteFindUser
                        (fun s => find (fun u => Account.id u =? id)%string
                                       (users s));;
             match found with
             | None => respond 404 (Failure "User not found")
             | Some _ =>
                 writeStore web DeleteUser (deleteCascade id);;;
                 hret (mkResponse 200 (Done "User deleted successfully"))
             end))).

Local Close Scope route_scope.

(** ** Vocabulary of the route properties *)

(** A request that is PENDING, WAITLISTED or IN_PROGRESS. *)
Definition active (r : Application.row) : bool :=
  statusIn activeStatuses (Application.status r).

(** No student holds two beds: application keys are distinct, a student
    has at most one allocation, a student who has one has no request that a
    run would select, and a student has at most one active request. *)
Definition oneBedPerStudent (db : DB) : Prop :=
  NoDup (map Application.id (applications db)) /\
  NoDup (map Allocation.studentId (allocations db)) /\
  (forall r al, In r (applications db) -> In al (allocations db) ->
     Application.studentId r = Allocation.studentId al ->
     selectable r = false) /\
  (forall r1 r2, In r1 (applications db) -> In r2 (applications db) ->
     active r1 = true -> active r2 = true ->
     Application.studentId r1 = Application.studentId r2 -> r1 = r2).

Definition hasActiveApplication (db : DB) (studentId : string) : bool :=
  existsb (fun r => (Application.studentId r =? studentId)%string &&
                    statusIn activeStatuses (Application.status r))
          (applications db).

Definition hasBed (db : DB) (studentId : string) : bool :=
  existsb (fun a => (Allocation.studentId a =? studentId)%string)
          (allocations db).

(** The row a submission creates. *)
Definition submittedRow (web : Web) (user : Account.t) (body : SubmitBody)
    : Application.row :=
  Application.mkRow (freshId web SubmitCreate) (Account.id user)
    (bodyPreferences body) PENDING (stamp web SubmitCreate)
    (orNull (bodyPriorityCategory body)) (studentOf user).

(** The conditions under which [POST /api/applications] creates a row. *)
Definition submitAccepted (web : Web) (user : Account.t) (body : SubmitBody)
    (s : Site) : bool :=
  UserRole_eqb (Account.role user) STUDENT &&
  isSome (bodyPreferences body) &&
  negb (rejects web SubmitFindApplication) &&
  negb (hasActiveApplication (store s) (Account.id user)) &&
  negb (rejects web SubmitFindAllocation) &&
  negb (hasBed (store s) (Account.id user)) &&
  negb (rejects web SubmitCreate) &&
  negb (hasRow (store s) (freshId web SubmitCreate)).

(** A route environment in which the store rejects nothing. *)
Definition calm : Web :=
  mkWeb noFaults (fun _ => false)
        (fun op => match op with
                   | SubmitCreate | AssignCreateApplication => "app-new"
                   | AssignCreateAllocation => "alloc-new"
                   | _ => "audit-new"
                   end)
        (fun _ => 5000).

Definition studentAccount1 : Account.t :=
  Account.mk "student1" "student1-test@university.edu" STUDENT "Test Student 1".
Definition studentAccount2 : Account.t :=
  Account.mk "student2" "student2-test@university.edu" STUDENT "Test Student 2".
Definition wardenAccount : Account.t :=
  Account.mk "warden" "warden@university.edu" WARDEN "Warden".
Definition adminAccount : Account.t :=
  Account.mk "admin" "admin@university.edu" ADMIN "Admin".

Definition testUsers : list Account.t :=
  [studentAccount1; studentAccount2; wardenAccount; adminAccount].

(** The test store before anybody applied. *)
Definition emptyDb : DB :=
  mkDB [Block.mk "block1" "hostel1" "Test Block"]
       [Room.mk "room101" "block1" "101" 2 AVAILABLE]
       [testBed] [] [] [] [].

(** The request of a student that a manual assignment marks ALLOCATED. *)
Definition requestOf (db : DB) (studentId : string)
    : option Application.row :=
  find (fun r => (Application.studentId r =? studentId)%string &&
                 statusIn [PENDING; WAITLISTED] (Application.status r))
       (applications db).

(** The request a manual assignment creates for a student who has none. *)
Definition manualRow (web : Web) (student : Account.t) (studentId : string)
    : Application.row :=
  Application.mkRow (freshId web AssignCreateApplication) studentId
    (Some (mkPreferences None None)) ALLOCATED
    (stamp web AssignCreateApplication) None (studentOf student).

(** The key of the request a manual assignment allocates. *)
Definition manualApplicationId (web : Web) (db : DB) (studentId : string)
    : string :=
  match requestOf db studentId with
  | Some application => Application.id application
  | None => freshId web AssignCreateApplication
  end.

Definition manualAllocation (web : Web) (user : Account.t) (roomId : string)
    (studentId : string) (db : DB) (bed : Bed.t) : Allocation.t :=
  Allocation.mk (freshId web AssignCreateAllocation)
    (manualApplicationId web db studentId) studentId roomId (Bed.id bed)
    (stamp web AssignCreateAllocation) (Account.id user).

(** What the handler checked before a manual assignment of [bed] to
    [student]. *)
Definition assignChecks (user : Account.t) (roomId : string)
    (body : AssignBody) (s : Site) (room : Room.t) (student : Account.t)
    (bed : Bed.t) : Prop :=
  (Account.role user = WARDEN \/ Account.role user = ADMIN) /\
  bodyStudentId body <> "" /\
  findRoom (store s) roomId = Some room /\
  find (fun u => Account.id u =? bodyStudentId body)%string (users s) =
    Some student /\
  Account.role student = STUDENT /\
  hasBed (store s) (bodyStudentId body) = false /\
  fst (chooseBed (bodyBedNumber body) (bedsOf (store s) room)) = Some bed.

(** The writes of a manual assignment of [bed] to [student]. *)
Definition assignEffect (web : Web) (user : Account.t) (roomId : string)
    (body : AssignBody) (student : Account.t) (bed : Bed.t) (s s' : Site)
    : Prop :=
  let studentId := bodyStudentId body in
  let db := store s in
  let db' := store s' in
  blocks db' = blocks db /\
  rooms db' = rooms db /\
  beds db' = map (fun b => if (Bed.id b =? Bed.id bed)%string
                           then occupy studentId b else b) (beds db) /\
  applications db' =
    match requestOf db studentId with
    | Some application =>
        map (updateStatus (Application.id application) ALLOCATED)
            (applications db)
    | None => (applications db ++ [manualRow web student studentId])%list
    end /\
  allocations db' =
    (allocations db ++ [manualAllocation web user roomId studentId db bed])%list /\
  waitlistEntries db' = waitlistEntries db /\
  auditLogs db' = auditLogs db /\
  users s' = users s /\
  routeAudit s' =
    (routeAudit s ++
     [RouteAudit.mk (freshId web AssignCreateAuditLog) (Account.id user)
        "ALLOCATE" "ALLOCATION" (freshId web AssignCreateAllocation)
        (ManualDetails roomId (Bed.id bed))])%list.

(** A selected request ends allocated, or waitlisted. *)
Definition served (db : DB) (app : string) : Prop :=
  (statusOf db app = Some ALLOCATED /\
   hasAllocation db app = true /\ hasWaitlistEntry db app = false) \/
  (statusOf db app = Some WAITLISTED /\ hasWaitlistEntry db app = true).

(** [waitlistedDb] as the routes see it. *)
Definition waitlistedSite : Site := mkSite waitlistedDb testUsers [].

(** The body of a manual assignment of [student1], without a bed number. *)
Definition assignStudent1 : AssignBody := mkAssignBody "student1" None.

(** A store whose only room is closed for maintenance. *)
Definition maintenanceSite : Site :=
  mkSite (mkDB [Block.mk "block1" "hostel1" "Test Block"]
               [Room.mk "room101" "block1" "101" 2 MAINTENANCE]
               [testBed] [app1] [] [] [])
         testUsers [].

(** ** CSV export ([routes/reports.js])

    Both reports build a line from the fields of a record: each field is
    turned into a string, every double quote in it is replaced by two, the
    result is wrapped in double quotes, and the fields are joined with a
    comma.  The document is the header followed by the lines joined with a
    line break.  The fields are modelled after [String(field)]. *)

Definition doubleQuote : ascii := "034"%char.
Definition comma : ascii := ","%char.
Definition newline : ascii := "010"%char.

(** The [replace] of the line builder: every double quote is doubled. *)
Fixpoint escapeQuotes (s : string) : string :=
  match s with
  | EmptyString => EmptyString
  | String c rest =>
      if Ascii.eqb c doubleQuote
      then String doubleQuote (String doubleQuote (escapeQuotes rest))
      else String c (escapeQuotes rest)
  end.

Definition csvField (field : string) : string :=
  String doubleQuote (escapeQuotes field ++ String doubleQuote EmptyString).

(** [Array.prototype.join]. *)
Fixpoint join (sep : string) (l : list string) : string :=
  match l with
  | [] => EmptyString
  | x :: rest =>
      match rest with
      | [] => x
      | _ :: _ => x ++ sep ++ join sep rest
      end
  end.

Definition csvRow (fields : list string) : string :=
  join (String comma EmptyString) (map csvField fields).

Definition csvDocument (csvHeader : string) (records : list (list string))
    : string :=
  csvHeader ++ join (String newline EmptyString) (map csvRow records).

(** The reader of one quoted field, started after the opening quote: the
    field, and the text that follows its closing quote. *)
Fixpoint readQuoted (s : string) : option (string * string) :=
  match s with
  | EmptyString => None
  | String c rest =>
      if Ascii.eqb c doubleQuote
      then match rest with
           | String c' rest' =>
               if Ascii.eqb c' doubleQuote
               then option_map (fun p => (String doubleQuote (fst p), snd p))
                               (readQuoted rest')
               else Some (EmptyString, rest)
           | EmptyString => Some (EmptyString, EmptyString)
           end
      else option_map (fun p => (String c (fst p), snd p)) (readQuoted rest)
  end.

(** A text that does not start with a double quote. *)
Definition unquoted (t : string) : Prop :=
  match t with
  | EmptyString => True
  | String c _ => c <> doubleQuote
  end.

(** An environment in which the status update of [addToWaitlist] is
    rejected for [app1], and nothing else. *)
Definition statusUpdateRejected : Env :=
  mkEnv (fun op => match op with
                   | WlUpdateStatus app => (app =? "app1")%string
                   | _ => false
                   end)
        (fun _ _ => false) (fun _ => "generated") (fun _ => 0) true.

(** ** One turn of the loop, and the turns of a run *)

(** The store after the [catch] block has put the status of the request
    back. *)
Definition afterReset (application : Application.t) (db : DB) : DB :=
  setApplications
    (map (updateStatus (Application.id application) (resetStatus application))
         (applications db)) db.

(** The store calls of the [try] block that can raise for request [app]
    ([allocateBed] catches the errors of its own calls). *)
Definition tryOps (app : string) : list Op :=
  [RunMarkInProgress app; WlFindMaxRank app; WlUpsert app; WlUpdateStatus app].

(** Request [application] is handled on the store [db] with the counters
    [stats], and the turn leaves [stats'] and [db'].  The outcome says how
    the [try] block ended.  Errored: the store rejected one of its calls
    for this request, the block raised that error on a store [d], only
    the error counter moved and [db'] is [d] with the status put back.
    Allocated and Waitlisted: the block returned, [stats'] and [db'] are
    its own result, and the request has its allocation, or its waitlist
    entry with the allocations untouched. *)
Definition handled (env : Env) (allocatedBy : string)
    (application : Application.t) (o : Outcome)
    (stats : Stats) (db : DB) (stats' : Stats) (db' : DB) : Prop :=
  let app := Application.id application in
  match o with
  | Errored =>
      exists op d,
        In op (tryOps app) /\ fails env op = true /\
        processBody env allocatedBy application stats db =
          (Err (StoreError op), d) /\
        stats' = incErrors stats /\
        db' = afterReset application d
  | Allocated =>
      processBody env allocatedBy application stats db = (Ok stats', db') /\
      stats' = incAllocated stats /\
      hasAllocation db' app = true /\
      hasWaitlistEntry db' app = false
  | Waitlisted =>
      processBody env allocatedBy application stats db = (Ok stats', db') /\
      stats' = incWaitlisted stats /\
      hasWaitlistEntry db' app = true /\
      allocations db' = allocations db
  end.

(** The requests of [applications] are handled one after the other, each
    on the store and with the counters that the one before it left, with
    the outcomes [outcomes]. *)
Fixpoint handledInTurn (env : Env) (allocatedBy : string)
    (applications : list Application.t) (outcomes : list Outcome)
    (stats : Stats) (db : DB) (stats' : Stats) (db' : DB) : Prop :=
  match applications, outcomes with
  | [], [] => stats' = stats /\ db' = db
  | application :: rest, o :: outcomes' =>
      exists stats1 db1,
        handled env allocatedBy application o stats db stats1 db1 /\
        handledInTurn env allocatedBy rest outcomes' stats1 db1 stats' db'
  | _, _ => False
  end.

(* ================================================================== *)
(** * Part II: properties *)

(** ** Order on identifiers and categories

    [orderBy] on a TEXT column compares strings; the model uses the
    byte-wise lexicographic order of [String.compare]. *)

Lemma ascii_compare_N (a b : ascii) :
  Ascii.compare a b = N.compare (N_of_ascii a) (N_of_ascii b).
Proof. reflexivity. Qed.

Lemma ascii_compare_trans_lt (a b c : ascii) :
  Ascii.compare a b = Lt -> Ascii.compare b c = Lt -> Ascii.compare a c = Lt.
Proof.
  rewrite !ascii_compare_N, !N.compare_lt_iff. lia.
Qed.

Lemma string_compare_refl (s : string) : String.compare s s = Eq.
Proof.
  induction s as [|c s IH]; simpl; [reflexivity|].
  rewrite ascii_compare_N, N.compare_refl. exact IH.
Qed.

Lemma string_compare_trans_lt (s1 : string) :
  forall s2 s3,
    String.compare s1 s2 = Lt -> String.compare s2 s3 = Lt ->
    String.compare s1 s3 = Lt.
Proof.
  induction s1 as [|c1 s1 IH]; intros [|c2 s2] [|c3 s3]; simpl;
    try congruence.
  destruct (Ascii.compare c1 c2) eqn:E12; try discriminate;
    destruct (Ascii.compare c2 c3) eqn:E23; try discriminate; intros H1 H2.
  - apply Ascii.compare_eq_iff in E12, E23. subst.
    rewrite ascii_compare_N, N.compare_refl. eauto.
  - apply Ascii.compare_eq_iff in E12. subst. now rewrite E23.
  - apply Ascii.compare_eq_iff in E23. subst. now rewrite E12.
  - now rewrite (ascii_compare_trans_lt _ _ _ E12 E23).
Qed.

Lemma string_leb_refl (s : string) : String.leb s s = true.
Proof. unfold String.leb. now rewrite string_compare_refl. Qed.

Lemma string_leb_trans (s1 s2 s3 : string) :
  String.leb s1 s2 = true -> String.leb s2 s3 = true -> String.leb s1 s3 = true.
Proof.
  unfold String.leb.
  destruct (String.compare s1 s2) eqn:E12; try discriminate;
    destruct (String.compare s2 s3) eqn:E23; try discriminate; intros _ _.
  - apply String.compare_eq_iff in E12, E23. subst.
    now rewrite string_compare_refl.
  - apply String.compare_eq_iff in E12. subst. now rewrite E23.
  - apply String.compare_eq_iff in E23. subst. now rewrite E12.
  - now rewrite (string_compare_trans_lt _ _ _ E12 E23).
Qed.

(* ================================================================== *)
(** ** The sort is a permutation and, for a total preorder, sorts *)

Section OrderBy.
Variable A : Type.
Variable leb : A -> A -> bool.

Lemma insertBy_perm x l : Permutation (x :: l) (insertBy leb x l).
Proof.
  induction l as [|y l IH]; simpl; [reflexivity|].
  destruct (leb x y); [reflexivity|].
  rewrite perm_swap. now constructor.
Qed.

Lemma orderBy_perm l : Permutation l (orderBy leb l).
Proof.
  induction l as [|x l IH]; simpl; [constructor|].
  rewrite <- insertBy_perm. now constructor.
Qed.

Lemma orderBy_In x l : In x (orderBy leb l) <-> In x l.
Proof.
  split; apply Permutation_in;
    [apply Permutation_sym|]; apply orderBy_perm.
Qed.

Lemma orderBy_length l : length (orderBy leb l) = length l.
Proof. symmetry. apply Permutation_length, orderBy_perm. Qed.

Lemma orderBy_nil_inv l : orderBy leb l = [] -> l = [].
Proof.
  intros H. apply Permutation_nil. rewrite <- H.
  apply Permutation_sym, orderBy_perm.
Qed.

Hypothesis leb_total : forall x y, leb x y = true \/ leb y x = true.
Hypothesis leb_trans :
  forall x y z, leb x y = true -> leb y z = true -> leb x z = true.

Let le (x y : A) : Prop := leb x y = true.

Lemma insertBy_sorted x l :
  StronglySorted le l -> StronglySorted le (insertBy leb x l).
Proof.
  induction 1 as [|y l Hs IH Hall]; simpl.
  - repeat constructor.
  - destruct (leb x y) eqn:E.
    + constructor; [now constructor|].
      constructor; [exact E|].
      rewrite Forall_forall in *. intros z Hz.
      eapply leb_trans; [exact E|]. now apply Hall.
    + constructor; [exact IH|].
      rewrite Forall_forall in *. intros z Hz.
      apply (Permutation_in _ (Permutation_sym (insertBy_perm x l))) in Hz.
      destruct Hz as [<-|Hz]; [|now apply Hall].
      destruct (leb_total x y) as [H|H]; [congruence|exact H].
Qed.

Lemma orderBy_sorted l : StronglySorted le (orderBy leb l).
Proof.
  induction l as [|x l IH]; simpl; [constructor|].
  now apply insertBy_sorted.
Qed.
End OrderBy.

Lemma In_firstn (A : Type) (x : A) (n : nat) :
  forall l, In x (firstn n l) -> In x l.
Proof.
  induction n as [|n IH]; intros [|y l]; simpl; try tauto.
  intros [H|H]; [now left|right; now apply IH].
Qed.

Lemma existsb_map (A B : Type) (f : B -> bool) (g : A -> B) (l : list A) :
  existsb f (map g l) = existsb (fun x => f (g x)) l.
Proof.
  induction l as [|x l IH]; simpl; [reflexivity|]. now rewrite IH.
Qed.

Lemma existsb_ext (A : Type) (f g : A -> bool) (l : list A) :
  (forall x, f x = g x) -> existsb f l = existsb g l.
Proof.
  intros H. induction l as [|x l IH]; simpl; [reflexivity|].
  now rewrite H, IH.
Qed.

Lemma firstn_StronglySorted (A : Type) (R : A -> A -> Prop) (n : nat) :
  forall l, StronglySorted R l -> StronglySorted R (firstn n l).
Proof.
  induction n as [|n IH]; intros l Hs; simpl; [constructor|].
  destruct l as [|x l]; [constructor|].
  inversion Hs as [|? ? Hs' Hall]; subst.
  constructor; [now apply IH|].
  rewrite Forall_forall in *. intros y Hy. apply Hall.
  revert Hy. apply In_firstn.
Qed.

(* ================================================================== *)
(** ** Candidate selection *)

Lemma bedIdLeb_total (a b : Bed.t) : bedIdLeb a b = true \/ bedIdLeb b a = true.
Proof. apply String.leb_total. Qed.

Lemma bedIdLeb_trans (a b c : Bed.t) :
  bedIdLeb a b = true -> bedIdLeb b c = true -> bedIdLeb a c = true.
Proof. apply string_leb_trans. Qed.

Lemma findCandidateBeds_In (f : RoomFilter) (db : DB) (b : Bed.t) :
  In b (findCandidateBeds f db) -> In b (beds db) /\ bedWhere db f b = true.
Proof.
  unfold findCandidateBeds. intros H.
  apply In_firstn, orderBy_In, filter_In in H. exact H.
Qed.

Lemma find_id_some (A : Type) (key : A -> string) (id : string) (l : list A) (x : A) :
  find (fun y => key y =? id)%string l = Some x -> In x l /\ key x = id.
Proof.
  intros H. apply find_some in H. destruct H as [Hin Heq].
  now apply String.eqb_eq in Heq.
Qed.

Lemma RoomStatus_eqb_eq (a b : RoomStatus) : RoomStatus_eqb a b = true <-> a = b.
Proof. destruct a, b; simpl; split; congruence. Qed.

Lemma ApplicationStatus_eqb_eq (a b : ApplicationStatus) :
  ApplicationStatus_eqb a b = true <-> a = b.
Proof. destruct a, b; simpl; split; congruence. Qed.

Lemma bedWhere_spec (db : DB) (f : RoomFilter) (b : Bed.t) :
  bedWhere db f b = true <->
  Bed.occupiedBy b = None /\
  exists room,
    findRoom db (Bed.roomId b) = Some room /\
    Room.status room = filterStatus f /\
    match filterHostelIn f with
    | None => True
    | Some hostels =>
        exists block,
          findBlock db (Room.blockId room) = Some block /\
          In (Block.hostelId block) hostels
    end.
Proof.
  unfold bedWhere, roomMatches.
  destruct (Bed.occupiedBy b) as [u|]; [split; [discriminate|intros [H _]; discriminate]|].
  destruct (findRoom db (Bed.roomId b)) as [room|];
    [|split; [discriminate|intros [_ [r [H _]]]; discriminate]].
  rewrite andb_true_iff, RoomStatus_eqb_eq.
  split.
  - intros [Hs Hh]. split; [reflexivity|]. exists room.
    repeat split; [exact Hs|].
    destruct (filterHostelIn f) as [hostels|]; [|exact I].
    destruct (findBlock db (Room.blockId room)) as [block|]; [|discriminate].
    exists block. split; [reflexivity|].
    apply existsb_exists in Hh. destruct Hh as [h [Hin Heq]].
    apply String.eqb_eq in Heq. now subst.
  - intros [_ [r [Hr [Hs Hh]]]]. injection Hr as <-. split; [exact Hs|].
    destruct (filterHostelIn f) as [hostels|]; [|reflexivity].
    destruct Hh as [block [-> Hin]].
    apply existsb_exists. exists (Block.hostelId block).
    split; [exact Hin|apply String.eqb_refl].
Qed.

(* ================================================================== *)
(** ** The allocation transaction *)

Lemma lockQuery_nonempty (env : Env) (app : string) (db : DB) (bedId : string) :
  (0 <? length (lockQuery env app db bedId))%nat = true ->
  skipLocked env app bedId = false /\
  exists b, In b (beds db) /\ Bed.id b = bedId /\ Bed.occupiedBy b = None.
Proof.
  unfold lockQuery. destruct (skipLocked env app bedId); [discriminate|].
  intros H. split; [reflexivity|].
  destruct (filter _ (beds db)) as [|b l] eqn:E; [discriminate|].
  assert (Hin : In b (b :: l)) by now left.
  rewrite <- E in Hin. apply filter_In in Hin. destruct Hin as [Hin Hb].
  apply andb_true_iff in Hb. destruct Hb as [Hid Hocc].
  exists b. apply String.eqb_eq in Hid.
  destruct (Bed.occupiedBy b); [discriminate|]. auto.
Qed.

Lemma lockFirst_Some (env : Env) (app : string) (db : DB) (cands : list Bed.t)
    (bed : Bed.t) :
  lockFirst env app db cands = Some bed ->
  In bed cands /\
  fails env (TxLockBed app (Bed.id bed)) = false /\
  skipLocked env app (Bed.id bed) = false /\
  exists b, In b (beds db) /\ Bed.id b = Bed.id bed /\ Bed.occupiedBy b = None.
Proof.
  induction cands as [|c rest IH]; simpl; [discriminate|].
  destruct (fails env (TxLockBed app (Bed.id c))) eqn:Ef.
  - intros H. destruct (IH H) as [? ?]. auto.
  - destruct (0 <? length (lockQuery env app db (Bed.id c)))%nat eqn:El.
    + intros [= <-]. apply lockQuery_nonempty in El.
      destruct El as [Hs Hb]. auto.
    + intros H. destruct (IH H) as [? ?]. auto.
Qed.

Lemma existsb_id (A : Type) (key : A -> string) (l : list A) (x : A) :
  In x l -> existsb (fun y => key y =? key x)%string l = true.
Proof.
  intros H. apply existsb_exists. exists x. split; [exact H|apply String.eqb_refl].
Qed.

(** What a call of [allocateBed] can do: nothing, or the whole commit. *)
Lemma allocateBed_cases (env : Env) (a : Application.t) (allocatedBy : string)
    (db : DB) :
  allocateBed env a allocatedBy db = (Ok false, db) \/
  exists bed,
    lockFirst env (Application.id a) db
              (findCandidateBeds (baseRoomFilter a) db) = Some bed /\
    txAccepted env (Application.id a) = true /\
    hasRow db (Application.id a) = true /\
    allocateBed env a allocatedBy db =
      (Ok (isSome (Application.student a)),
       commitWrites env a allocatedBy bed db).
Proof.
  unfold allocateBed, tryCatch, bind, transaction, allocationTx, bind, query.
  unfold txAccepted, hasRow.
  destruct (fails env (TxFindCandidates (Application.id a))); [now left|].
  destruct (findCandidateBeds (baseRoomFilter a) db) as [|c cands] eqn:Ec.
  { unfold ret. destruct (fails env (TxCommit _)); now left. }
  destruct (lockFirst env (Application.id a) db (c :: cands)) as [bed|] eqn:El.
  2:{ unfold ret. destruct (fails env (TxCommit _)); now left. }
  destruct (lockFirst_Some _ _ _ _ El) as (Hin & _ & _ & b & Hb & Hid & _).
  unfold bedUpdate.
  destruct (fails env (TxUpdateBed _)); [now left|].
  rewrite <- Hid, (existsb_id Bed.id _ _ Hb), Hid.
  unfold applicationUpdate, setBeds at 1 2. simpl applications.
  destruct (fails env (TxUpdateApplication _)); [now left|].
  destruct (existsb _ (applications db)) eqn:Erow; [|now left].
  unfold exec.
  destruct (fails env (TxDeleteWaitlist _)); [now left|].
  destruct (fails env (TxCreateAllocation _)); [now left|].
  destruct (fails env (TxCreateAuditLog _)); [now left|].
  unfold ret.
  destruct (fails env (TxCommit _)); [now left|].
  right. exists bed. repeat split.
  unfold sendAllocationNotification, throw, ret, commitWrites.
  destruct (Application.student a); reflexivity.
Qed.

Lemma findCandidateBeds_ext (f : RoomFilter) (db1 db2 : DB) :
  blocks db1 = blocks db2 -> rooms db1 = rooms db2 -> beds db1 = beds db2 ->
  findCandidateBeds f db1 = findCandidateBeds f db2.
Proof.
  intros Hb Hr Hbeds. unfold findCandidateBeds. rewrite Hbeds.
  do 2 f_equal. apply filter_ext. intros b.
  unfold bedWhere, roomMatches, findRoom, findBlock. now rewrite Hb, Hr.
Qed.

Lemma allocateBed_no_candidate (env : Env) (a : Application.t)
    (allocatedBy : string) (db : DB) :
  findCandidateBeds (baseRoomFilter a) db = [] ->
  allocateBed env a allocatedBy db = (Ok false, db).
Proof.
  intros Hc. destruct (allocateBed_cases env a allocatedBy db) as [H|H];
    [exact H|].
  destruct H as (bed & Hl & _). rewrite Hc in Hl. discriminate.
Qed.

Lemma baseRoomFilter_status (a : Application.t) :
  filterStatus (baseRoomFilter a) = AVAILABLE.
Proof. reflexivity. Qed.

Lemma baseRoomFilter_hostels (a : Application.t) :
  filterHostelIn (baseRoomFilter a) =
  match preferredHostelsOf a with
  | [] => None
  | _ :: _ => Some (preferredHostelsOf a)
  end.
Proof.
  unfold baseRoomFilter. simpl. now destruct (preferredHostelsOf a).
Qed.

Lemma candidate_matches (db : DB) (a : Application.t) (bed : Bed.t) :
  bedWhere db (baseRoomFilter a) bed = true <-> matchesRequest db a bed.
Proof.
  rewrite bedWhere_spec, baseRoomFilter_status, baseRoomFilter_hostels.
  unfold matchesRequest.
  split; intros (Hfree & room & Hroom & Hst & Hh); split; trivial;
    exists room; repeat split; trivial.
  - intros Hne. destruct (preferredHostelsOf a); [contradiction|exact Hh].
  - destruct (preferredHostelsOf a) eqn:E; [exact I|].
    apply Hh. discriminate.
Qed.

Lemma StronglySorted_app_cross (A : Type) (R : A -> A -> Prop) :
  forall l1 l2 : list A,
    StronglySorted R (l1 ++ l2) ->
    forall x y, In x l1 -> In y l2 -> R x y.
Proof.
  induction l1 as [|a l1 IH]; intros l2 Hs x y Hx Hy; [destruct Hx|].
  simpl in Hs. inversion Hs as [|? ? Hs' Hall]; subst.
  destruct Hx as [<-|Hx].
  - rewrite Forall_forall in Hall. apply Hall, in_or_app. now right.
  - now apply (IH l2).
Qed.

Lemma firstn_full_length (A : Type) (n : nat) (l : list A) :
  skipn n l <> [] -> length (firstn n l) = n.
Proof.
  intros H. rewrite length_firstn. apply Nat.min_l.
  destruct (Nat.le_gt_cases n (length l)) as [Hle|Hgt]; [exact Hle|].
  elim H. apply skipn_all2. lia.
Qed.

(** The candidate list and the matching beds that the limit leaves out
    make up the matching beds of the store, and no bed left out comes
    before a candidate. *)
Lemma findCandidateBeds_least (f : RoomFilter) (db : DB) :
  let candidateBeds := findCandidateBeds f db in
  let leftOut := skipn 10 (orderBy bedIdLeb (filter (bedWhere db f) (beds db))) in
  Permutation (candidateBeds ++ leftOut) (filter (bedWhere db f) (beds db)) /\
  (leftOut <> [] -> length candidateBeds = 10%nat) /\
  (forall c b, In c candidateBeds -> In b leftOut ->
               String.leb (Bed.id c) (Bed.id b) = true).
Proof.
  cbv zeta. unfold findCandidateBeds.
  set (sorted := orderBy bedIdLeb (filter (bedWhere db f) (beds db))).
  split; [|split].
  - rewrite firstn_skipn. apply Permutation_sym, orderBy_perm.
  - apply firstn_full_length.
  - apply (@StronglySorted_app_cross Bed.t
             (fun a b => String.leb (Bed.id a) (Bed.id b) = true)).
    rewrite firstn_skipn.
    apply (orderBy_sorted bedIdLeb bedIdLeb_total bedIdLeb_trans).
Qed.

(** C9. The candidates of [allocateBed] are at most 10 beds in ascending
    order of bed id; each of them is a bed of the store with no occupant,
    whose room has status AVAILABLE and, when the request names preferred
    hostels, lies in a block of one of these hostels.  They are the
    matching beds of the store that come first in that order: with the
    beds the limit leaves out they make up the rows of the store that pass
    the filter, each as often as the store has it; a bed is left out only
    when ten candidates are returned, and none of these comes after it; so
    every matching bed of a store with at most ten of them is a candidate,
    and the list is empty exactly when no bed of the store matches.  With
    no candidate, [allocateBed] answers [false] without raising and
    without touching the store, and the batch runner goes on with
    [addToWaitlist]. *)
Theorem candidate_selection (env : Env) (db : DB)
    (application : Application.t) (allocatedBy : string) (stats : Stats) :
  let candidateBeds := findCandidateBeds (baseRoomFilter application) db in
  let app := Application.id application in
  (length candidateBeds <= 10)%nat /\
  StronglySorted (fun a b => String.leb (Bed.id a) (Bed.id b) = true)
                 candidateBeds /\
  (forall bed, In bed candidateBeds ->
     In bed (beds db) /\
     Bed.occupiedBy bed = None /\
     exists room,
       findRoom db (Bed.roomId bed) = Some room /\
       Room.status room = AVAILABLE /\
       (preferredHostelsOf application <> [] ->
        exists block,
          findBlock db (Room.blockId room) = Some block /\
          In (Block.hostelId block) (preferredHostelsOf application))) /\
  (exists leftOut,
     Permutation (candidateBeds ++ leftOut)
                 (filter (bedWhere db (baseRoomFilter application)) (beds db)) /\
     (leftOut <> [] -> length candidateBeds = 10%nat) /\
     (forall c b, In c candidateBeds -> In b leftOut ->
                  String.leb (Bed.id c) (Bed.id b) = true)) /\
  (forall bed,
     bedWhere db (baseRoomFilter application) bed = true <->
     matchesRequest db application bed) /\
  (forall bed, In bed (beds db) -> matchesRequest db application bed ->
     In bed candidateBeds \/
     (length candidateBeds = 10%nat /\
      forall c, In c candidateBeds ->
                String.leb (Bed.id c) (Bed.id bed) = true)) /\
  (candidateBeds = [] <->
   forall bed, In bed (beds db) -> ~ matchesRequest db application bed) /\
  (candidateBeds = [] ->
     allocateBed env application allocatedBy db = (Ok false, db) /\
     processApplication env allocatedBy application stats db =
       tryCatch
         (applicationUpdate env (RunMarkInProgress app) app IN_PROGRESS;;;
          addToWaitlist env application;;;
          ret (incWaitlisted stats))
         (resetOnError env application stats) db).
Proof.
  intros candidateBeds app.
  assert (Hsound : forall bed, In bed candidateBeds ->
            In bed (beds db) /\ matchesRequest db application bed).
  { intros bed H. apply findCandidateBeds_In in H. destruct H as [Hin Hw].
    split; [exact Hin|]. now apply candidate_matches. }
  destruct (findCandidateBeds_least (baseRoomFilter application) db)
    as (Hperm & Hfull & Hcross).
  fold candidateBeds in Hperm, Hfull, Hcross.
  set (leftOut := skipn 10 (orderBy bedIdLeb
                    (filter (bedWhere db (baseRoomFilter application))
                            (beds db)))) in *.
  assert (Hcomplete : forall bed, In bed (beds db) ->
            matchesRequest db application bed ->
            In bed candidateBeds \/
            (length candidateBeds = 10%nat /\
             forall c, In c candidateBeds ->
                       String.leb (Bed.id c) (Bed.id bed) = true)).
  { intros bed Hin Hm. apply candidate_matches in Hm.
    assert (Hf : In bed (filter (bedWhere db (baseRoomFilter application))
                                (beds db)))
      by (apply filter_In; now split).
    apply (Permutation_in _ (Permutation_sym Hperm)) in Hf.
    apply in_app_or in Hf. destruct Hf as [Hc|Hl]; [now left|right].
    split.
    - apply Hfull. intros E. rewrite E in Hl. destruct Hl.
    - intros c Hc. now apply Hcross. }
  split; [apply firstn_le_length|].
  split.
  { apply firstn_StronglySorted.
    apply (orderBy_sorted bedIdLeb bedIdLeb_total bedIdLeb_trans). }
  split.
  { intros bed H. destruct (Hsound bed H) as [Hin Hm]. split; [exact Hin|].
    exact Hm. }
  split; [exists leftOut; repeat split; assumption|].
  split; [intros bed; apply candidate_matches|].
  split; [exact Hcomplete|].
  split.
  { split.
    - intros E bed Hin Hm. destruct (Hcomplete bed Hin Hm) as [H|[H _]];
        rewrite E in H; [destruct H|discriminate].
    - intros Hnone. destruct candidateBeds as [|c rest] eqn:E; [reflexivity|].
      destruct (Hsound c (or_introl eq_refl)) as [Hin Hm].
      now elim (Hnone c Hin). }
  intros H. split.
  - now apply allocateBed_no_candidate.
  - unfold processApplication, tryCatch, bind. fold app.
    unfold applicationUpdate at 1 2.
    destruct (fails env (RunMarkInProgress app)); [reflexivity|].
    destruct (existsb _ (applications db)); [|reflexivity].
    rewrite allocateBed_no_candidate; [reflexivity|].
    rewrite <- H. now apply findCandidateBeds_ext.
Qed.

Lemma bedWhere_no_hostels (db : DB) (a : Application.t) (b : Bed.t) :
  preferredHostelsOf a = [] ->
  bedWhere db (baseRoomFilter a) b = freeInAvailableRoom db b.
Proof.
  intros H. unfold bedWhere, freeInAvailableRoom, roomMatches, baseRoomFilter.
  rewrite H. simpl.
  destruct (Bed.occupiedBy b); [reflexivity|].
  destruct (findRoom db (Bed.roomId b)); [|reflexivity].
  apply andb_true_r.
Qed.

Lemma allocateBed_returns (env : Env) (a : Application.t)
    (allocatedBy : string) (db : DB) :
  exists b db', allocateBed env a allocatedBy db = (Ok b, db').
Proof.
  destruct (allocateBed_cases env a allocatedBy db) as [H|(bed & _ & _ & _ & H)];
    rewrite H; eauto.
Qed.

(** C10. For a request whose [preferences] are absent, or carry no
    [preferredHostels] (or an empty list of them), the filter of
    [allocateBed] is "no occupant, room AVAILABLE" and nothing else: no
    hostel and no room type enters it.  The candidates are the first 10,
    by id, of all such beds, so each of them is a candidate when there are
    at most 10; and the call returns a boolean, it does not raise. *)
Theorem no_preferred_hostels_no_filter (env : Env) (db : DB)
    (application : Application.t) (allocatedBy : string) :
  (Application.preferences application = None \/
   exists p, Application.preferences application = Some p /\
             (preferredHostels p = None \/ preferredHostels p = Some [])) ->
  (forall bed,
     bedWhere db (baseRoomFilter application) bed = freeInAvailableRoom db bed) /\
  findCandidateBeds (baseRoomFilter application) db =
    firstn 10 (orderBy bedIdLeb (filter (freeInAvailableRoom db) (beds db))) /\
  (forall bed,
     In bed (beds db) -> freeInAvailableRoom db bed = true ->
     (length (filter (freeInAvailableRoom db) (beds db)) <= 10)%nat ->
     In bed (findCandidateBeds (baseRoomFilter application) db)) /\
  exists b db', allocateBed env application allocatedBy db = (Ok b, db').
Proof.
  intros Hp.
  assert (Hnil : preferredHostelsOf application = []).
  { unfold preferredHostelsOf.
    destruct Hp as [->|(p & -> & [->| ->])]; reflexivity. }
  assert (Hc : findCandidateBeds (baseRoomFilter application) db =
               firstn 10 (orderBy bedIdLeb
                            (filter (freeInAvailableRoom db) (beds db)))).
  { unfold findCandidateBeds. do 2 f_equal. apply filter_ext.
    intros b. now apply bedWhere_no_hostels. }
  repeat split.
  - intros bed. now apply bedWhere_no_hostels.
  - exact Hc.
  - intros bed Hin Hfree Hlen. rewrite Hc.
    rewrite firstn_all2 by now rewrite orderBy_length.
    apply orderBy_In, filter_In. now split.
  - apply allocateBed_returns.
Qed.

Lemma no_preferred_hostels_no_filter_witness :
  let application :=
    Application.plain
      (Application.mkRow "app1" "student1"
         (Some (mkPreferences None (Some "DELUXE"))) PENDING 1000 None student1) in
  findCandidateBeds (baseRoomFilter application) testDb = [testBed].
Proof.
  intros application.
  destruct (no_preferred_hostels_no_filter noFaults testDb application "admin")
    as (_ & H & _).
  - right. eexists. split; [reflexivity|left; reflexivity].
  - rewrite H. reflexivity.
Defined.

(* ================================================================== *)
(** ** Status updates, row by row *)

Lemma updateStatus_id (app : string) (s : ApplicationStatus) (r : Application.row) :
  Application.id (updateStatus app s r) = Application.id r.
Proof. unfold updateStatus. now destruct (Application.id r =? app)%string. Qed.

Lemma find_map_updateStatus (app app' : string) (s : ApplicationStatus)
    (l : list Application.row) :
  find (fun r => Application.id r =? app')%string (map (updateStatus app s) l) =
  option_map (updateStatus app s)
             (find (fun r => Application.id r =? app')%string l).
Proof.
  induction l as [|r l IH]; simpl; [reflexivity|].
  rewrite updateStatus_id.
  destruct (Application.id r =? app')%string; [reflexivity|exact IH].
Qed.

Lemma statusOf_setApplications (app app' : string) (s : ApplicationStatus) (db : DB) :
  statusOf (setApplications (map (updateStatus app s) (applications db)) db) app' =
  if (app' =? app)%string
  then option_map (fun _ => s) (statusOf db app')
  else statusOf db app'.
Proof.
  unfold statusOf. simpl. rewrite find_map_updateStatus.
  destruct (find _ (applications db)) as [r|] eqn:E; simpl.
  - apply find_id_some in E. destruct E as [_ E]. unfold updateStatus.
    rewrite E. now destruct (app' =? app)%string.
  - now destruct (app' =? app)%string.
Qed.

Lemma hasRow_statusOf (db : DB) (app : string) :
  hasRow db app = true <-> exists s, statusOf db app = Some s.
Proof.
  unfold hasRow, statusOf. split.
  - intros H. apply existsb_exists in H. destruct H as (r & Hin & Hid).
    destruct (find _ (applications db)) as [r'|] eqn:E; simpl; eauto.
    apply (find_none _ _ E) in Hin. congruence.
  - intros (s & H).
    destruct (find _ (applications db)) as [r'|] eqn:E; [|discriminate].
    apply find_some in E. apply existsb_exists. eauto.
Qed.

(* ================================================================== *)
(** ** What a commit leaves in the store *)

Lemma commitWrites_beds env a allocatedBy bed db :
  beds (commitWrites env a allocatedBy bed db) =
  map (fun b => if (Bed.id b =? Bed.id bed)%string
                then occupy (Application.studentId a) b else b) (beds db).
Proof. reflexivity. Qed.

Lemma commitWrites_applications env a allocatedBy bed db :
  applications (commitWrites env a allocatedBy bed db) =
  map (updateStatus (Application.id a) ALLOCATED) (applications db).
Proof. reflexivity. Qed.

Lemma commitWrites_waitlistEntries env a allocatedBy bed db :
  waitlistEntries (commitWrites env a allocatedBy bed db) =
  filter (fun e => negb (WaitlistEntry.applicationId e =? Application.id a)%string)
         (waitlistEntries db).
Proof. reflexivity. Qed.

Lemma commitWrites_allocations env a allocatedBy bed db :
  allocations (commitWrites env a allocatedBy bed db) =
  (allocations db ++ [newAllocation env a bed allocatedBy])%list.
Proof. reflexivity. Qed.

Lemma commitWrites_statusOf env a allocatedBy bed db app :
  statusOf (commitWrites env a allocatedBy bed db) app =
  if (app =? Application.id a)%string
  then option_map (fun _ => ALLOCATED) (statusOf db app)
  else statusOf db app.
Proof.
  rewrite <- statusOf_setApplications. reflexivity.
Qed.

Lemma hasWaitlistEntry_deleted (app : string) (db : DB) :
  hasWaitlistEntry (deleteWaitlist app db) app = false.
Proof.
  unfold hasWaitlistEntry, deleteWaitlist. simpl.
  apply not_true_is_false. intros H. apply existsb_exists in H.
  destruct H as (e & Hin & He). apply filter_In in Hin.
  destruct Hin as [_ Hn]. rewrite He in Hn. discriminate.
Qed.

Lemma commitWrites_hasWaitlistEntry env a allocatedBy bed db app :
  hasWaitlistEntry (commitWrites env a allocatedBy bed db) app =
  if (app =? Application.id a)%string then false else hasWaitlistEntry db app.
Proof.
  unfold hasWaitlistEntry. rewrite commitWrites_waitlistEntries.
  destruct (app =? Application.id a)%string eqn:E.
  - apply String.eqb_eq in E. subst.
    apply (hasWaitlistEntry_deleted (Application.id a) db).
  - induction (waitlistEntries db) as [|e l IH]; simpl; [reflexivity|].
    destruct (WaitlistEntry.applicationId e =? Application.id a)%string eqn:Ee;
      simpl; [|now rewrite IH].
    apply String.eqb_eq in Ee. rewrite IH, Ee.
    rewrite String.eqb_sym in E. now rewrite E.
Qed.

Lemma commitWrites_hasAllocation env a allocatedBy bed db app :
  hasAllocation (commitWrites env a allocatedBy bed db) app =
  hasAllocation db app || (Application.id a =? app)%string.
Proof.
  unfold hasAllocation. rewrite commitWrites_allocations, existsb_app.
  simpl. now rewrite orb_false_r.
Qed.

(** C6. Whatever the store rejects, a call of [allocateBed] leaves the
    store either exactly as it found it, or with all five writes of the
    transaction done and none of its steps rejected: the bed carries the
    student, the request is ALLOCATED, it has no waitlist entry, and the
    allocation and its audit record exist.  So when any step of the
    transaction is rejected nothing of it remains. *)
Theorem allocation_is_atomic (env : Env) (application : Application.t)
    (allocatedBy : string) (db : DB) :
  let app := Application.id application in
  exists b db',
    allocateBed env application allocatedBy db = (Ok b, db') /\
    ((db' = db /\ b = false) \/
     exists bed,
       In bed (beds db) /\
       txAccepted env app = true /\
       db' = commitWrites env application allocatedBy bed db /\
       In (occupy (Application.studentId application) bed) (beds db') /\
       statusOf db' app = Some ALLOCATED /\
       hasWaitlistEntry db' app = false /\
       In (newAllocation env application bed allocatedBy) (allocations db') /\
       In (allocationAudit env application
             (newAllocation env application bed allocatedBy) allocatedBy)
          (auditLogs db')) /\
    (txAccepted env app = false -> db' = db /\ b = false).
Proof.
  intros app.
  destruct (allocateBed_cases env application allocatedBy db)
    as [H|(bed & Hl & Hacc & Hrow & H)]; rewrite H.
  - exists false, db. repeat split; auto.
  - eexists _, _. split; [reflexivity|]. split.
    + right. exists bed.
      apply lockFirst_Some in Hl. destruct Hl as (Hin & _).
      apply findCandidateBeds_In in Hin. destruct Hin as [Hin _].
      repeat split; try assumption.
      * rewrite commitWrites_beds. apply in_map_iff. exists bed.
        now rewrite String.eqb_refl.
      * rewrite commitWrites_statusOf. fold app. rewrite String.eqb_refl.
        apply hasRow_statusOf in Hrow. destruct Hrow as (s & Hs).
        fold app in Hs. now rewrite Hs.
      * rewrite commitWrites_hasWaitlistEntry. fold app.
        now rewrite String.eqb_refl.
      * rewrite commitWrites_allocations. apply in_or_app. right. now left.
      * unfold commitWrites. simpl. apply in_or_app. right. now left.
    + fold app in Hacc. congruence.
Qed.

Lemma allocateBed_true (env : Env) (a : Application.t) (allocatedBy : string)
    (db : DB) :
  exists b db',
    allocateBed env a allocatedBy db = (Ok b, db') /\
    (b = true ->
     Application.student a <> None /\
     exists bed, db' = commitWrites env a allocatedBy bed db) /\
    (Application.student a = None -> b = false).
Proof.
  destruct (allocateBed_cases env a allocatedBy db)
    as [H|(bed & _ & _ & _ & H)]; rewrite H; eexists _, _;
    (split; [reflexivity|]).
  - split; [discriminate|reflexivity].
  - split.
    + intros Hb. split; [|now exists bed].
      intros Hs. rewrite Hs in Hb. discriminate.
    + now intros ->.
Qed.

(** C3. [allocateBed] never raises and answers [true] only after a commit;
    but it answers [false] for every application passed without its
    [student] relation, also after a commit.  On the input of the
    repository's own test "should allocate bed for application" (an
    application created without the relation, one free bed in its
    preferred hostel, no store failure) the transaction commits: the bed
    is occupied, the allocation exists, the request is ALLOCATED; and the
    answer is [false]. *)
Theorem allocateBed_false_after_commit :
  (forall env (a : Application.t) allocatedBy db,
     exists b db',
       allocateBed env a allocatedBy db = (Ok b, db') /\
       (b = true ->
        Application.student a <> None /\
        exists bed, db' = commitWrites env a allocatedBy bed db) /\
       (Application.student a = None -> b = false)) /\
  let application := Application.plain app1 in
  let db' := commitWrites noFaults application "admin" testBed testDb in
  allocateBed noFaults application "admin" testDb = (Ok false, db') /\
  hasAllocation db' "app1" = true /\
  statusOf db' "app1" = Some ALLOCATED /\
  beds db' = [Bed.mk "bed1" "room101" 1 (Some "student1")].
Proof.
  split; [intros; apply allocateBed_true|].
  vm_compute. repeat split.
Qed.

(* ================================================================== *)
(** ** The order of a batch run *)

Lemma priorityDesc_antisym (nf : bool) (a b : option string) :
  priorityDesc nf a b = CompOpp (priorityDesc nf b a).
Proof.
  destruct a, b, nf; simpl; try reflexivity; apply String.compare_antisym.
Qed.

Lemma priorityDesc_refl (nf : bool) (a : option string) :
  priorityDesc nf a a = Eq.
Proof. destruct a; simpl; [apply string_compare_refl|reflexivity]. Qed.

Lemma priorityDesc_eq (nf : bool) (a b : option string) :
  priorityDesc nf a b = Eq -> a = b.
Proof.
  destruct a, b, nf; simpl; try discriminate; try reflexivity;
    intros H; apply String.compare_eq_iff in H; now subst.
Qed.

Lemma priorityDesc_trans_lt (nf : bool) (a b c : option string) :
  priorityDesc nf a b = Lt -> priorityDesc nf b c = Lt ->
  priorityDesc nf a c = Lt.
Proof.
  destruct a, b, c, nf; simpl; try discriminate; try reflexivity;
    intros H1 H2; eapply string_compare_trans_lt; eassumption.
Qed.

Lemma applicationLeb_total (nf : bool) (a b : Application.row) :
  applicationLeb nf a b = true \/ applicationLeb nf b a = true.
Proof.
  unfold applicationLeb.
  rewrite (priorityDesc_antisym nf (Application.priorityCategory b)).
  destruct (priorityDesc _ _ _); simpl; auto.
  rewrite !Z.leb_le. lia.
Qed.

Lemma applicationLeb_trans (nf : bool) (a b c : Application.row) :
  applicationLeb nf a b = true -> applicationLeb nf b c = true ->
  applicationLeb nf a c = true.
Proof.
  unfold applicationLeb.
  destruct (priorityDesc nf (Application.priorityCategory a)
                         (Application.priorityCategory b)) eqn:Eab;
    try discriminate;
    destruct (priorityDesc nf (Application.priorityCategory b)
                           (Application.priorityCategory c)) eqn:Ebc;
    try discriminate; intros H1 H2.
  - apply priorityDesc_eq in Eab, Ebc. rewrite Eab, Ebc, priorityDesc_refl.
    rewrite Z.leb_le in *. lia.
  - apply priorityDesc_eq in Eab. now rewrite Eab, Ebc.
  - apply priorityDesc_eq in Ebc. now rewrite <- Ebc, Eab.
  - now rewrite (priorityDesc_trans_lt _ _ _ _ Eab Ebc).
Qed.

Lemma applicationLeb_processedBefore (nf : bool) (a b : Application.row) :
  applicationLeb nf a b = true -> processedBefore a b.
Proof.
  unfold applicationLeb, processedBefore. intros H. split.
  - intros x y Ha Hb. rewrite Ha, Hb in H. simpl in H. unfold String.leb.
    destruct (String.compare y x); [reflexivity|reflexivity|discriminate].
  - intros E. rewrite E, priorityDesc_refl in H. now apply Z.leb_le.
Qed.

Lemma StronglySorted_weaken (A : Type) (R S : A -> A -> Prop) (l : list A) :
  (forall a b, R a b -> S a b) -> StronglySorted R l -> StronglySorted S l.
Proof.
  intros HRS. induction 1 as [|x l Hs IH Hall]; constructor; [exact IH|].
  revert Hall. apply Forall_impl. apply HRS.
Qed.

Lemma findApplications_fields (env : Env) (db : DB) :
  map Application.fields (findApplications env db) =
  orderBy (applicationLeb (descNullsFirst env)) (filter selectable (applications db)).
Proof.
  unfold findApplications. rewrite map_map. simpl. apply map_id.
Qed.

Lemma selectable_spec (r : Application.row) :
  selectable r = true <->
  Application.status r = PENDING \/ Application.status r = WAITLISTED.
Proof.
  unfold selectable, statusIn. simpl.
  destruct (Application.status r); simpl; split; intros H;
    try reflexivity; try discriminate; auto; destruct H; discriminate.
Qed.

(** C2, as amended.  A batch run takes exactly the applications whose
    status is PENDING or WAITLISTED, and handles them one after the other
    in the order of the query: by priority category in descending order of
    its value, and by submission time among requests of the same category
    (or both without one). *)
Theorem processing_order (env : Env) (allocatedBy : string) (db : DB) :
  let processed := map Application.fields (findApplications env db) in
  Permutation (filter selectable (applications db)) processed /\
  (forall r, In r processed <->
             In r (applications db) /\
             (Application.status r = PENDING \/
              Application.status r = WAITLISTED)) /\
  StronglySorted processedBefore processed /\
  (fails env RunFindApplications = false ->
   runAllocation env allocatedBy db =
     tryCatch
       (stats <- processAll env allocatedBy (findApplications env db)
                   (mkStats 0 0 0);;
        createAuditLog env RunAuditLog allocatedBy CREATE "ALLOCATION" "batch"
          (BatchDetails stats (clock env RunAuditLog));;;
        ret stats)
       (fun error => throw error) db).
Proof.
  intros processed. unfold processed. rewrite findApplications_fields.
  repeat split.
  - apply orderBy_perm.
  - now apply orderBy_In, filter_In in H.
  - apply orderBy_In, filter_In in H. now apply selectable_spec.
  - intros [Hin Hs]. apply orderBy_In, filter_In.
    split; [exact Hin|now apply selectable_spec].
  - apply StronglySorted_weaken
      with (R := fun a b => applicationLeb (descNullsFirst env) a b = true).
    + apply applicationLeb_processedBefore.
    + apply orderBy_sorted; [apply applicationLeb_total|apply applicationLeb_trans].
  - intros Hf. unfold runAllocation, tryCatch, bind, query. now rewrite Hf.
Qed.

(** The instance of the specification: R1 (no category, 10:00), R2 (a
    category, 10:05), R3 (no category, 09:00).  The order is R2, R3, R1 on
    a database that puts NULL last in a descending order, and R3, R1, R2
    on PostgreSQL, which puts it first. *)
Example priority_instance :
  let db := mkDB [] [] [] [request1; request2; request3] [] [] [] in
  map idOf (findApplications nullsLast db) = ["R2"; "R3"; "R1"] /\
  map idOf (findApplications noFaults db) = ["R3"; "R1"; "R2"].
Proof. split; reflexivity. Qed.

(** C2, counterexample.  Two pending requests with the categories
    HANDICAPPED (submitted first) and MERIT (submitted later): the run
    takes the later one first, because MERIT is the larger value; the
    specified order puts the earlier one first. *)
Lemma processing_order_counterexample :
  let db := mkDB [] [] [] [handicapped0900; merit1000] [] [] [] in
  map Application.fields (findApplications noFaults db) =
    [merit1000; handicapped0900] /\
  map Application.fields (findApplications nullsLast db) =
    [merit1000; handicapped0900] /\
  specifiedBefore handicapped0900 merit1000 /\
  ~ specifiedBefore merit1000 handicapped0900.
Proof.
  split; [reflexivity|]. split; [reflexivity|].
  unfold specifiedBefore. simpl. split.
  - right. split; [reflexivity|lia].
  - intros [[_ H]|[_ H]]; [discriminate|lia].
Qed.

(* ================================================================== *)
(** ** Waitlist ranks *)

Lemma rankDescLeb_total (a b : WaitlistEntry.t) :
  rankDescLeb a b = true \/ rankDescLeb b a = true.
Proof. unfold rankDescLeb. rewrite !Z.leb_le. lia. Qed.

Lemma rankDescLeb_trans (a b c : WaitlistEntry.t) :
  rankDescLeb a b = true -> rankDescLeb b c = true -> rankDescLeb a c = true.
Proof. unfold rankDescLeb. rewrite !Z.leb_le. lia. Qed.

(** The first row of the descending order carries the largest rank. *)
Lemma maxRank_Some (l : list WaitlistEntry.t) (e : WaitlistEntry.t) :
  hd_error (orderBy rankDescLeb l) = Some e ->
  In e l /\ forall e', In e' l -> WaitlistEntry.rank e' <= WaitlistEntry.rank e.
Proof.
  intros H.
  pose proof (orderBy_sorted rankDescLeb rankDescLeb_total rankDescLeb_trans l) as Hs.
  destruct (orderBy rankDescLeb l) as [|x s] eqn:E; [discriminate|].
  injection H as ->.
  assert (Hin : forall y, In y l <-> In y (e :: s)).
  { intros y. rewrite <- E. symmetry. apply orderBy_In. }
  split; [apply Hin; now left|].
  intros e' He'. apply Hin in He'. destruct He' as [<-|He']; [lia|].
  inversion Hs as [|? ? _ Hall]; subst.
  rewrite Forall_forall in Hall. apply Hall in He'.
  unfold rankDescLeb in He'. now apply Z.leb_le.
Qed.

Lemma maxRank_None (l : list WaitlistEntry.t) :
  hd_error (orderBy rankDescLeb l) = None -> l = [].
Proof.
  intros H. apply (orderBy_nil_inv rankDescLeb).
  now destruct (orderBy rankDescLeb l).
Qed.

Lemma newRank_of_max (l : list WaitlistEntry.t) (e : WaitlistEntry.t) :
  In e l ->
  (forall e', In e' l -> WaitlistEntry.rank e' <= WaitlistEntry.rank e) ->
  newRankOf (hd_error (orderBy rankDescLeb l)) = WaitlistEntry.rank e + 1.
Proof.
  intros Hin Hmax.
  destruct (hd_error (orderBy rankDescLeb l)) as [m|] eqn:E.
  - apply maxRank_Some in E. destruct E as [Hm Hle]. simpl.
    specialize (Hle e Hin). specialize (Hmax m Hm). lia.
  - apply maxRank_None in E. subst. destruct Hin.
Qed.

(** The rows [addToWaitlist] looks at: those of the first preferred hostel
    when it is a non-empty string, all rows otherwise. *)
Lemma waitlistWhere_spec (hostelId : option string) (e : WaitlistEntry.t) :
  waitlistWhere hostelId e = true <->
  match hostelId with
  | Some h => h = "" \/ WaitlistEntry.hostelId e = Some h
  | None => True
  end.
Proof.
  unfold waitlistWhere, truthy. destruct hostelId as [h|]; [|tauto].
  destruct (h =? "")%string eqn:E; simpl.
  - apply String.eqb_eq in E. tauto.
  - apply String.eqb_neq in E.
    destruct (WaitlistEntry.hostelId e) as [h'|].
    + rewrite String.eqb_eq. split; [intros ->; now right|].
      intros [H|H]; congruence.
    + split; [discriminate|]. intros [H|H]; congruence.
Qed.

Lemma waitlistWhere_own (hostelId : option string) id app r rt :
  waitlistWhere hostelId (WaitlistEntry.mk id app r hostelId rt) = true.
Proof.
  apply waitlistWhere_spec. destruct hostelId; [now right|exact I].
Qed.

Lemma waitlistWhere_setRank (hostelId : option string) (r : Z) (e : WaitlistEntry.t) :
  waitlistWhere hostelId (WaitlistEntry.setRank r e) = waitlistWhere hostelId e.
Proof. reflexivity. Qed.

(** The rank computed is one more than the largest rank among the rows
    looked at, and 1 when there is none. *)
Lemma assignedRank_spec (hostelId : option string) (db : DB) :
  let looked := filter (waitlistWhere hostelId) (waitlistEntries db) in
  (looked = [] /\ assignedRank hostelId db = 1) \/
  (exists e, In e looked /\
             (forall e', In e' looked ->
                         WaitlistEntry.rank e' <= WaitlistEntry.rank e) /\
             assignedRank hostelId db = WaitlistEntry.rank e + 1).
Proof.
  intros looked. unfold assignedRank, findMaxRankEntry. fold looked.
  destruct (hd_error (orderBy rankDescLeb looked)) as [m|] eqn:E.
  - right. exists m. apply maxRank_Some in E. destruct E. auto.
  - left. apply maxRank_None in E. auto.
Qed.

Lemma assignedRank_gt (hostelId : option string) (db : DB) (e : WaitlistEntry.t) :
  In e (waitlistEntries db) -> waitlistWhere hostelId e = true ->
  WaitlistEntry.rank e < assignedRank hostelId db.
Proof.
  intros Hin Hw.
  assert (He : In e (filter (waitlistWhere hostelId) (waitlistEntries db)))
    by (apply filter_In; now split).
  destruct (assignedRank_spec hostelId db) as [[Hnil _]|(m & _ & Hmax & ->)].
  - rewrite Hnil in He. destruct He.
  - specialize (Hmax e He). lia.
Qed.

Lemma upsertWaitlist_entries (env : Env) (a : Application.t) (r : Z)
    (hostelId : option string) (db : DB) (e' : WaitlistEntry.t) :
  In e' (waitlistEntries (upsertWaitlist env a r hostelId db)) ->
  (exists e, In e (waitlistEntries db) /\
             WaitlistEntry.applicationId e' = WaitlistEntry.applicationId e /\
             WaitlistEntry.hostelId e' = WaitlistEntry.hostelId e /\
             (WaitlistEntry.rank e' = WaitlistEntry.rank e \/
              WaitlistEntry.rank e' = r)) \/
  (WaitlistEntry.hostelId e' = hostelId /\ WaitlistEntry.rank e' = r).
Proof.
  unfold upsertWaitlist.
  destruct (existsb _ (waitlistEntries db)); simpl.
  - intros H. apply in_map_iff in H. destruct H as (e & <- & Hin).
    left. exists e. split; [exact Hin|].
    destruct (WaitlistEntry.applicationId e =? Application.id a)%string;
      simpl; auto.
  - intros H. apply in_app_or in H. destruct H as [H|[<-|[]]].
    + left. exists e'. auto.
    + right. auto.
Qed.

Lemma upsertWaitlist_has (env : Env) (a : Application.t) (r : Z)
    (hostelId : option string) (db : DB) :
  (forall e, In e (waitlistEntries db) ->
             WaitlistEntry.applicationId e = Application.id a ->
             waitlistWhere hostelId e = true) ->
  exists e', In e' (waitlistEntries (upsertWaitlist env a r hostelId db)) /\
             waitlistWhere hostelId e' = true /\
             WaitlistEntry.rank e' = r.
Proof.
  intros Hscope. unfold upsertWaitlist.
  destruct (existsb _ (waitlistEntries db)) eqn:E; simpl.
  - apply existsb_exists in E. destruct E as (e & Hin & He).
    exists (WaitlistEntry.setRank r e). repeat split.
    + apply in_map_iff. exists e. now rewrite He.
    + rewrite waitlistWhere_setRank. apply Hscope; [exact Hin|].
      now apply String.eqb_eq.
  - eexists. split; [apply in_or_app; right; left; reflexivity|].
    split; [apply waitlistWhere_own|reflexivity].
Qed.

Lemma waitlistWhere_hostelId (hostelId : option string) (e e' : WaitlistEntry.t) :
  WaitlistEntry.hostelId e' = WaitlistEntry.hostelId e ->
  waitlistWhere hostelId e' = waitlistWhere hostelId e.
Proof. unfold waitlistWhere. now intros ->. Qed.

(** After the upsert, the largest rank looked at is the one just given. *)
Lemma assignedRank_after_upsert (env : Env) (a : Application.t)
    (hostelId : option string) (db : DB) :
  (forall e, In e (waitlistEntries db) ->
             WaitlistEntry.applicationId e = Application.id a ->
             waitlistWhere hostelId e = true) ->
  assignedRank hostelId
    (upsertWaitlist env a (assignedRank hostelId db) hostelId db) =
  assignedRank hostelId db + 1.
Proof.
  intros Hscope.
  destruct (@upsertWaitlist_has env a (assignedRank hostelId db) hostelId db Hscope)
    as (e' & Hin & Hw & Hr).
  unfold assignedRank at 1. unfold findMaxRankEntry.
  rewrite newRank_of_max with (e := e').
  - now rewrite Hr.
  - apply filter_In. now split.
  - intros x Hx. apply filter_In in Hx. destruct Hx as [Hx Hwx].
    rewrite Hr.
    apply upsertWaitlist_entries in Hx.
    destruct Hx as [(e & He & _ & Hh & Hrank)|[_ Hrank]]; [|lia].
    destruct Hrank as [Hrank|Hrank]; [|lia].
    rewrite Hrank. apply Z.lt_le_incl. apply assignedRank_gt; [exact He|].
    now rewrite <- (waitlistWhere_hostelId hostelId _ _ Hh).
Qed.

Lemma rankOf_upsert (env : Env) (a : Application.t) (r : Z)
    (hostelId : option string) (db : DB) :
  rankOf (upsertWaitlist env a r hostelId db) (Application.id a) = Some r.
Proof.
  unfold rankOf, upsertWaitlist.
  destruct (existsb _ (waitlistEntries db)) eqn:E; simpl.
  - induction (waitlistEntries db) as [|e l IH]; simpl in *; [discriminate|].
    destruct (WaitlistEntry.applicationId e =? Application.id a)%string eqn:Ee;
      simpl.
    + now rewrite Ee.
    + rewrite Ee. apply IH. exact E.
  - induction (waitlistEntries db) as [|e l IH]; simpl in *.
    + now rewrite String.eqb_refl.
    + apply orb_false_iff in E. destruct E as [Ee El]. rewrite Ee. now apply IH.
Qed.

(** The store after a call of [addToWaitlist], case by case. *)
Lemma addToWaitlist_cases (env : Env) (a : Application.t) (db : DB) :
  let app := Application.id a in
  let hostelId := waitlistHostel a in
  let db1 := upsertWaitlist env a (assignedRank hostelId db) hostelId db in
  let db2 :=
    setApplications (map (updateStatus app WAITLISTED) (applications db1)) db1 in
  ((fails env (WlFindMaxRank app) = true \/ fails env (WlUpsert app) = true) /\
   exists e, addToWaitlist env a db = (Err e, db)) \/
  (fails env (WlFindMaxRank app) = false /\ fails env (WlUpsert app) = false /\
   (fails env (WlUpdateStatus app) = true \/ hasRow db app = false) /\
   exists e, addToWaitlist env a db = (Err e, db1)) \/
  (fails env (WlFindMaxRank app) = false /\ fails env (WlUpsert app) = false /\
   fails env (WlUpdateStatus app) = false /\ hasRow db app = true /\
   addToWaitlist env a db =
     (match Application.student a with
      | Some _ => Ok tt
      | None => Err TypeError
      end, db2)).
Proof.
  intros app hostelId db1 db2.
  unfold addToWaitlist, bind, query, exec, applicationUpdate. fold app hostelId.
  destruct (fails env (WlFindMaxRank app)); [left; eauto|].
  destruct (fails env (WlUpsert app)); [left; eauto|].
  right. fold (assignedRank hostelId db). fold db1.
  destruct (fails env (WlUpdateStatus app)); [left; eauto 6|].
  assert (Hrow : applications db1 = applications db).
  { unfold db1, upsertWaitlist. now destruct (existsb _ (waitlistEntries db)). }
  rewrite Hrow. unfold hasRow.
  destruct (existsb _ (applications db)); [|left; eauto 6].
  right. repeat split. unfold db2. rewrite Hrow.
  unfold sendWaitlistNotification, throw, ret.
  destruct (Application.student a); reflexivity.
Qed.

Lemma addToWaitlist_waitlistEntries (env : Env) (a : Application.t) (db : DB) :
  fails env (WlFindMaxRank (Application.id a)) = false ->
  fails env (WlUpsert (Application.id a)) = false ->
  waitlistEntries (snd (addToWaitlist env a db)) =
  waitlistEntries
    (upsertWaitlist env a (assignedRank (waitlistHostel a) db)
                    (waitlistHostel a) db).
Proof.
  intros Hf Hu.
  destruct (addToWaitlist_cases env a db)
    as [[[H|H] _]|[(_ & _ & _ & e & H)|(_ & _ & _ & _ & H)]];
    try congruence; now rewrite H.
Qed.

Lemma assignedRank_ext (hostelId : option string) (db1 db2 : DB) :
  waitlistEntries db1 = waitlistEntries db2 ->
  assignedRank hostelId db1 = assignedRank hostelId db2.
Proof. unfold assignedRank, findMaxRankEntry. now intros ->. Qed.

Lemma consecutive_sorted (c : Z) (n : nat) :
  forall s, StronglySorted Z.lt (map (fun i => c + Z.of_nat i) (seq s n)).
Proof.
  induction n as [|n IH]; intros s; simpl; constructor; [apply IH|].
  apply Forall_forall. intros x Hx. apply in_map_iff in Hx.
  destruct Hx as (i & <- & Hi). apply in_seq in Hi. lia.
Qed.

Lemma ranksAssigned_consecutive (env : Env) (hostelId : option string) :
  forall (apps : list Application.t) (db : DB),
    (forall a, In a apps -> waitlistHostel a = hostelId) ->
    (forall a, In a apps ->
               fails env (WlFindMaxRank (Application.id a)) = false /\
               fails env (WlUpsert (Application.id a)) = false) ->
    (forall e a, In e (waitlistEntries db) -> In a apps ->
                 WaitlistEntry.applicationId e = Application.id a ->
                 waitlistWhere hostelId e = true) ->
    ranksAssigned env apps db =
    map (fun i => assignedRank hostelId db + Z.of_nat i) (seq 0 (length apps)).
Proof.
  induction apps as [|a rest IH]; intros db Hkey Hacc Hscope; [reflexivity|].
  assert (Ha : In a (a :: rest)) by now left.
  destruct (Hacc a Ha) as [Hf Hu]. pose proof (Hkey a Ha) as Hk.
  cbn [ranksAssigned length seq map]. rewrite Hk. f_equal; [simpl; lia|].
  rewrite IH.
  - rewrite <- seq_shift, map_map.
    rewrite (assignedRank_ext hostelId _ _
               (addToWaitlist_waitlistEntries env a db Hf Hu)).
    rewrite Hk, assignedRank_after_upsert by (intros e He; now apply Hscope).
    apply map_ext. intros i. lia.
  - intros b Hb. apply Hkey. now right.
  - intros b Hb. apply Hacc. now right.
  - intros e b He Hb Heb.
    rewrite (addToWaitlist_waitlistEntries env a db Hf Hu), Hk in He.
    apply upsertWaitlist_entries in He.
    destruct He as [(e0 & He0 & Happ & Hh & _)|[Hh _]].
    + rewrite (waitlistWhere_hostelId hostelId _ _ Hh).
      apply Hscope with (a := b); [exact He0|now right|congruence].
    + destruct e as [i ap r h rt]. simpl in Hh. subst h.
      apply waitlistWhere_own.
Qed.

(** C4, as amended.  For requests with the same first preferred hostel
    (or all with none), handled one after the other with the store
    accepting the rank query and the upsert, and whose earlier waitlist
    entries, if any, lie among the rows the query looks at: the rows looked
    at are those of that hostel when it is a non-empty string and ALL rows
    otherwise; the rank computed is one more than the largest rank among
    them, 1 when there is none; every call stores the rank it computed in
    the entry of its request; and the ranks of the successive calls go up
    by one each time. *)
Theorem waitlist_ranks (env : Env) (hostelId : option string)
    (apps : list Application.t) (db : DB) :
  (forall a, In a apps -> waitlistHostel a = hostelId) ->
  (forall a, In a apps ->
             fails env (WlFindMaxRank (Application.id a)) = false /\
             fails env (WlUpsert (Application.id a)) = false) ->
  (forall e a, In e (waitlistEntries db) -> In a apps ->
               WaitlistEntry.applicationId e = Application.id a ->
               waitlistWhere hostelId e = true) ->
  let looked := filter (waitlistWhere hostelId) (waitlistEntries db) in
  (forall e, In e looked <->
             In e (waitlistEntries db) /\
             match hostelId with
             | Some h => h = "" \/ WaitlistEntry.hostelId e = Some h
             | None => True
             end) /\
  ((looked = [] /\ assignedRank hostelId db = 1) \/
   (exists e, In e looked /\
              (forall e', In e' looked ->
                          WaitlistEntry.rank e' <= WaitlistEntry.rank e) /\
              assignedRank hostelId db = WaitlistEntry.rank e + 1)) /\
  (forall a db0, In a apps ->
     rankOf (snd (addToWaitlist env a db0)) (Application.id a) =
     Some (assignedRank hostelId db0)) /\
  ranksAssigned env apps db =
    map (fun i => assignedRank hostelId db + Z.of_nat i) (seq 0 (length apps)) /\
  StronglySorted Z.lt (ranksAssigned env apps db).
Proof.
  intros Hkey Hacc Hscope looked.
  pose proof (ranksAssigned_consecutive env apps db Hkey Hacc Hscope) as Hr.
  repeat split.
  - now apply filter_In in H.
  - apply filter_In in H. destruct H as [_ H]. now apply waitlistWhere_spec.
  - intros [Hin Hw]. apply filter_In. split; [exact Hin|].
    now apply waitlistWhere_spec.
  - apply assignedRank_spec.
  - intros a db0 Ha. destruct (Hacc a Ha) as [Hf Hu].
    unfold rankOf. rewrite (addToWaitlist_waitlistEntries env a db0 Hf Hu).
    rewrite (Hkey a Ha). apply rankOf_upsert.
  - exact Hr.
  - rewrite Hr. apply consecutive_sorted.
Qed.

Lemma waitlist_ranks_witness :
  ranksAssigned noFaults
    [Application.withStudent app1; Application.withStudent app2]
    (mkDB [] [] [] [app1; app2] [] [scopedEntry] []) = [8; 9].
Proof.
  destruct (waitlist_ranks noFaults (hostelId := Some "hostel1")
              [Application.withStudent app1; Application.withStudent app2]
              (mkDB [] [] [] [app1; app2] [] [scopedEntry] []))
    as (_ & _ & _ & H & _).
  - intros a [<-|[<-|[]]]; reflexivity.
  - intros a _. split; reflexivity.
  - intros e a [<-|[]] _ _. reflexivity.
  - rewrite H. reflexivity.
Defined.

(** C4, counterexample.  The waitlist holds one entry, of hostel1, with
    rank 7.  A request without any hostel preference belongs to the
    unscoped bucket, which is empty, so that its specified rank is 1;
    [addToWaitlist] gives it rank 8.  A request for hostel1 that comes next
    is given rank 8 as well: were the unscoped bucket all the entries, two
    successive calls would have put the same rank into it. *)
Lemma waitlist_ranks_counterexample :
  let application := Application.withStudent unscopedApp in
  let db := mkDB [] [] [] [app1Waitlisted; app2; unscopedApp] []
                 [scopedEntry] [] in
  waitlistHostel application = None /\
  specifiedRank application db = 1 /\
  fst (addToWaitlist noFaults application db) = Ok tt /\
  rankOf (snd (addToWaitlist noFaults application db)) "app3" = Some 8 /\
  ranksAssigned noFaults [application; Application.withStudent app2] db = [8; 8].
Proof. vm_compute. repeat split. Qed.

(* ================================================================== *)
(** ** Relations kept by store computations *)

Section Preserves.
Variable R : DB -> DB -> Prop.
Hypothesis R_refl : forall db, R db db.
Hypothesis R_trans : forall db1 db2 db3, R db1 db2 -> R db2 db3 -> R db1 db3.

Lemma preserves_ret (A : Type) (a : A) : preserves R (ret a).
Proof. intros db. apply R_refl. Qed.

Lemma preserves_throw (A : Type) (e : Error) : preserves R (@throw A e).
Proof. intros db. apply R_refl. Qed.

Lemma preserves_bind (A B : Type) (m : M A) (k : A -> M B) :
  preserves R m -> (forall a, preserves R (k a)) -> preserves R (bind m k).
Proof.
  intros Hm Hk db. unfold bind. specialize (Hm db).
  destruct (m db) as [[a|e] db1]; simpl in *; [|exact Hm].
  eapply R_trans; [exact Hm|apply Hk].
Qed.

Lemma preserves_tryCatch (A : Type) (m : M A) (h : Error -> M A) :
  preserves R m -> (forall e, preserves R (h e)) -> preserves R (tryCatch m h).
Proof.
  intros Hm Hh db. unfold tryCatch. specialize (Hm db).
  destruct (m db) as [[a|e] db1]; simpl in *; [exact Hm|].
  eapply R_trans; [exact Hm|apply Hh].
Qed.

Lemma preserves_query (A : Type) (env : Env) (op : Op) (f : DB -> A) :
  preserves R (query env op f).
Proof. intros db. unfold query. destruct (fails env op); apply R_refl. Qed.

Lemma preserves_exec (env : Env) (op : Op) (f : DB -> DB) :
  (forall db, R db (f db)) -> preserves R (exec env op f).
Proof.
  intros Hf db. unfold exec. destruct (fails env op); simpl;
    [apply R_refl|apply Hf].
Qed.

Lemma preserves_applicationUpdate (env : Env) (op : Op) (app : string)
    (s : ApplicationStatus) :
  (forall db, R db (setApplications (map (updateStatus app s) (applications db)) db)) ->
  preserves R (applicationUpdate env op app s).
Proof.
  intros Hf db. unfold applicationUpdate. destruct (fails env op); simpl;
    [apply R_refl|].
  destruct (existsb _ (applications db)); simpl; [apply Hf|apply R_refl].
Qed.

Lemma preserves_allocateBed (env : Env) (a : Application.t) (allocatedBy : string) :
  (forall bed db, R db (commitWrites env a allocatedBy bed db)) ->
  preserves R (allocateBed env a allocatedBy).
Proof.
  intros Hf db.
  destruct (allocateBed_cases env a allocatedBy db) as [H|(bed & _ & _ & _ & H)];
    rewrite H; simpl; [apply R_refl|apply Hf].
Qed.

Lemma preserves_addToWaitlist (env : Env) (a : Application.t) :
  (forall r db, R db (upsertWaitlist env a r (waitlistHostel a) db)) ->
  (forall db, R db (setApplications
                      (map (updateStatus (Application.id a) WAITLISTED)
                           (applications db)) db)) ->
  preserves R (addToWaitlist env a).
Proof.
  intros Hu Hs db.
  destruct (addToWaitlist_cases env a db)
    as [[_ (e & H)]|[(_ & _ & _ & e & H)|(_ & _ & _ & _ & H)]];
    rewrite H; simpl.
  - apply R_refl.
  - apply Hu.
  - eapply R_trans; [apply Hu|apply Hs].
Qed.

Lemma preserves_processApplication (env : Env) (allocatedBy : string)
    (a : Application.t) (stats : Stats) :
  (forall s db, R db (setApplications
                        (map (updateStatus (Application.id a) s)
                             (applications db)) db)) ->
  (forall bed db, R db (commitWrites env a allocatedBy bed db)) ->
  (forall r db, R db (upsertWaitlist env a r (waitlistHostel a) db)) ->
  preserves R (processApplication env allocatedBy a stats).
Proof.
  intros Hs Hc Hu. unfold processApplication.
  apply preserves_tryCatch.
  - apply preserves_bind; [now apply preserves_applicationUpdate|intros _].
    apply preserves_bind; [now apply preserves_allocateBed|intros [|]].
    + apply preserves_ret.
    + apply preserves_bind; [now apply preserves_addToWaitlist|intros _].
      apply preserves_ret.
  - intros e. unfold resetOnError.
    apply preserves_bind; [now apply preserves_applicationUpdate|intros _].
    apply preserves_ret.
Qed.
End Preserves.

(* ================================================================== *)
(** ** The footprint of handling one request *)

Lemma frame_refl (app : string) (db : DB) : frame app db db.
Proof. unfold frame. repeat split. Qed.

Lemma frame_trans (app : string) (db1 db2 db3 : DB) :
  frame app db1 db2 -> frame app db2 db3 -> frame app db1 db3.
Proof.
  unfold frame. intros (Hb1 & Hr1 & Hbed1 & Ha1 & H1) (Hb2 & Hr2 & Hbed2 & Ha2 & H2).
  repeat split; try congruence;
    destruct (H1 app' H) as (? & ? & ?); destruct (H2 app' H) as (? & ? & ?);
    congruence.
Qed.

Lemma frame_updateStatus (app : string) (s : ApplicationStatus) (db : DB) :
  frame app db (setApplications (map (updateStatus app s) (applications db)) db).
Proof.
  unfold frame. repeat split.
  - simpl. rewrite map_map. apply map_ext. intros r. apply updateStatus_id.
  - rewrite statusOf_setApplications.
    apply String.eqb_neq in H. now rewrite H.
Qed.

Lemma frame_commitWrites (env : Env) (a : Application.t) (allocatedBy : string)
    (bed : Bed.t) (db : DB) :
  frame (Application.id a) db (commitWrites env a allocatedBy bed db).
Proof.
  unfold frame. repeat split.
  - rewrite commitWrites_beds, map_map. apply map_ext. intros b.
    now destruct (Bed.id b =? Bed.id bed)%string.
  - rewrite commitWrites_applications, map_map. apply map_ext. intros r.
    apply updateStatus_id.
  - rewrite commitWrites_statusOf. apply String.eqb_neq in H. now rewrite H.
  - rewrite commitWrites_hasAllocation.
    assert (E : (Application.id a =? app')%string = false)
      by (apply String.eqb_neq; congruence).
    rewrite E. apply orb_false_r.
  - rewrite commitWrites_hasWaitlistEntry.
    apply String.eqb_neq in H. now rewrite H.
Qed.

Lemma upsertWaitlist_hasWaitlistEntry (env : Env) (a : Application.t) (r : Z)
    (hostelId : option string) (db : DB) (app' : string) :
  hasWaitlistEntry (upsertWaitlist env a r hostelId db) app' =
  hasWaitlistEntry db app' || (Application.id a =? app')%string.
Proof.
  unfold hasWaitlistEntry, upsertWaitlist.
  destruct (existsb _ (waitlistEntries db)) eqn:E; simpl.
  - rewrite existsb_map.
    rewrite existsb_ext with
      (g := fun e => (WaitlistEntry.applicationId e =? app')%string)
      by (intros e;
          now destruct (WaitlistEntry.applicationId e =? Application.id a)%string).
    destruct (Application.id a =? app')%string eqn:Ea;
      [|now rewrite orb_false_r].
    apply String.eqb_eq in Ea. subst app'. rewrite E. reflexivity.
  - rewrite existsb_app. simpl. now rewrite orb_false_r.
Qed.

Lemma frame_upsertWaitlist (env : Env) (a : Application.t) (r : Z)
    (hostelId : option string) (db : DB) :
  frame (Application.id a) db (upsertWaitlist env a r hostelId db).
Proof.
  unfold frame.
  assert (Hb : blocks (upsertWaitlist env a r hostelId db) = blocks db /\
               rooms (upsertWaitlist env a r hostelId db) = rooms db /\
               beds (upsertWaitlist env a r hostelId db) = beds db /\
               applications (upsertWaitlist env a r hostelId db) = applications db /\
               allocations (upsertWaitlist env a r hostelId db) = allocations db).
  { unfold upsertWaitlist. destruct (existsb _ (waitlistEntries db));
      repeat split. }
  destruct Hb as (Hb & Hr & Hbeds & Happs & Hall).
  repeat split; try congruence.
  - unfold statusOf. now rewrite Happs.
  - unfold hasAllocation. now rewrite Hall.
  - rewrite upsertWaitlist_hasWaitlistEntry.
    assert (E : (Application.id a =? app')%string = false)
      by (apply String.eqb_neq; congruence).
    rewrite E. apply orb_false_r.
Qed.

Lemma frame_processApplication (env : Env) (allocatedBy : string)
    (a : Application.t) (stats : Stats) :
  preserves (frame (Application.id a))
            (processApplication env allocatedBy a stats).
Proof.
  apply preserves_processApplication.
  - apply frame_refl.
  - apply frame_trans.
  - intros s db. apply frame_updateStatus.
  - intros bed db. apply frame_commitWrites.
  - intros r db. apply frame_upsertWaitlist.
Qed.

Lemma hasRow_ids (db db' : DB) (app : string) :
  map Application.id (applications db') = map Application.id (applications db) ->
  hasRow db' app = hasRow db app.
Proof.
  unfold hasRow. intros H.
  rewrite <- (existsb_map (fun i => (i =? app)%string) Application.id (applications db')).
  rewrite <- (existsb_map (fun i => (i =? app)%string) Application.id (applications db)).
  now rewrite H.
Qed.

(* ================================================================== *)
(** ** One turn of the loop *)

Lemma processApplication_eq (env : Env) (allocatedBy : string)
    (a : Application.t) (stats : Stats) :
  processApplication env allocatedBy a stats =
  tryCatch (processBody env allocatedBy a stats) (resetOnError env a stats).
Proof. reflexivity. Qed.

Lemma frame_processBody (env : Env) (allocatedBy : string)
    (a : Application.t) (stats : Stats) :
  preserves (frame (Application.id a)) (processBody env allocatedBy a stats).
Proof.
  pose proof (@frame_refl (Application.id a)) as Hr.
  pose proof (@frame_trans (Application.id a)) as Ht.
  unfold processBody.
  apply preserves_bind; [exact Ht| |intros _].
  { apply preserves_applicationUpdate; [exact Hr|]. intros db.
    apply frame_updateStatus. }
  apply preserves_bind; [exact Ht| |intros [|]].
  - apply preserves_allocateBed; [exact Hr|]. intros bed db.
    apply frame_commitWrites.
  - now apply preserves_ret.
  - apply preserves_bind; [exact Ht| |intros _; now apply preserves_ret].
    apply preserves_addToWaitlist; [exact Hr|exact Ht| |].
    + intros r db. apply frame_upsertWaitlist.
    + intros db. apply frame_updateStatus.
Qed.

Lemma statusOf_updated (app : string) (s : ApplicationStatus) (db : DB) :
  hasRow db app = true ->
  statusOf (setApplications (map (updateStatus app s) (applications db)) db) app =
  Some s.
Proof.
  intros H. rewrite statusOf_setApplications, String.eqb_refl.
  apply hasRow_statusOf in H. destruct H as (s0 & ->). reflexivity.
Qed.

Lemma hasRow_updated (app app' : string) (s : ApplicationStatus) (db : DB) :
  hasRow (setApplications (map (updateStatus app s) (applications db)) db) app' =
  hasRow db app'.
Proof.
  apply hasRow_ids. simpl. rewrite map_map. apply map_ext.
  intros r. apply updateStatus_id.
Qed.

(** When the [try] block returns, the request was allocated or
    waitlisted, and its status says so. *)
Lemma processBody_Ok (env : Env) (allocatedBy : string) (a : Application.t)
    (stats stats' : Stats) (db db' : DB) :
  processBody env allocatedBy a stats db = (Ok stats', db') ->
  (stats' = incAllocated stats /\
   statusOf db' (Application.id a) = Some ALLOCATED /\
   hasAllocation db' (Application.id a) = true /\
   hasWaitlistEntry db' (Application.id a) = false) \/
  (stats' = incWaitlisted stats /\
   statusOf db' (Application.id a) = Some WAITLISTED /\
   hasWaitlistEntry db' (Application.id a) = true /\
   allocations db' = allocations db).
Proof.
  unfold processBody, bind, applicationUpdate.
  destruct (fails env (RunMarkInProgress _)); [discriminate|].
  destruct (existsb _ (applications db)) eqn:Erow; [|discriminate].
  set (db1 := setApplications _ db).
  assert (Hrow1 : hasRow db1 (Application.id a) = true).
  { unfold db1. rewrite hasRow_updated. exact Erow. }
  destruct (allocateBed_cases env a allocatedBy db1)
    as [H|(bed & _ & _ & _ & H)]; rewrite H; clear H.
  - destruct (addToWaitlist_cases env a db1)
      as [[_ (e & H)]|[(_ & _ & _ & e & H)|(_ & _ & _ & _ & H)]];
      rewrite H; clear H; try discriminate.
    destruct (Application.student a); [|discriminate].
    unfold ret. intros [= <- <-]. right. repeat split.
    + rewrite statusOf_updated; [reflexivity|].
      now rewrite (@hasRow_ids db1 _ _ (proj1 (proj2 (proj2 (proj2
                     (frame_upsertWaitlist env a _ _ db1)))))).
    + change (hasWaitlistEntry
                (upsertWaitlist env a (assignedRank (waitlistHostel a) db1)
                                (waitlistHostel a) db1) (Application.id a) = true).
      rewrite upsertWaitlist_hasWaitlistEntry, String.eqb_refl.
      apply orb_true_r.
    + simpl. unfold upsertWaitlist.
      now destruct (existsb _ (waitlistEntries db1)).
  - destruct (Application.student a) as [u|] eqn:Es; simpl.
    + unfold sendAllocationNotification. unfold ret. intros [= <- <-].
      left. repeat split.
      * rewrite commitWrites_statusOf, String.eqb_refl.
        apply hasRow_statusOf in Hrow1. destruct Hrow1 as (s0 & ->). reflexivity.
      * rewrite commitWrites_hasAllocation, String.eqb_refl. apply orb_true_r.
      * rewrite commitWrites_hasWaitlistEntry. now rewrite String.eqb_refl.
    + set (db2 := commitWrites env a allocatedBy bed db1).
      destruct (addToWaitlist_cases env a db2)
        as [[_ (e & H)]|[(_ & _ & _ & e & H)|(_ & _ & _ & _ & H)]];
        rewrite H; clear H; try discriminate.
      rewrite Es. discriminate.
Qed.

(** The [catch] block, when the store accepts the reset. *)
Lemma resetOnError_Ok (env : Env) (a : Application.t) (stats : Stats)
    (e : Error) (db : DB) :
  fails env (RunResetStatus (Application.id a)) = false ->
  hasRow db (Application.id a) = true ->
  resetOnError env a stats e db =
  (Ok (incErrors stats),
   setApplications
     (map (updateStatus (Application.id a) (resetStatus a)) (applications db)) db).
Proof.
  intros Hf Hrow. unfold resetOnError, bind, applicationUpdate.
  rewrite Hf. unfold hasRow in Hrow. now rewrite Hrow.
Qed.

Lemma resetStatus_selectable (a : Application.t) :
  selectable a = true -> resetStatus a = Application.status a.
Proof.
  unfold selectable, resetStatus, statusIn. simpl.
  now destruct (Application.status a).
Qed.

(* ================================================================== *)
(** ** The whole run *)

Lemma NoDup_map_filter (A B : Type) (g : A -> B) (f : A -> bool) (l : list A) :
  NoDup (map g l) -> NoDup (map g (filter f l)).
Proof.
  induction l as [|x l IH]; simpl; [auto|].
  intros H. inversion H as [|? ? Hnin Hnd]; subst.
  destruct (f x); simpl; [|now apply IH].
  constructor; [|now apply IH].
  intros Hin. apply Hnin. apply in_map_iff in Hin.
  destruct Hin as (y & Hy & Hin). apply filter_In in Hin.
  apply in_map_iff. exists y. tauto.
Qed.

Lemma findApplications_ids (env : Env) (db : DB) :
  map idOf (findApplications env db) =
  map Application.id (orderBy (applicationLeb (descNullsFirst env)) (filter selectable (applications db))).
Proof. unfold findApplications. now rewrite map_map. Qed.

Lemma findApplications_NoDup (env : Env) (db : DB) :
  NoDup (map Application.id (applications db)) ->
  NoDup (map idOf (findApplications env db)).
Proof.
  intros H. rewrite findApplications_ids.
  eapply Permutation_NoDup.
  - apply Permutation_map. apply orderBy_perm.
  - now apply NoDup_map_filter.
Qed.

Lemma findApplications_In (env : Env) (db : DB) (a : Application.t) :
  In a (findApplications env db) <->
  exists r, a = Application.withStudent r /\
            In r (applications db) /\ selectable r = true.
Proof.
  unfold findApplications. rewrite in_map_iff. split.
  - intros (r & <- & Hin). apply orderBy_In, filter_In in Hin. eauto.
  - intros (r & -> & Hin). exists r. split; [reflexivity|].
    now apply orderBy_In, filter_In.
Qed.

Lemma hasRow_In (db : DB) (r : Application.row) :
  In r (applications db) -> hasRow db (Application.id r) = true.
Proof. intros H. unfold hasRow. now apply existsb_id. Qed.

Lemma Forall2_In_l (A B : Type) (R : A -> B -> Prop) (l : list A) (l' : list B)
    (x : A) :
  Forall2 R l l' -> In x l -> exists y, In y l' /\ R x y.
Proof.
  induction 1 as [|a b l l' Hab _ IH]; simpl; [tauto|].
  intros [<-|Hin]; [eauto|].
  destruct (IH Hin) as (y & Hy & HR). eauto.
Qed.

Lemma tally_counts (outcomes : list Outcome) :
  forall stats,
    let stats' := fold_left tally outcomes stats in
    (allocated stats' = allocated stats + length (filter isAllocated outcomes) /\
     waitlisted stats' = waitlisted stats + length (filter isWaitlisted outcomes) /\
     errors stats' = errors stats + length (filter isErrored outcomes))%nat.
Proof.
  induction outcomes as [|o os IH]; intros stats; simpl; [lia|].
  specialize (IH (tally stats o)). simpl in IH.
  destruct o; simpl in *; lia.
Qed.

Lemma createAuditLog_result (env : Env) (op : Op) (actorId : string)
    (action : AuditAction) (targetType targetId : string)
    (details : AuditDetails) (db : DB) :
  exists logs,
    createAuditLog env op actorId action targetType targetId details db =
    (Ok tt, setAuditLogs logs db).
Proof.
  unfold createAuditLog, tryCatch, exec, ret.
  destruct (fails env op); eexists; [|reflexivity].
  instantiate (1 := auditLogs db). now destruct db.
Qed.

(** The errors that [addToWaitlist] raises for a request with its row and
    its student are rejections of its store calls. *)
Lemma addToWaitlist_Err (env : Env) (a : Application.t) (e : Error)
    (db d : DB) :
  hasRow db (Application.id a) = true ->
  Application.student a <> None ->
  addToWaitlist env a db = (Err e, d) ->
  exists op,
    In op [WlFindMaxRank (Application.id a); WlUpsert (Application.id a);
           WlUpdateStatus (Application.id a)] /\
    fails env op = true /\ e = StoreError op.
Proof.
  intros Hrow Hst.
  unfold addToWaitlist, bind, query, exec, applicationUpdate.
  destruct (fails env (WlFindMaxRank _)) eqn:E1.
  { intros [= <- _]. eexists. split; [|split; [exact E1|reflexivity]].
    simpl. tauto. }
  destruct (fails env (WlUpsert _)) eqn:E2.
  { intros [= <- _]. eexists. split; [|split; [exact E2|reflexivity]].
    simpl. tauto. }
  destruct (fails env (WlUpdateStatus _)) eqn:E3.
  { intros [= <- _]. eexists. split; [|split; [exact E3|reflexivity]].
    simpl. tauto. }
  match goal with
  | |- context [existsb ?f (applications ?x)] =>
      assert (Hrow1 : existsb f (applications x) = true)
  end.
  { unfold upsertWaitlist.
    destruct (existsb _ (waitlistEntries db)); exact Hrow. }
  rewrite Hrow1. unfold sendWaitlistNotification, throw, ret.
  destruct (Application.student a); [discriminate|now elim Hst].
Qed.

(** The errors that the [try] block raises for a request with its row and
    its student are rejections of its store calls. *)
Lemma processBody_Err_store (env : Env) (allocatedBy : string)
    (a : Application.t) (stats : Stats) (e : Error) (db d : DB) :
  hasRow db (Application.id a) = true ->
  Application.student a <> None ->
  processBody env allocatedBy a stats db = (Err e, d) ->
  exists op,
    In op (tryOps (Application.id a)) /\ fails env op = true /\
    e = StoreError op.
Proof.
  intros Hrow Hst. unfold processBody, bind, applicationUpdate.
  destruct (fails env (RunMarkInProgress _)) eqn:Em.
  { intros [= <- _]. eexists. split; [|split; [exact Em|reflexivity]].
    simpl. tauto. }
  unfold hasRow in Hrow. rewrite Hrow.
  set (db1 := setApplications _ db).
  assert (Hrow1 : hasRow db1 (Application.id a) = true).
  { unfold db1. rewrite hasRow_updated. exact Hrow. }
  destruct (allocateBed_cases env a allocatedBy db1)
    as [H|(bed & _ & _ & _ & H)]; rewrite H; clear H.
  - destruct (addToWaitlist env a db1) as [[[]|e'] d'] eqn:Ew;
      [discriminate|].
    intros [= <- _].
    destruct (@addToWaitlist_Err env a e' db1 d' Hrow1 Hst Ew)
      as (op & Hin & Hf & ->).
    exists op. split; [|split; [exact Hf|reflexivity]].
    simpl in Hin |- *. tauto.
  - destruct (Application.student a); [discriminate|now elim Hst].
Qed.

(** One turn of the loop, when the store accepts the reset. *)
Lemma processApplication_handled (env : Env) (allocatedBy : string)
    (a : Application.t) (stats : Stats) (db : DB) :
  hasRow db (Application.id a) = true ->
  selectable a = true ->
  Application.student a <> None ->
  fails env (RunResetStatus (Application.id a)) = false ->
  exists o db',
    processApplication env allocatedBy a stats db = (Ok (tally stats o), db') /\
    handled env allocatedBy a o stats db (tally stats o) db' /\
    statusOf db' (Application.id a) = Some (finalStatus a o).
Proof.
  intros Hrow Hsel Hst Hreset. rewrite processApplication_eq. unfold tryCatch.
  pose proof (frame_processBody env allocatedBy a stats db) as Hfr.
  destruct (processBody env allocatedBy a stats db) as [[stats'|e] db1] eqn:Eb.
  - destruct (processBody_Ok _ _ _ _ _ Eb)
      as [(-> & Hs & Hal & Hwl)|(-> & Hs & Hwl & Hal)].
    + exists Allocated, db1. unfold handled. rewrite Eb. simpl. auto 6.
    + exists Waitlisted, db1. unfold handled. rewrite Eb. simpl. auto 6.
  - simpl in Hfr. destruct Hfr as (_ & _ & _ & Hids & _).
    assert (Hrow1 : hasRow db1 (Application.id a) = true)
      by now rewrite (@hasRow_ids db db1 _ Hids).
    rewrite resetOnError_Ok by assumption.
    destruct (@processBody_Err_store env allocatedBy a stats e db db1 Hrow Hst Eb)
      as (op & Hin & Hf & ->).
    exists Errored. eexists. split; [reflexivity|]. split.
    + unfold handled. rewrite Eb. exists op, db1. auto 6.
    + rewrite statusOf_updated by assumption. simpl.
      now rewrite resetStatus_selectable.
Qed.

(** The loop, when the store accepts every reset: each request has its
    turn, on the store that the turns before it left. *)
Lemma processAll_handled (env : Env) (allocatedBy : string) :
  forall (apps : list Application.t) (stats : Stats) (db : DB),
    NoDup (map idOf apps) ->
    (forall a, In a apps ->
               hasRow db (Application.id a) = true /\ selectable a = true /\
               Application.student a <> None) ->
    (forall app, fails env (RunResetStatus app) = false) ->
    exists outcomes db',
      processAll env allocatedBy apps stats db =
        (Ok (fold_left tally outcomes stats), db') /\
      handledInTurn env allocatedBy apps outcomes stats db
                    (fold_left tally outcomes stats) db' /\
      Forall2 (fun (a : Application.t) o =>
                 statusOf db' (Application.id a) = Some (finalStatus a o))
              apps outcomes /\
      (forall app', ~ In app' (map idOf apps) ->
                    statusOf db' app' = statusOf db app').
Proof.
  induction apps as [|a rest IH]; intros stats db Hnd Happs Hreset.
  - exists [], db. simpl. repeat split. constructor.
  - inversion Hnd as [|? ? Hnin Hnd']; subst.
    destruct (Happs a (or_introl eq_refl)) as (Hrow & Hsel & Hst).
    destruct (@processApplication_handled env allocatedBy a stats db
                Hrow Hsel Hst (Hreset _)) as (o & db1 & Hp & Hh & Hs).
    pose proof (frame_processApplication env allocatedBy a stats db) as Hfr.
    rewrite Hp in Hfr. simpl in Hfr.
    destruct Hfr as (_ & _ & _ & Hids & Hothers).
    destruct (IH (tally stats o) db1 Hnd')
      as (os & db' & Hrest & Hturns & Hall & Hfr'); [|exact Hreset|].
    { intros b Hb. destruct (Happs b (or_intror Hb)) as (Hrb & Hsb & Hstb).
      split; [|now split]. now rewrite (@hasRow_ids db db1 _ Hids). }
    exists (o :: os), db'. split; [|split; [|split]].
    + cbn [processAll]. unfold bind. rewrite Hp. exact Hrest.
    + cbn [handledInTurn fold_left]. exists (tally stats o), db1.
      split; [exact Hh|exact Hturns].
    + constructor; [|exact Hall].
      rewrite (Hfr' (Application.id a) Hnin). exact Hs.
    + intros app' Hn. simpl in Hn.
      rewrite Hfr' by tauto. apply Hothers. intros ->. apply Hn. now left.
Qed.

(** C8, as amended.  When the store accepts the selection query and every
    status reset, a batch run returns, and every selected request has its
    turn, in the order of the selection, on the store that the turns
    before it left: a request whose [try] block raised a store error is
    the one counted as an error, only the error counter moves for it, and
    its status is put back; the turns after it go on from the store it
    left, and the request of each of them is allocated or waitlisted as
    the [try] block did it.  The three counters count these outcomes, the
    store returned is the store the last turn left, with the audit record
    of the run, and each request ends ALLOCATED, WAITLISTED or, when its
    handling failed, with the status it had before the run, so none is
    left IN_PROGRESS. *)
Theorem batch_isolation (env : Env) (allocatedBy : string) (db : DB) :
  NoDup (map Application.id (applications db)) ->
  fails env RunFindApplications = false ->
  (forall app, fails env (RunResetStatus app) = false) ->
  exists outcomes db',
    let stats := fold_left tally outcomes (mkStats 0 0 0) in
    runAllocation env allocatedBy db = (Ok stats, db') /\
    Forall2 (fun (a : Application.t) o =>
               statusOf db' (Application.id a) = Some (finalStatus a o))
            (findApplications env db) outcomes /\
    allocated stats = length (filter isAllocated outcomes) /\
    waitlisted stats = length (filter isWaitlisted outcomes) /\
    errors stats = length (filter isErrored outcomes) /\
    (forall r, In r (applications db) -> selectable r = true ->
       exists s,
         statusOf db' (Application.id r) = Some s /\
         (s = ALLOCATED \/ s = WAITLISTED \/ s = Application.status r) /\
         s <> IN_PROGRESS) /\
    (exists db1 logs,
       handledInTurn env allocatedBy (findApplications env db) outcomes
                     (mkStats 0 0 0) db stats db1 /\
       db' = setAuditLogs logs db1).
Proof.
  intros Hnd Hfind Hreset.
  destruct (@processAll_handled env allocatedBy (findApplications env db)
              (mkStats 0 0 0) db) as (os & db1 & Hrun & Hturns & Hall & _).
  { now apply findApplications_NoDup. }
  { intros a Ha. apply findApplications_In in Ha.
    destruct Ha as (r & -> & Hin & Hsel).
    split; [now apply hasRow_In|]. split; [exact Hsel|discriminate]. }
  { exact Hreset. }
  destruct (createAuditLog_result env RunAuditLog allocatedBy CREATE
              "ALLOCATION" "batch"
              (BatchDetails (fold_left tally os (mkStats 0 0 0))
                            (clock env RunAuditLog)) db1) as (logs & Hlog).
  exists os, (setAuditLogs logs db1).
  destruct (tally_counts os (mkStats 0 0 0)) as (Ha & Hw & He).
  simpl in Ha, Hw, He. cbv zeta.
  split.
  { unfold runAllocation, tryCatch, bind, query. rewrite Hfind, Hrun, Hlog.
    reflexivity. }
  split; [exact Hall|].
  split; [exact Ha|]. split; [exact Hw|]. split; [exact He|].
  split.
  - intros r Hin Hsel.
    assert (Hr : In (Application.withStudent r) (findApplications env db))
      by (apply findApplications_In; eauto).
    destruct (Forall2_In_l _ Hall Hr) as (o & _ & Ho).
    exists (finalStatus (Application.withStudent r) o).
    split; [exact Ho|]. apply selectable_spec in Hsel.
    destruct o; simpl; split; auto; try discriminate.
    destruct Hsel as [-> | ->]; discriminate.
  - exists db1, logs. split; [exact Hturns|reflexivity].
Qed.

Lemma batch_isolation_witness :
  exists db',
    runAllocation upsertRejected "admin" testDb = (Ok (mkStats 1 0 1), db') /\
    Forall2 (fun (a : Application.t) o =>
               statusOf db' (Application.id a) = Some (finalStatus a o))
            (findApplications upsertRejected testDb) [Allocated; Errored].
Proof.
  destruct (batch_isolation upsertRejected "admin" testDb)
    as (os & db' & H1 & H2 & _ & _ & _ & _ & db1 & logs & Hturns & _).
  - simpl. repeat constructor; simpl; intuition discriminate.
  - reflexivity.
  - reflexivity.
  - assert (Hsel : findApplications upsertRejected testDb =
                   [Application.withStudent app1; Application.withStudent app2])
      by reflexivity.
    assert (Hos : os = [Allocated; Errored]).
    { rewrite Hsel in Hturns.
      destruct os as [|o1 [|o2 [|o3 os]]]; try (now destruct Hturns);
        destruct Hturns as (s1 & d1 & Hone & Hturns);
        try (now destruct Hturns);
        destruct Hturns as (s2 & d2 & Htwo & Hturns);
        try (now destruct Hturns).
      destruct o1; cbn [handled] in Hone.
      - destruct Hone as (Hone & _).
        vm_compute in Hone. injection Hone as <- <-.
        destruct o2; cbn [handled] in Htwo.
        + destruct Htwo as (Htwo & _). vm_compute in Htwo. discriminate.
        + destruct Htwo as (Htwo & _). vm_compute in Htwo. discriminate.
        + reflexivity.
      - destruct Hone as (Hone & -> & _). vm_compute in Hone. discriminate.
      - destruct Hone as (op & d & _ & _ & Hone & _).
        vm_compute in Hone. discriminate. }
    subst os. exists db'. split; assumption.
Defined.

(** One store error in a run: [app1] gets the bed, the upsert for [app2]
    is rejected; the run reports one allocation and one error, and [app2]
    is PENDING again. *)
Example single_store_error :
  let result := runAllocation upsertRejected "admin" testDb in
  fst result = Ok (mkStats 1 0 1) /\
  statusOf (snd result) "app1" = Some ALLOCATED /\
  statusOf (snd result) "app2" = Some PENDING /\
  hasWaitlistEntry (snd result) "app2" = false.
Proof. vm_compute. repeat split. Qed.

(** C8, counterexample.  Two pending requests and no bed.  The store
    accepts the IN_PROGRESS mark of the first request and then rejects its
    rank query and its status reset: the run ends with the error of the
    reset, the first request is left IN_PROGRESS, and the second one was
    never handled. *)
Lemma batch_isolation_counterexample :
  let result := runAllocation storeLost "admin" noBedsDb in
  fst result = Err (StoreError (RunResetStatus "app1")) /\
  statusOf (snd result) "app1" = Some IN_PROGRESS /\
  statusOf (snd result) "app2" = Some PENDING /\
  hasWaitlistEntry (snd result) "app2" = false /\
  hasAllocation (snd result) "app2" = false.
Proof. vm_compute. repeat split. Qed.

(* ================================================================== *)
(** ** Allocation and waitlist entry exclude each other *)

Lemma allocateBed_exclusive (env : Env) (a : Application.t)
    (allocatedBy : string) (db : DB) :
  exclusive db ->
  let db' := snd (allocateBed env a allocatedBy db) in
  exclusive db' /\
  (db' = db \/
   (hasAllocation db' (Application.id a) = true /\
    hasWaitlistEntry db' (Application.id a) = false)).
Proof.
  intros Hex.
  destruct (allocateBed_cases env a allocatedBy db)
    as [H|(bed & _ & _ & _ & H)]; rewrite H; simpl; [auto|].
  assert (Hown : hasAllocation (commitWrites env a allocatedBy bed db)
                               (Application.id a) = true /\
                 hasWaitlistEntry (commitWrites env a allocatedBy bed db)
                                  (Application.id a) = false).
  { rewrite commitWrites_hasAllocation, commitWrites_hasWaitlistEntry.
    rewrite String.eqb_refl. split; [apply orb_true_r|reflexivity]. }
  split; [|now right].
  intros app. rewrite commitWrites_hasAllocation, commitWrites_hasWaitlistEntry.
  destruct (app =? Application.id a)%string eqn:E; [reflexivity|].
  rewrite String.eqb_sym, E, orb_false_r. apply Hex.
Qed.

Lemma processBody_Err (env : Env) (allocatedBy : string) (a : Application.t)
    (stats : Stats) (e : Error) (db db' : DB) :
  Application.student a <> None ->
  processBody env allocatedBy a stats db = (Err e, db') ->
  allocations db' = allocations db.
Proof.
  intros Hst. unfold processBody, bind, applicationUpdate.
  destruct (fails env (RunMarkInProgress _)); [now intros [= _ <-]|].
  destruct (existsb _ (applications db)); [|now intros [= _ <-]].
  set (db1 := setApplications _ db).
  destruct (allocateBed_cases env a allocatedBy db1)
    as [H|(bed & _ & _ & _ & H)]; rewrite H; clear H.
  - assert (Hu : forall r h, allocations (upsertWaitlist env a r h db1) =
                             allocations db).
    { intros r h. unfold upsertWaitlist.
      now destruct (existsb _ (waitlistEntries db1)). }
    destruct (addToWaitlist_cases env a db1)
      as [[_ (e' & H)]|[(_ & _ & _ & e' & H)|(_ & _ & _ & _ & H)]];
      rewrite H; clear H.
    + now intros [= _ <-].
    + intros [= _ <-]. apply Hu.
    + destruct (Application.student a); [discriminate|congruence].
  - destruct (Application.student a); [discriminate|congruence].
Qed.

(** After the handling of a request that had no allocation: it still has
    none, or it is ALLOCATED and has no waitlist entry. *)
Lemma processApplication_own (env : Env) (allocatedBy : string)
    (a : Application.t) (stats : Stats) (db : DB) :
  Application.student a <> None ->
  hasAllocation db (Application.id a) = false ->
  let db' := snd (processApplication env allocatedBy a stats db) in
  hasAllocation db' (Application.id a) = false \/
  (hasWaitlistEntry db' (Application.id a) = false /\
   statusOf db' (Application.id a) = Some ALLOCATED).
Proof.
  intros Hst Hno. rewrite processApplication_eq. unfold tryCatch.
  destruct (processBody env allocatedBy a stats db) as [[stats'|e] db1] eqn:Eb.
  - apply processBody_Ok in Eb. simpl.
    destruct Eb as [(_ & Hs & _ & Hw)|(_ & _ & _ & Hal)]; [now right|left].
    unfold hasAllocation in *. now rewrite Hal.
  - apply processBody_Err in Eb; [|exact Hst]. left.
    assert (Hal : allocations
                    (snd (resetOnError env a stats e db1)) = allocations db1).
    { unfold resetOnError, bind, applicationUpdate.
      destruct (fails env (RunResetStatus _)); [reflexivity|].
      now destruct (existsb _ (applications db1)). }
    unfold hasAllocation in *. now rewrite Hal, Eb.
Qed.

Lemma processApplication_wellFormed (env : Env) (allocatedBy : string)
    (a : Application.t) (stats : Stats) (db : DB) :
  Application.student a <> None ->
  hasAllocation db (Application.id a) = false ->
  wellFormed db ->
  wellFormed (snd (processApplication env allocatedBy a stats db)).
Proof.
  intros Hst Hno (Hnd & Hex & Hsel).
  pose proof (frame_processApplication env allocatedBy a stats db)
    as (_ & _ & _ & Hids & Hothers).
  pose proof (@processApplication_own env allocatedBy a stats db Hst Hno) as Hown.
  cbv zeta in Hown.
  set (db' := snd (processApplication env allocatedBy a stats db)) in *.
  repeat split.
  - now rewrite Hids.
  - intros app Hal.
    destruct (String.eqb_spec app (Application.id a)) as [->|Hne].
    + destruct Hown as [Hown|[Hown _]]; congruence.
    + destruct (Hothers app Hne) as (_ & Ha & Hw). rewrite Hw. apply Hex.
      now rewrite <- Ha.
  - intros app Hs.
    destruct (String.eqb_spec app (Application.id a)) as [->|Hne].
    + destruct Hown as [Hown|[_ Hown]]; [exact Hown|].
      rewrite Hown in Hs. destruct Hs; discriminate.
    + destruct (Hothers app Hne) as (Hst' & Ha & _). rewrite Ha. apply Hsel.
      now rewrite <- Hst'.
Qed.

Lemma processAll_wellFormed (env : Env) (allocatedBy : string) :
  forall (apps : list Application.t) (stats : Stats) (db : DB),
    NoDup (map idOf apps) ->
    (forall a, In a apps ->
               Application.student a <> None /\
               hasAllocation db (Application.id a) = false) ->
    wellFormed db ->
    wellFormed (snd (processAll env allocatedBy apps stats db)).
Proof.
  induction apps as [|a rest IH]; intros stats db Hnd Happs Hwf; [exact Hwf|].
  inversion Hnd as [|? ? Hnin Hnd']; subst.
  destruct (Happs a (or_introl eq_refl)) as [Hst Hno].
  pose proof (@processApplication_wellFormed env allocatedBy a stats db Hst Hno Hwf)
    as Hwf1.
  pose proof (frame_processApplication env allocatedBy a stats db)
    as (_ & _ & _ & _ & Hothers).
  cbn [processAll]. unfold bind.
  destruct (processApplication env allocatedBy a stats db) as [[stats1|e] db1];
    simpl in *; [|exact Hwf1].
  apply IH; [exact Hnd'| |exact Hwf1].
  intros b Hb. destruct (Happs b (or_intror Hb)) as [Hsb Hnb].
  split; [exact Hsb|].
  assert (Hne : Application.id b <> Application.id a).
  { intros E. apply Hnin. apply in_map_iff. exists b. split; [|exact Hb].
    unfold idOf. congruence. }
  destruct (Hothers _ Hne) as (_ & Ha & _). congruence.
Qed.

Lemma statusOf_In (db : DB) (r : Application.row) :
  NoDup (map Application.id (applications db)) ->
  In r (applications db) ->
  statusOf db (Application.id r) = Some (Application.status r).
Proof.
  unfold statusOf. induction (applications db) as [|x l IH]; simpl; [tauto|].
  intros Hnd [->|Hin].
  - now rewrite String.eqb_refl.
  - inversion Hnd as [|? ? Hnin Hnd']; subst.
    destruct (String.eqb_spec (Application.id x) (Application.id r)) as [E|_];
      [|now apply IH].
    exfalso. apply Hnin. rewrite E. now apply in_map.
Qed.

Lemma runAllocation_wellFormed (env : Env) (allocatedBy : string) (db : DB) :
  wellFormed db -> wellFormed (snd (runAllocation env allocatedBy db)).
Proof.
  intros Hwf. unfold runAllocation, tryCatch, bind, query.
  destruct (fails env RunFindApplications); [exact Hwf|].
  assert (Hnd : NoDup (map idOf (findApplications env db))).
  { destruct Hwf as (Hnd & _). now apply findApplications_NoDup. }
  assert (Hsel : forall a, In a (findApplications env db) ->
                           Application.student a <> None /\
                           hasAllocation db (Application.id a) = false).
  { intros a Ha. apply findApplications_In in Ha.
    destruct Ha as (r & -> & Hin & Hsel). split; [discriminate|].
    destruct Hwf as (Hnd' & _ & Hs). apply Hs. simpl.
    rewrite (@statusOf_In db r Hnd' Hin).
    apply selectable_spec in Hsel. destruct Hsel as [-> | ->]; auto. }
  pose proof (@processAll_wellFormed env allocatedBy (findApplications env db)
                (mkStats 0 0 0) db Hnd Hsel Hwf) as Hall.
  destruct (processAll env allocatedBy (findApplications env db) (mkStats 0 0 0) db)
    as [[stats|e] db1]; simpl in *; [|exact Hall].
  destruct (createAuditLog_result env RunAuditLog allocatedBy CREATE
              "ALLOCATION" "batch"
              (BatchDetails stats (clock env RunAuditLog)) db1)
    as (logs & ->). exact Hall.
Qed.

Lemma allocateBed_wellFormed (env : Env) (a : Application.t)
    (allocatedBy : string) (db : DB) :
  wellFormed db -> wellFormed (snd (allocateBed env a allocatedBy db)).
Proof.
  intros (Hnd & Hex & Hsel).
  destruct (allocateBed_exclusive env a allocatedBy Hex) as [Hex' _].
  pose proof (@preserves_allocateBed (frame (Application.id a))
                (@frame_refl (Application.id a)) env a allocatedBy
                (fun bed db0 => frame_commitWrites env a allocatedBy bed db0) db)
    as (_ & _ & _ & Hids & Hothers).
  split; [now rewrite Hids|]. split; [exact Hex'|].
  intros app Hs.
  destruct (String.eqb_spec app (Application.id a)) as [->|Hne].
  - destruct (allocateBed_cases env a allocatedBy db)
      as [H|(bed & _ & _ & Hrow & H)]; rewrite H in *; simpl in *.
    + now apply Hsel.
    + rewrite commitWrites_statusOf, String.eqb_refl in Hs.
      apply hasRow_statusOf in Hrow. destruct Hrow as (s0 & Hs0).
      rewrite Hs0 in Hs. destruct Hs; discriminate.
  - destruct (Hothers app Hne) as (Hst & Hal & _). rewrite Hal.
    apply Hsel. now rewrite <- Hst.
Qed.

(** C7.  From a store where no request has both an allocation and a
    waitlist entry (and where the requests still PENDING or WAITLISTED
    have no allocation): a call of [allocateBed], whatever the store
    rejects, leaves such a store, and when it changes the store at all the
    request has its allocation and no waitlist entry any more, both from
    the one transaction; and a batch run, whatever the store rejects and
    whether it returns or raises, leaves such a store again. *)
Theorem allocation_excludes_waitlist (env : Env) (allocatedBy : string)
    (db : DB) :
  wellFormed db ->
  (forall application : Application.t,
     let db' := snd (allocateBed env application allocatedBy db) in
     wellFormed db' /\
     exclusive db' /\
     (db' = db \/
      (hasAllocation db' (Application.id application) = true /\
       hasWaitlistEntry db' (Application.id application) = false))) /\
  wellFormed (snd (runAllocation env allocatedBy db)) /\
  exclusive (snd (runAllocation env allocatedBy db)).
Proof.
  intros Hwf. split; [|split].
  - intros application. split; [now apply allocateBed_wellFormed|].
    apply allocateBed_exclusive. apply Hwf.
  - now apply runAllocation_wellFormed.
  - now apply runAllocation_wellFormed.
Qed.

Lemma allocation_excludes_waitlist_witness :
  let db' := snd (runAllocation noFaults "admin" waitlistedDb) in
  exclusive db' /\
  hasAllocation db' "app1" = true /\ hasWaitlistEntry db' "app1" = false.
Proof.
  assert (Hwf : wellFormed waitlistedDb).
  { unfold wellFormed, exclusive. split; [|split].
    - simpl. repeat constructor; simpl; intuition discriminate.
    - intros app H. discriminate.
    - intros app _. reflexivity. }
  destruct (allocation_excludes_waitlist noFaults "admin" Hwf) as (_ & _ & H).
  split; [exact H|]. split; reflexivity.
Defined.

(* ================================================================== *)
(** ** Runs without store failures *)

Lemma lockFirst_quiet (env : Env) (app : string) (db : DB) (c : Bed.t)
    (cands : list Bed.t) :
  quiet env -> In c (beds db) -> Bed.occupiedBy c = None ->
  lockFirst env app db (c :: cands) = Some c.
Proof.
  intros [Hf Hs] Hin Hfree. simpl. rewrite Hf.
  unfold lockQuery. rewrite Hs.
  destruct (filter _ (beds db)) as [|x l] eqn:E; [|reflexivity].
  exfalso.
  assert (Hc : In c (filter
                       (fun b => (Bed.id b =? Bed.id c)%string &&
                                 match Bed.occupiedBy b with
                                 | Some _ => false
                                 | None => true
                                 end) (beds db))).
  { apply filter_In. split; [exact Hin|].
    now rewrite String.eqb_refl, Hfree. }
  rewrite E in Hc. destruct Hc.
Qed.

Lemma txAccepted_quiet (env : Env) (app : string) :
  quiet env -> txAccepted env app = true.
Proof. intros [Hf _]. unfold txAccepted. now rewrite !Hf. Qed.

(** Without failures, [allocateBed] takes the first candidate. *)
Lemma allocateBed_quiet (env : Env) (a : Application.t) (allocatedBy : string)
    (db : DB) :
  quiet env -> hasRow db (Application.id a) = true ->
  allocateBed env a allocatedBy db =
  match findCandidateBeds (baseRoomFilter a) db with
  | [] => (Ok false, db)
  | bed :: _ => (Ok (isSome (Application.student a)),
                 commitWrites env a allocatedBy bed db)
  end.
Proof.
  intros Hq Hrow.
  destruct (findCandidateBeds (baseRoomFilter a) db) as [|c cands] eqn:Ec.
  { now apply allocateBed_no_candidate. }
  assert (Hc : In c (beds db) /\ Bed.occupiedBy c = None).
  { assert (Hin : In c (findCandidateBeds (baseRoomFilter a) db))
      by (rewrite Ec; now left).
    apply findCandidateBeds_In in Hin. destruct Hin as [Hin Hw].
    split; [exact Hin|]. apply bedWhere_spec in Hw. tauto. }
  destruct Hc as [Hin Hfree].
  pose proof (@lockFirst_quiet env (Application.id a) db c cands Hq Hin Hfree)
    as Hl.
  unfold allocateBed, tryCatch, bind, transaction, allocationTx, bind, query.
  destruct Hq as [Hf Hs]. rewrite Hf, Ec, Hl.
  unfold bedUpdate. rewrite Hf.
  rewrite (existsb_id Bed.id _ _ Hin).
  unfold applicationUpdate. rewrite Hf. simpl applications.
  unfold hasRow in Hrow. rewrite Hrow.
  unfold exec. rewrite ?Hf. unfold ret. rewrite ?Hf.
  unfold sendAllocationNotification, throw, ret, commitWrites.
  destruct (Application.student a); reflexivity.
Qed.

Lemma afterMark_frame (a : Application.t) (db : DB) :
  blocks (afterMark a db) = blocks db /\
  rooms (afterMark a db) = rooms db /\
  beds (afterMark a db) = beds db /\
  allocations (afterMark a db) = allocations db /\
  waitlistEntries (afterMark a db) = waitlistEntries db.
Proof. repeat split. Qed.

(** Without failures, a request with its [student] relation is allocated
    the first candidate, or waitlisted when there is none. *)
Lemma processApplication_quiet (env : Env) (allocatedBy : string)
    (a : Application.t) (stats : Stats) (db : DB) :
  quiet env -> hasRow db (Application.id a) = true ->
  Application.student a <> None ->
  processApplication env allocatedBy a stats db =
  match findCandidateBeds (baseRoomFilter a) db with
  | [] => (Ok (incWaitlisted stats), afterWaitlist env a db)
  | bed :: _ => (Ok (incAllocated stats),
                 commitWrites env a allocatedBy bed (afterMark a db))
  end.
Proof.
  intros Hq Hrow Hst. unfold processApplication, tryCatch, bind.
  unfold applicationUpdate at 1. destruct Hq as [Hf Hs].
  rewrite Hf. unfold hasRow in Hrow. rewrite Hrow.
  fold (afterMark a db).
  assert (Hrow1 : hasRow (afterMark a db) (Application.id a) = true).
  { unfold afterMark. now rewrite hasRow_updated. }
  rewrite allocateBed_quiet by (try split; assumption).
  rewrite (findCandidateBeds_ext (baseRoomFilter a) (afterMark a db) db)
    by reflexivity.
  destruct (findCandidateBeds (baseRoomFilter a) db) as [|c cands].
  - destruct (addToWaitlist_cases env a (afterMark a db))
      as [[[H|H] _]|[(_ & _ & [H|H] & _)|(_ & _ & _ & _ & H)]];
      try (rewrite Hf in H; discriminate); try congruence.
    rewrite H. destruct (Application.student a); [reflexivity|congruence].
  - destruct (Application.student a); [reflexivity|congruence].
Qed.

Lemma NoDup_ids_eq (l : list Application.row) (x y : Application.row) :
  NoDup (map Application.id l) -> In x l -> In y l ->
  Application.id x = Application.id y -> x = y.
Proof.
  induction l as [|z l IH]; simpl; [tauto|].
  intros Hnd Hx Hy E. inversion Hnd as [|? ? Hnin Hnd']; subst.
  destruct Hx as [->|Hx], Hy as [->|Hy]; auto.
  - exfalso. apply Hnin. rewrite E. now apply in_map.
  - exfalso. apply Hnin. rewrite <- E. now apply in_map.
Qed.

Lemma setStatus_restore (r : Application.row) (s : ApplicationStatus) :
  Application.setStatus (Application.status r) (Application.setStatus s r) = r.
Proof. now destruct r. Qed.

Lemma restore_status (l : list Application.row) (r : Application.row)
    (s : ApplicationStatus) :
  NoDup (map Application.id l) -> In r l ->
  map (updateStatus (Application.id r) (Application.status r))
      (map (updateStatus (Application.id r) s) l) = l.
Proof.
  intros Hnd Hr. rewrite map_map. rewrite <- (map_id l) at 2.
  apply map_ext_in. intros x Hx. unfold updateStatus.
  destruct (String.eqb_spec (Application.id x) (Application.id r)) as [E|E].
  - simpl. rewrite E, String.eqb_refl.
    rewrite (NoDup_ids_eq l x r Hnd Hx Hr E). apply setStatus_restore.
  - apply String.eqb_neq in E. now rewrite E.
Qed.

Lemma hasWaitlistEntry_forgetRank (db db' : DB) (app : string) :
  map forgetRank (waitlistEntries db') = map forgetRank (waitlistEntries db) ->
  hasWaitlistEntry db' app = hasWaitlistEntry db app.
Proof.
  intros H. unfold hasWaitlistEntry.
  assert (Hf : forall l,
            existsb (fun e => (WaitlistEntry.applicationId e =? app)%string) l =
            existsb (fun e => (WaitlistEntry.applicationId e =? app)%string)
                    (map forgetRank l)).
  { intros l. rewrite existsb_map. now apply existsb_ext. }
  now rewrite (Hf (waitlistEntries db')), (Hf (waitlistEntries db)), H.
Qed.

Lemma sameButRanks_trans (db1 db2 db3 : DB) :
  sameButRanks db1 db2 -> sameButRanks db2 db3 -> sameButRanks db1 db3.
Proof. unfold sameButRanks. intuition congruence. Qed.

(** Handling again a request that is WAITLISTED, has its entry and finds
    no candidate: only the rank of its entry changes. *)
Lemma afterWaitlist_settled (env : Env) (r : Application.row) (db : DB) :
  NoDup (map Application.id (applications db)) ->
  In r (applications db) ->
  Application.status r = WAITLISTED ->
  hasWaitlistEntry db (Application.id r) = true ->
  sameButRanks db (afterWaitlist env (Application.withStudent r) db).
Proof.
  intros Hnd Hin Hs Hw. unfold afterWaitlist, upsertWaitlist.
  simpl Application.id.
  change (waitlistEntries (afterMark (Application.withStudent r) db))
    with (waitlistEntries db).
  unfold hasWaitlistEntry in Hw. rewrite Hw.
  unfold sameButRanks. simpl. repeat split.
  - rewrite <- Hs at 1. now apply restore_status.
  - rewrite map_map. apply map_ext. intros e.
    now destruct (WaitlistEntry.applicationId e =? Application.id r)%string.
Qed.

Lemma processAll_settled (env : Env) (allocatedBy : string) :
  quiet env ->
  forall (apps : list Application.t) (stats : Stats) (db : DB),
    NoDup (map Application.id (applications db)) ->
    (forall a, In a apps ->
       exists r, a = Application.withStudent r /\
                 In r (applications db) /\
                 Application.status r = WAITLISTED /\
                 hasWaitlistEntry db (Application.id r) = true /\
                 findCandidateBeds (baseRoomFilter a) db = []) ->
    exists db',
      processAll env allocatedBy apps stats db =
        (Ok (mkStats (allocated stats) (waitlisted stats + length apps)
                     (errors stats)), db') /\
      sameButRanks db db'.
Proof.
  intros Hq. induction apps as [|a rest IH]; intros stats db Hnd Happs.
  - exists db. split.
    + simpl. unfold ret. rewrite Nat.add_0_r. now destruct stats.
    + unfold sameButRanks. repeat split.
  - destruct (Happs a (or_introl eq_refl)) as (r & -> & Hin & Hs & Hw & Hc).
    pose proof (afterWaitlist_settled env r db Hnd Hin Hs Hw) as Hsame.
    set (db1 := afterWaitlist env (Application.withStudent r) db) in *.
    destruct Hsame as (Hb & Hr & Hbeds & Happl & Hall & Hlog & Hwl).
    destruct (IH (incWaitlisted stats) db1) as (db' & Hrun & Hsame').
    { now rewrite Happl. }
    { intros b Hb'. destruct (Happs b (or_intror Hb')) as (rb & -> & H1 & H2 & H3 & H4).
      exists rb. repeat split; try assumption.
      - now rewrite Happl.
      - now rewrite (hasWaitlistEntry_forgetRank db db1 _ Hwl).
      - rewrite <- H4. now apply findCandidateBeds_ext. }
    exists db'. split.
    + cbn [processAll]. unfold bind.
      rewrite processApplication_quiet;
        [|exact Hq|now apply hasRow_In|discriminate].
      rewrite Hc. fold db1. rewrite Hrun. simpl. do 3 f_equal. lia.
    + eapply sameButRanks_trans; [|exact Hsame'].
      unfold sameButRanks. repeat split; assumption.
Qed.

(** A batch run from a settled store, without failures. *)
Lemma runAllocation_settled (env : Env) (allocatedBy : string) (db : DB) :
  quiet env ->
  NoDup (map Application.id (applications db)) ->
  settled db ->
  exists db',
    runAllocation env allocatedBy db =
      (Ok (mkStats 0 (length (findApplications env db)) 0), db') /\
    beds db' = beds db /\
    applications db' = applications db /\
    allocations db' = allocations db /\
    map forgetRank (waitlistEntries db') = map forgetRank (waitlistEntries db).
Proof.
  intros Hq Hnd Hset.
  destruct (@processAll_settled env allocatedBy Hq (findApplications env db)
              (mkStats 0 0 0) db Hnd) as (db1 & Hrun & Hsame).
  { intros a Ha. apply findApplications_In in Ha.
    destruct Ha as (r & -> & Hin & Hsel).
    destruct (Hset r Hin Hsel) as (Hs & Hw & Hc). exists r. auto. }
  destruct Hsame as (_ & _ & Hbeds & Happl & Hall & _ & Hwl).
  destruct (createAuditLog_result env RunAuditLog allocatedBy CREATE
              "ALLOCATION" "batch"
              (BatchDetails (mkStats 0 (length (findApplications env db)) 0)
                            (clock env RunAuditLog)) db1) as (logs & Hlog).
  exists (setAuditLogs logs db1). split; [|now repeat split].
  unfold runAllocation, tryCatch, bind, query.
  destruct Hq as [Hf _]. rewrite Hf, Hrun. simpl. now rewrite Hlog.
Qed.

Lemma updateStatus_twice (app : string) (s1 s2 : ApplicationStatus)
    (l : list Application.row) :
  map (updateStatus app s2) (map (updateStatus app s1) l) =
  map (updateStatus app s2) l.
Proof.
  rewrite map_map. apply map_ext. intros r. unfold updateStatus.
  destruct (Application.id r =? app)%string eqn:E; simpl; rewrite E; reflexivity.
Qed.

Lemma findCandidateBeds_nil (f : RoomFilter) (db : DB) :
  findCandidateBeds f db = [] <->
  forall b, In b (beds db) -> bedWhere db f b = false.
Proof.
  unfold findCandidateBeds. split.
  - intros H b Hin. apply not_true_is_false. intros Hw.
    assert (Hb : In b (filter (bedWhere db f) (beds db)))
      by (apply filter_In; now split).
    apply (orderBy_In bedIdLeb) in Hb.
    destruct (orderBy bedIdLeb (filter (bedWhere db f) (beds db)));
      [destruct Hb|discriminate].
  - intros H.
    assert (E : filter (bedWhere db f) (beds db) = []).
    { destruct (filter (bedWhere db f) (beds db)) as [|b l] eqn:E; [reflexivity|].
      assert (Hb : In b (filter (bedWhere db f) (beds db)))
        by (rewrite E; now left).
      apply filter_In in Hb. destruct Hb as [Hin Hw].
      rewrite (H b Hin) in Hw. discriminate. }
    now rewrite E.
Qed.

(** Occupying beds creates no candidate. *)
Lemma findCandidateBeds_nil_occupy (f : RoomFilter) (db db1 : DB)
    (bedId studentId : string) :
  blocks db1 = blocks db -> rooms db1 = rooms db ->
  beds db1 = map (fun b => if (Bed.id b =? bedId)%string
                           then occupy studentId b else b) (beds db) ->
  findCandidateBeds f db = [] -> findCandidateBeds f db1 = [].
Proof.
  intros Hb Hr Hbeds H. rewrite findCandidateBeds_nil in *.
  intros b' Hin. rewrite Hbeds in Hin. apply in_map_iff in Hin.
  destruct Hin as (b & <- & Hin).
  destruct (Bed.id b =? bedId)%string; [reflexivity|].
  rewrite <- (H b Hin). unfold bedWhere, roomMatches, findRoom, findBlock.
  now rewrite Hb, Hr.
Qed.

(** One turn of the loop without failures. *)
Lemma quiet_step (env : Env) (allocatedBy : string) (r : Application.row)
    (stats : Stats) (db : DB) :
  quiet env -> In r (applications db) ->
  let a := Application.withStudent r in
  exists stats' db1 s,
    processApplication env allocatedBy a stats db = (Ok stats', db1) /\
    blocks db1 = blocks db /\ rooms db1 = rooms db /\
    applications db1 = map (updateStatus (Application.id r) s) (applications db) /\
    ((s = WAITLISTED /\ beds db1 = beds db /\
      hasWaitlistEntry db1 (Application.id r) = true /\
      findCandidateBeds (baseRoomFilter a) db = []) \/
     (s = ALLOCATED /\
      exists bedId studentId,
        beds db1 = map (fun b => if (Bed.id b =? bedId)%string
                                 then occupy studentId b else b) (beds db))).
Proof.
  intros Hq Hin a.
  rewrite processApplication_quiet;
    [|exact Hq|now apply hasRow_In|discriminate].
  destruct (findCandidateBeds (baseRoomFilter a) db) as [|bed cands] eqn:Ec.
  - exists (incWaitlisted stats), (afterWaitlist env a db), WAITLISTED.
    assert (Happ : applications (afterWaitlist env a db) =
                   map (updateStatus (Application.id r) WAITLISTED)
                       (applications db)).
    { unfold afterWaitlist, upsertWaitlist.
      destruct (existsb _ (waitlistEntries (afterMark a db)));
        simpl; apply updateStatus_twice. }
    assert (Hrest : blocks (afterWaitlist env a db) = blocks db /\
                    rooms (afterWaitlist env a db) = rooms db /\
                    beds (afterWaitlist env a db) = beds db).
    { unfold afterWaitlist, upsertWaitlist.
      destruct (existsb _ (waitlistEntries (afterMark a db))); repeat split. }
    destruct Hrest as (Hb & Hr & Hbeds).
    repeat split; try assumption. left. repeat split; try assumption.
    unfold afterWaitlist.
    change (hasWaitlistEntry
              (upsertWaitlist env a
                 (assignedRank (waitlistHostel a) (afterMark a db))
                 (waitlistHostel a) (afterMark a db)) (Application.id a) = true).
    rewrite upsertWaitlist_hasWaitlistEntry, String.eqb_refl. apply orb_true_r.
  - exists (incAllocated stats),
           (commitWrites env a allocatedBy bed (afterMark a db)), ALLOCATED.
    repeat split.
    + rewrite commitWrites_applications. apply updateStatus_twice.
    + right. split; [reflexivity|].
      exists (Bed.id bed), (Application.studentId a). reflexivity.
Qed.

Lemma baseRoomFilter_setStatus (r : Application.row) (s : ApplicationStatus) :
  baseRoomFilter (Application.withStudent (Application.setStatus s r)) =
  baseRoomFilter (Application.withStudent r).
Proof. reflexivity. Qed.

Lemma processAll_settles (env : Env) (allocatedBy : string) :
  quiet env ->
  forall (todo : list Application.t) (stats : Stats) (db : DB),
    NoDup (map Application.id (applications db)) ->
    NoDup (map idOf todo) ->
    (forall a, In a todo ->
       exists r, a = Application.withStudent r /\ In r (applications db)) ->
    (forall r, In r (applications db) -> selectable r = true ->
       In (Application.withStudent r) todo \/
       (Application.status r = WAITLISTED /\
        hasWaitlistEntry db (Application.id r) = true /\
        findCandidateBeds (baseRoomFilter (Application.withStudent r)) db = [])) ->
    exists stats' db',
      processAll env allocatedBy todo stats db = (Ok stats', db') /\
      NoDup (map Application.id (applications db')) /\
      settled db'.
Proof.
  intros Hq. induction todo as [|a rest IH]; intros stats db Hnd Hndt Htodo Hsel.
  - exists stats, db. split; [reflexivity|]. split; [exact Hnd|].
    intros r Hin Hs. destruct (Hsel r Hin Hs) as [[]|H]. exact H.
  - destruct (Htodo a (or_introl eq_refl)) as (r & -> & Hr).
    destruct (@quiet_step env allocatedBy r stats db Hq Hr)
      as (stats1 & db1 & s & Hp & Hb & Hrooms & Happ & Hcase).
    pose proof (frame_processApplication env allocatedBy
                  (Application.withStudent r) stats db) as Hfr.
    rewrite Hp in Hfr. simpl in Hfr.
    destruct Hfr as (_ & _ & _ & Hids & Hothers).
    inversion Hndt as [|? ? Hnin Hndt']; subst.
    assert (Hkeep : forall x, In x (applications db) ->
                              Application.id x <> Application.id r ->
                              In x (applications db1)).
    { intros x Hx Hne. rewrite Happ. apply in_map_iff. exists x.
      split; [|exact Hx]. unfold updateStatus.
      apply String.eqb_neq in Hne. now rewrite Hne. }
    assert (Hnil : forall f, findCandidateBeds f db = [] ->
                             findCandidateBeds f db1 = []).
    { intros f Hf.
      destruct Hcase as [(_ & Hbeds & _)|(_ & bedId & sid & Hbeds)].
      - rewrite <- Hf. now apply findCandidateBeds_ext.
      - now apply (findCandidateBeds_nil_occupy f db db1 bedId sid). }
    destruct (IH stats1 db1) as (stats' & db' & Hrun & Hnd' & Hset).
    + now rewrite Hids.
    + exact Hndt'.
    + intros b Hb'. destruct (Htodo b (or_intror Hb')) as (rb & -> & Hrb).
      exists rb. split; [reflexivity|]. apply Hkeep; [exact Hrb|].
      intros E. apply Hnin. apply in_map_iff.
      exists (Application.withStudent rb). split; [exact E|exact Hb'].
    + intros r' Hr' Hs'. rewrite Happ in Hr'. apply in_map_iff in Hr'.
      destruct Hr' as (x & <- & Hx). unfold updateStatus in *.
      destruct (String.eqb_spec (Application.id x) (Application.id r)) as [E|E].
      * assert (x = r) by now apply (NoDup_ids_eq (applications db)).
        subst x. right.
        destruct Hcase as [(-> & Hbeds & Hw & Hc)|(-> & _)]; [|discriminate].
        repeat split; [exact Hw|].
        rewrite baseRoomFilter_setStatus. now apply Hnil.
      * destruct (Hsel x Hx Hs') as [[Ha|Hin']|(H1 & H2 & H3)].
        -- exfalso. apply E. now injection Ha as <-.
        -- now left.
        -- right. repeat split; [exact H1| |now apply Hnil].
           destruct (Hothers _ E) as (_ & _ & Hw). congruence.
    + exists stats', db'. split; [|split; assumption].
      cbn [processAll]. unfold bind. now rewrite Hp.
Qed.

(** A batch run without failures leaves a settled store. *)
Lemma runAllocation_settles (env : Env) (allocatedBy : string) (db : DB) :
  quiet env ->
  NoDup (map Application.id (applications db)) ->
  exists stats db',
    runAllocation env allocatedBy db = (Ok stats, db') /\
    NoDup (map Application.id (applications db')) /\
    settled db'.
Proof.
  intros Hq Hnd.
  destruct (@processAll_settles env allocatedBy Hq (findApplications env db)
              (mkStats 0 0 0) db Hnd) as (stats & db1 & Hrun & Hnd1 & Hset).
  { now apply findApplications_NoDup. }
  { intros a Ha. apply findApplications_In in Ha.
    destruct Ha as (r & -> & Hin & _). eauto. }
  { intros r Hin Hs. left. apply findApplications_In. eauto. }
  destruct (createAuditLog_result env RunAuditLog allocatedBy CREATE
              "ALLOCATION" "batch"
              (BatchDetails stats (clock env RunAuditLog)) db1) as (logs & Hlog).
  exists stats, (setAuditLogs logs db1). split; [|split; assumption].
  unfold runAllocation, tryCatch, bind, query.
  destruct Hq as [Hf _]. rewrite Hf, Hrun. simpl. now rewrite Hlog.
Qed.

(** C5, as amended.  Two batch runs in succession, the store rejecting
    nothing and nothing else touching it in between: the second run
    allocates nothing and fails on nothing, but it handles again every
    request the first run left WAITLISTED and counts each of them as
    waitlisted; it leaves the beds, the applications and the allocations
    as they were, and every waitlist entry in place with its request and
    scope, only its rank being assigned anew. *)
Theorem second_run_reranks (env1 env2 : Env) (allocatedBy : string) (db : DB) :
  quiet env1 -> quiet env2 ->
  NoDup (map Application.id (applications db)) ->
  exists stats1 db1 db2,
    runAllocation env1 allocatedBy db = (Ok stats1, db1) /\
    runAllocation env2 allocatedBy db1 =
      (Ok (mkStats 0 (length (findApplications env2 db1)) 0), db2) /\
    (forall a : Application.t,
       In a (findApplications env2 db1) -> Application.status a = WAITLISTED) /\
    beds db2 = beds db1 /\
    applications db2 = applications db1 /\
    allocations db2 = allocations db1 /\
    map forgetRank (waitlistEntries db2) = map forgetRank (waitlistEntries db1).
Proof.
  intros Hq1 Hq2 Hnd.
  destruct (@runAllocation_settles env1 allocatedBy db Hq1 Hnd)
    as (stats1 & db1 & Hrun1 & Hnd1 & Hset).
  destruct (@runAllocation_settled env2 allocatedBy db1 Hq2 Hnd1 Hset)
    as (db2 & Hrun2 & Hbeds & Happ & Hall & Hwl).
  exists stats1, db1, db2. repeat split; try assumption.
  intros a Ha. apply findApplications_In in Ha.
  destruct Ha as (r & -> & Hin & Hsel). now apply Hset.
Qed.

Lemma second_run_reranks_witness :
  exists stats1 db1 db2,
    runAllocation noFaults "admin" testDb = (Ok stats1, db1) /\
    runAllocation noFaults "admin" db1 =
      (Ok (mkStats 0 (length (findApplications noFaults db1)) 0), db2) /\
    allocations db2 = allocations db1.
Proof.
  destruct (@second_run_reranks noFaults noFaults "admin" testDb)
    as (stats1 & db1 & db2 & H1 & H2 & _ & _ & _ & H3 & _).
  - split; reflexivity.
  - split; reflexivity.
  - simpl. repeat constructor; simpl; intuition discriminate.
  - exists stats1, db1, db2. repeat split; assumption.
Defined.

(** C5, counterexample.  Two pending requests for hostel1 and no bed.
    The first run puts them on the waitlist with the ranks 1 and 2.  The
    second run, with nothing changed in between, reports 2 waitlisted
    instead of 0 and moves the first request from rank 1 to rank 3. *)
Lemma second_run_counterexample :
  let db1 := snd (runAllocation noFaults "admin" noBedsDb) in
  let second := runAllocation noFaults "admin" db1 in
  rankOf db1 "app1" = Some 1 /\
  rankOf db1 "app2" = Some 2 /\
  fst second = Ok (mkStats 0 2 0) /\
  rankOf (snd second) "app1" = Some 3 /\
  rankOf (snd second) "app2" = Some 4.
Proof. vm_compute. repeat split. Qed.

(* ================================================================== *)
(** ** Two calls for one bed *)

(** C1.  The two requests of the repository's test "should prevent double
    allocation of same bed", built as the test builds them (without the
    [student] relation), against the one free bed, the store rejecting
    nothing.  When the first call runs to its end before the second
    starts, the first commits the bed to its request and answers [false],
    and the second finds no candidate and answers [false].  When the
    calls overlap, so that the second asks for the row while the first
    holds it, the second gets no row and answers [false], the store
    untouched, and the first again commits and answers [false].  Either
    way no call succeeds, although the bed was free at the start.  With
    the [student] relation loaded the first schedule gives [true], then
    [false]. *)
Theorem two_calls_zero_successes :
  let first := allocateBed noFaults (Application.plain app1) "admin" testDb in
  let second :=
    allocateBed noFaults (Application.plain app2) "admin" (snd first) in
  let loser := allocateBed heldByFirst (Application.plain app2) "admin" testDb in
  let winner :=
    allocateBed heldByFirst (Application.plain app1) "admin" (snd loser) in
  let first' :=
    allocateBed noFaults (Application.withStudent app1) "admin" testDb in
  let second' :=
    allocateBed noFaults (Application.withStudent app2) "admin" (snd first') in
  findCandidateBeds (baseRoomFilter (Application.plain app1)) testDb = [testBed] /\
  findCandidateBeds (baseRoomFilter (Application.plain app2)) testDb = [testBed] /\
  fst first = Ok false /\
  fst second = Ok false /\
  hasAllocation (snd second) "app1" = true /\
  hasAllocation (snd second) "app2" = false /\
  loser = (Ok false, testDb) /\
  fst winner = Ok false /\
  hasAllocation (snd winner) "app1" = true /\
  fst first' = Ok true /\
  fst second' = Ok false /\
  snd first' = snd first.
Proof. vm_compute. repeat split. Qed.

(* ================================================================== *)
(** ** Relations kept by a whole run

    The rules of [Preserves], for a relation that the commit of an
    allocation keeps only when the committed bed is the one the lock loop
    returned. *)

Section PreservesRun.
Variable R : DB -> DB -> Prop.
Hypothesis R_refl : forall db, R db db.
Hypothesis R_trans : forall db1 db2 db3, R db1 db2 -> R db2 db3 -> R db1 db3.
Variable env : Env.
Variable allocatedBy : string.
Hypothesis R_status :
  forall app s db,
    R db (setApplications (map (updateStatus app s) (applications db)) db).
Hypothesis R_commit :
  forall (a : Application.t) bed db,
    lockedBed env a db = Some bed ->
    R db (commitWrites env a allocatedBy bed db).
Hypothesis R_upsert :
  forall (a : Application.t) r db,
    R db (upsertWaitlist env a r (waitlistHostel a) db).
Hypothesis R_audit : forall logs db, R db (setAuditLogs logs db).

Lemma preserves_allocateBed_locked (a : Application.t) :
  preserves R (allocateBed env a allocatedBy).
Proof.
  intros db.
  destruct (allocateBed_cases env a allocatedBy db) as [H|(bed & Hl & _ & _ & H)];
    rewrite H; simpl; [apply R_refl|now apply R_commit].
Qed.

Lemma preserves_processApplication_locked (a : Application.t) (stats : Stats) :
  preserves R (processApplication env allocatedBy a stats).
Proof.
  unfold processApplication.
  apply (@preserves_tryCatch R R_trans).
  - apply (@preserves_bind R R_trans);
      [apply (@preserves_applicationUpdate R R_refl); intros; apply R_status
      |intros _].
    apply (@preserves_bind R R_trans);
      [apply preserves_allocateBed_locked|intros [|]].
    + apply (@preserves_ret R R_refl).
    + apply (@preserves_bind R R_trans); [|intros _; apply (@preserves_ret R R_refl)].
      apply (@preserves_addToWaitlist R R_refl R_trans); intros;
        [apply R_upsert|apply R_status].
  - intros e. unfold resetOnError.
    apply (@preserves_bind R R_trans); [|intros _; apply (@preserves_ret R R_refl)].
    apply (@preserves_applicationUpdate R R_refl); intros; apply R_status.
Qed.

Lemma preserves_processAll (apps : list Application.t) :
  forall stats, preserves R (processAll env allocatedBy apps stats).
Proof.
  induction apps as [|a apps IH]; intros stats; simpl.
  - apply (@preserves_ret R R_refl).
  - apply (@preserves_bind R R_trans); [|intros stats'; apply IH].
    apply preserves_processApplication_locked.
Qed.

Lemma preserves_createAuditLog (op : Op) (actorId : string)
    (action : AuditAction) (targetType targetId : string)
    (details : AuditDetails) :
  preserves R (createAuditLog env op actorId action targetType targetId details).
Proof.
  unfold createAuditLog. apply (@preserves_tryCatch R R_trans).
  - apply (@preserves_exec R R_refl). intros db. apply R_audit.
  - intros _. apply (@preserves_ret R R_refl).
Qed.

Lemma preserves_runAllocation : preserves R (runAllocation env allocatedBy).
Proof.
  unfold runAllocation. apply (@preserves_tryCatch R R_trans).
  - apply (@preserves_bind R R_trans); [apply (@preserves_query R R_refl)|intros apps].
    apply (@preserves_bind R R_trans); [apply preserves_processAll|intros stats].
    apply (@preserves_bind R R_trans); [apply preserves_createAuditLog|intros _].
    apply (@preserves_ret R R_refl).
  - intros e. apply (@preserves_throw R R_refl).
Qed.
End PreservesRun.

(* ================================================================== *)
(** ** Occupancy *)

Lemma NoDup_snoc (A : Type) (l : list A) (x : A) :
  NoDup l -> ~ In x l -> NoDup (l ++ [x])%list.
Proof.
  intros Hl Hx.
  apply (Permutation_NoDup (Permutation_cons_append l x)).
  now constructor.
Qed.

Lemma NoDup_key_eq (A : Type) (key : A -> string) (l : list A) (x y : A) :
  NoDup (map key l) -> In x l -> In y l -> key x = key y -> x = y.
Proof.
  induction l as [|z l IH]; simpl; intros Hnd Hx Hy Hk; [contradiction|].
  inversion Hnd as [|? ? Hnin Hnd']; subst.
  destruct Hx as [->|Hx], Hy as [->|Hy]; trivial.
  - exfalso. apply Hnin. rewrite Hk. now apply in_map.
  - exfalso. apply Hnin. rewrite <- Hk. now apply in_map.
  - now apply IH.
Qed.

Lemma lockedBed_free (env : Env) (a : Application.t) (db : DB) (bed : Bed.t) :
  lockedBed env a db = Some bed ->
  In bed (findCandidateBeds (baseRoomFilter a) db) /\
  exists b, In b (beds db) /\ Bed.id b = Bed.id bed /\ Bed.occupiedBy b = None.
Proof.
  unfold lockedBed. intros H.
  destruct (lockFirst_Some _ _ _ _ H) as (Hin & _ & _ & Hb). now split.
Qed.

Lemma commitWrites_occupancy (env : Env) (a : Application.t)
    (allocatedBy : string) (bed : Bed.t) (db : DB) :
  lockedBed env a db = Some bed ->
  occupancyConsistent db ->
  occupancyConsistent (commitWrites env a allocatedBy bed db).
Proof.
  intros Hl [Hnd Hocc].
  destruct (lockedBed_free _ _ _ Hl) as (_ & b0 & Hb0 & Hid0 & Hfree0).
  assert (Hnew : ~ In (Bed.id bed) (map Allocation.bedId (allocations db))).
  { intros Hin. apply in_map_iff in Hin. destruct Hin as (al & Hal & Hin).
    specialize (Hocc al b0 Hin). rewrite Hid0, Hal in Hocc.
    rewrite Hocc in Hfree0; [discriminate|trivial|trivial]. }
  unfold occupancyConsistent.
  rewrite commitWrites_allocations, commitWrites_beds. split.
  - rewrite map_app. simpl. now apply NoDup_snoc.
  - intros al b' Hal Hb' Hid.
    apply in_map_iff in Hb'. destruct Hb' as (b & <- & Hb).
    apply in_app_iff in Hal. destruct Hal as [Hal|[<-|[]]].
    + destruct (Bed.id b =? Bed.id bed)%string eqn:E.
      * apply String.eqb_eq in E. simpl in Hid. exfalso. apply Hnew.
        rewrite <- E, Hid. now apply in_map.
      * now apply Hocc.
    + simpl in Hid. destruct (Bed.id b =? Bed.id bed)%string eqn:E.
      * reflexivity.
      * apply String.eqb_neq in E. contradiction.
Qed.

(** Property X1 (occupancy).  Whatever the store rejects and whatever
    competing transactions hold, [allocateBed] and a whole [runAllocation]
    keep this invariant of the store: the bed of every allocation is
    occupied by the student of that allocation, and no bed has two
    allocations. *)
Theorem occupancy_kept (env : Env) (allocatedBy : string) (db : DB) :
  occupancyConsistent db ->
  (forall application : Application.t,
     occupancyConsistent (snd (allocateBed env application allocatedBy db))) /\
  occupancyConsistent (snd (runAllocation env allocatedBy db)).
Proof.
  intros Hocc.
  pose (R := fun db1 db2 : DB =>
               occupancyConsistent db1 -> occupancyConsistent db2).
  assert (Hrefl : forall db1, R db1 db1) by (intros db1 H; exact H).
  assert (Htrans : forall db1 db2 db3, R db1 db2 -> R db2 db3 -> R db1 db3)
    by (intros db1 db2 db3 H12 H23 H; auto).
  assert (Hcommit : forall (a : Application.t) bed db1,
            lockedBed env a db1 = Some bed ->
            R db1 (commitWrites env a allocatedBy bed db1))
    by (intros a bed db1 Hl H; now apply commitWrites_occupancy).
  split.
  - intros application.
    now apply (@preserves_allocateBed_locked R Hrefl env allocatedBy Hcommit
                 application db).
  - apply (@preserves_runAllocation R Hrefl Htrans env allocatedBy);
      trivial.
    intros a r db1 H. unfold upsertWaitlist.
    destruct (existsb _ (waitlistEntries db1)); exact H.
Qed.

Lemma occupancy_kept_witness :
  occupancyConsistent occupiedDb /\
  occupancyConsistent (snd (runAllocation noFaults "admin" occupiedDb)).
Proof.
  assert (H : occupancyConsistent occupiedDb).
  { split; simpl.
    - constructor; [simpl; tauto|constructor].
    - intros a b [<-|[]] [<-|[]] _. reflexivity. }
  split; [exact H|].
  exact (proj2 (@occupancy_kept noFaults "admin" occupiedDb H)).
Defined.

Lemma bedKept_refl (b : Bed.t) : bedKept b b.
Proof. unfold bedKept. auto. Qed.

Lemma bedKept_trans (b1 b2 b3 : Bed.t) :
  bedKept b1 b2 -> bedKept b2 b3 -> bedKept b1 b3.
Proof.
  unfold bedKept. intros (Hi & Hr & Hn & Ho) (Hi' & Hr' & Hn' & Ho').
  repeat split; try congruence.
  destruct Ho as [Ho|Ho]; [now left|].
  destruct Ho' as [Ho'|Ho']; [left|right]; congruence.
Qed.

Lemma Forall2_refl (A : Type) (P : A -> A -> Prop) (l : list A) :
  (forall x, P x x) -> Forall2 P l l.
Proof. intros H. induction l; constructor; auto. Qed.

Lemma Forall2_trans (A : Type) (P : A -> A -> Prop) :
  (forall x y z, P x y -> P y z -> P x z) ->
  forall l1 l2 l3, Forall2 P l1 l2 -> Forall2 P l2 l3 -> Forall2 P l1 l3.
Proof.
  intros Ht l1 l2 l3 H12. revert l3.
  induction H12; intros l3 H23; inversion H23; subst; constructor; eauto.
Qed.

Lemma Forall2_map_r (A : Type) (P : A -> A -> Prop) (f : A -> A) (l : list A) :
  (forall x, In x l -> P x (f x)) -> Forall2 P l (map f l).
Proof.
  induction l as [|x l IH]; simpl; intros H; constructor.
  - apply H. now left.
  - apply IH. intros y Hy. apply H. now right.
Qed.

Lemma bedKept_ids (l l' : list Bed.t) :
  Forall2 bedKept l l' -> map Bed.id l' = map Bed.id l.
Proof.
  induction 1 as [|b b' l l' (Hid & _) _ IH]; simpl; [reflexivity|].
  now rewrite Hid, IH.
Qed.

Lemma commitWrites_bedKept (env : Env) (a : Application.t)
    (allocatedBy : string) (bed : Bed.t) (db : DB) :
  lockedBed env a db = Some bed ->
  NoDup (map Bed.id (beds db)) ->
  Forall2 bedKept (beds db) (beds (commitWrites env a allocatedBy bed db)).
Proof.
  intros Hl Hnd.
  destruct (lockedBed_free _ _ _ Hl) as (_ & b0 & Hb0 & Hid0 & Hfree0).
  rewrite commitWrites_beds. apply Forall2_map_r. intros b Hb.
  destruct (Bed.id b =? Bed.id bed)%string eqn:E; [|apply bedKept_refl].
  apply String.eqb_eq in E.
  assert (b = b0) as ->
    by (apply (NoDup_key_eq Bed.id _ _ _ Hnd Hb Hb0); congruence).
  unfold bedKept, occupy. simpl. auto.
Qed.

(** Property X2 (beds are only ever filled).  Whatever the store rejects,
    a run never adds, removes or renumbers a bed, never frees or reassigns
    a bed that has an occupant, and never changes a room (in particular it
    never sets the status of a room that became full) or a block. *)
Theorem occupied_beds_kept (env : Env) (allocatedBy : string) (db : DB) :
  NoDup (map Bed.id (beds db)) ->
  let db' := snd (runAllocation env allocatedBy db) in
  blocks db' = blocks db /\
  rooms db' = rooms db /\
  Forall2 bedKept (beds db) (beds db') /\
  (forall b, In b (beds db) -> Bed.occupiedBy b <> None -> In b (beds db')).
Proof.
  intros Hnd db'.
  pose (R := fun db1 db2 : DB =>
               NoDup (map Bed.id (beds db1)) ->
               blocks db2 = blocks db1 /\ rooms db2 = rooms db1 /\
               Forall2 bedKept (beds db1) (beds db2)).
  assert (Hrefl : forall db1, R db1 db1).
  { intros db1 _. repeat split. apply Forall2_refl, bedKept_refl. }
  assert (Htrans : forall db1 db2 db3, R db1 db2 -> R db2 db3 -> R db1 db3).
  { intros db1 db2 db3 H12 H23 H1.
    destruct (H12 H1) as (Hb & Hr & Hk).
    destruct H23 as (Hb' & Hr' & Hk').
    { now rewrite (bedKept_ids Hk). }
    repeat split; try congruence.
    exact (Forall2_trans bedKept_trans Hk Hk'). }
  assert (Hsame : forall db1 db2 : DB,
            blocks db2 = blocks db1 -> rooms db2 = rooms db1 ->
            beds db2 = beds db1 -> R db1 db2).
  { intros db1 db2 Hb Hr Hbd _. repeat split; trivial.
    rewrite Hbd. apply Forall2_refl, bedKept_refl. }
  assert (H : R db db').
  { apply (@preserves_runAllocation R Hrefl Htrans env allocatedBy).
    - intros app s db1. now apply Hsame.
    - intros a bed db1 Hl Hnd1. repeat split.
      now apply commitWrites_bedKept.
    - intros a r db1. apply Hsame; unfold upsertWaitlist;
        destruct (existsb _ (waitlistEntries db1)); reflexivity.
    - intros logs db1. now apply Hsame. }
  destruct (H Hnd) as (Hb & Hr & Hk). repeat split; trivial.
  intros b Hin Hocc.
  destruct (Forall2_In_l b Hk Hin) as (b' & Hin' & Hi & Hro & Hn & Ho).
  destruct Ho as [Ho|Ho]; [contradiction|].
  replace b with b'; [exact Hin'|].
  destruct b, b'; simpl in *; congruence.
Qed.

Lemma occupied_beds_kept_witness :
  let db' := snd (runAllocation noFaults "admin" occupiedDb) in
  rooms db' = rooms occupiedDb /\ beds db' = beds occupiedDb.
Proof.
  assert (Hnd : NoDup (map Bed.id (beds occupiedDb)))
    by (simpl; constructor; [simpl; tauto|constructor]).
  destruct (@occupied_beds_kept noFaults "admin" occupiedDb Hnd)
    as (_ & Hr & _ & _).
  split; [exact Hr|reflexivity].
Defined.

(* ================================================================== *)
(** ** One step of the loop, in any environment *)

Lemma upsertWaitlist_others (env : Env) (a : Application.t) (r : Z)
    (hostelId : option string) (db : DB) :
  let db' := upsertWaitlist env a r hostelId db in
  blocks db' = blocks db /\ rooms db' = rooms db /\ beds db' = beds db /\
  applications db' = applications db /\ allocations db' = allocations db /\
  auditLogs db' = auditLogs db.
Proof.
  unfold upsertWaitlist.
  destruct (existsb _ (waitlistEntries db)); simpl; repeat split.
Qed.

Lemma uncommitted_refl (a : Application.t) (db : DB) : uncommitted a db db.
Proof. unfold uncommitted. repeat split. now left. Qed.

Lemma uncommitted_status (a : Application.t) (s : ApplicationStatus)
    (db db' : DB) :
  s = IN_PROGRESS \/ s = WAITLISTED \/ s = resetStatus a ->
  uncommitted a db db' ->
  uncommitted a db
    (setApplications
       (map (updateStatus (Application.id a) s) (applications db')) db').
Proof.
  intros Hs (Hb & Hr & Hbd & Hal & Hau & Hap).
  unfold uncommitted. simpl. repeat split; trivial.
  right. exists s. split; [exact Hs|].
  destruct Hap as [->|(s0 & _ & ->)]; [reflexivity|].
  apply updateStatus_twice.
Qed.

Lemma uncommitted_upsert (env : Env) (a : Application.t) (r : Z)
    (hostelId : option string) (db db' : DB) :
  uncommitted a db db' ->
  uncommitted a db (upsertWaitlist env a r hostelId db').
Proof.
  intros (Hb & Hr & Hbd & Hal & Hau & Hap).
  destruct (upsertWaitlist_others env a r hostelId db')
    as (Hb' & Hr' & Hbd' & Hap' & Hal' & Hau').
  unfold uncommitted. rewrite Hb', Hr', Hbd', Hap', Hal', Hau'.
  repeat split; trivial.
Qed.

Lemma resetOnError_uncommitted (env : Env) (a : Application.t) (stats : Stats)
    (e : Error) (db db' : DB) :
  uncommitted a db db' ->
  uncommitted a db (snd (resetOnError env a stats e db')) /\
  forall stats', fst (resetOnError env a stats e db') = Ok stats' ->
                 stats' = incErrors stats.
Proof.
  intros H. unfold resetOnError, bind, applicationUpdate.
  destruct (fails env (RunResetStatus _)); simpl;
    [split; [exact H|discriminate]|].
  destruct (existsb _ (applications db')); simpl.
  - split; [apply uncommitted_status; auto|now intros ? [= <-]].
  - split; [exact H|discriminate].
Qed.

(** The handling of one request either commits an allocation for the bed
    the lock loop returned, and counts it, or commits nothing. *)
Lemma processApplication_step (env : Env) (allocatedBy : string)
    (a : Application.t) (stats : Stats) (db : DB) :
  Application.student a <> None ->
  let res := processApplication env allocatedBy a stats db in
  (exists bed,
     lockedBed env a (afterMark a db) = Some bed /\
     hasRow db (Application.id a) = true /\
     res = (Ok (incAllocated stats),
            commitWrites env a allocatedBy bed (afterMark a db))) \/
  (uncommitted a db (snd res) /\
   forall stats', fst res = Ok stats' ->
                  stats' = incWaitlisted stats \/ stats' = incErrors stats).
Proof.
  intros Hst. rewrite processApplication_eq.
  unfold tryCatch, processBody, bind, applicationUpdate.
  pose proof (uncommitted_refl a db) as H0.
  destruct (fails env (RunMarkInProgress _)).
  { right. destruct (resetOnError_uncommitted env stats (StoreError
                       (RunMarkInProgress (Application.id a))) H0) as [H1 H2].
    destruct (resetOnError _ _ _ _ db) as [[s|e] db']; simpl in *;
      split; trivial; intros ? [= <-]; auto. }
  destruct (existsb _ (applications db)) eqn:Erow.
  2:{ right. destruct (resetOnError_uncommitted env stats (RecordNotFound
                       (RunMarkInProgress (Application.id a))) H0) as [H1 H2].
      destruct (resetOnError _ _ _ _ db) as [[s|e] db']; simpl in *;
        split; trivial; intros ? [= <-]; auto. }
  change (setApplications _ db) with (afterMark a db).
  assert (H1 : uncommitted a db (afterMark a db))
    by (apply uncommitted_status; auto).
  set (db1 := afterMark a db) in *.
  destruct (allocateBed_cases env a allocatedBy db1)
    as [H|(bed & Hl & _ & _ & H)]; rewrite H; clear H.
  - right.
    assert (H2 : forall r, uncommitted a db
                   (upsertWaitlist env a r (waitlistHostel a) db1))
      by (intros r; now apply uncommitted_upsert).
    destruct (addToWaitlist_cases env a db1)
      as [[_ (e & H)]|[(_ & _ & _ & e & H)|(_ & _ & _ & _ & H)]];
      rewrite H; clear H.
    + destruct (resetOnError_uncommitted env stats e H1) as [H3 H4].
      destruct (resetOnError _ _ _ _ db1) as [[s|e'] db']; simpl in *;
        split; trivial; intros ? [= <-]; auto.
    + destruct (resetOnError_uncommitted env stats e
                  (H2 (assignedRank (waitlistHostel a) db1))) as [H3 H4].
      destruct (resetOnError _ _ _ _ _) as [[s|e'] db']; simpl in *;
        split; trivial; intros ? [= <-]; auto.
    + destruct (Application.student a); [|contradiction]. simpl.
      split; [apply uncommitted_status; auto|intros ? [= <-]; auto].
  - left. exists bed. destruct (Application.student a); [|contradiction].
    simpl. repeat split; trivial.
Qed.

(* ================================================================== *)
(** ** The allocations a run creates *)

Lemma afterMark_allocations (a : Application.t) (db : DB) :
  allocations (afterMark a db) = allocations db.
Proof. reflexivity. Qed.

Lemma madeFor_weaken (allocatedBy : string) (a : Application.t)
    (apps : list Application.t) (l : list Allocation.t) :
  Forall (madeFor allocatedBy apps) l ->
  Forall (madeFor allocatedBy (a :: apps)) l.
Proof.
  apply Forall_impl. intros al (Hby & a' & Hin & H). split; trivial.
  exists a'. split; [now right|exact H].
Qed.

Lemma processAll_allocations (env : Env) (allocatedBy : string) :
  forall (apps : list Application.t) (stats : Stats) (db : DB),
    (forall a, In a apps -> Application.student a <> None) ->
    exists created,
      allocations (snd (processAll env allocatedBy apps stats db)) =
        (allocations db ++ created)%list /\
      Forall (madeFor allocatedBy apps) created /\
      (forall stats',
         fst (processAll env allocatedBy apps stats db) = Ok stats' ->
         allocated stats' = (allocated stats + length created)%nat).
Proof.
  induction apps as [|a apps IH]; intros stats db Hst; simpl.
  - exists []. rewrite app_nil_r. repeat split; [constructor|].
    intros ? [= <-]. simpl. lia.
  - assert (Hst' : forall a', In a' apps -> Application.student a' <> None)
      by (intros a' H; apply Hst; now right).
    pose proof (@processApplication_step env allocatedBy a stats db
                  (Hst a (or_introl eq_refl))) as Hs.
    cbv zeta in Hs. unfold bind.
    destruct Hs as [(bed & _ & _ & ->)|[Hu Hc]].
    + destruct (IH (incAllocated stats)
                   (commitWrites env a allocatedBy bed (afterMark a db)) Hst')
        as (created & Hal & Hfor & Hcount).
      exists (newAllocation env a bed allocatedBy :: created).
      rewrite Hal, commitWrites_allocations, afterMark_allocations.
      rewrite <- app_assoc. repeat split.
      * constructor; [|now apply madeFor_weaken].
        split; [reflexivity|]. exists a. repeat split. now left.
      * intros stats' H. rewrite (Hcount _ H). simpl. lia.
    + destruct (processApplication env allocatedBy a stats db)
        as [[stats1|e] db1]; simpl in *.
      * destruct (IH stats1 db1 Hst') as (created & Hal & Hfor & Hcount).
        exists created. rewrite Hal.
        destruct Hu as (_ & _ & _ & -> & _). repeat split.
        -- now apply madeFor_weaken.
        -- intros stats' H. rewrite (Hcount _ H).
           destruct (Hc stats1 eq_refl) as [->| ->]; reflexivity.
      * exists []. rewrite app_nil_r.
        destruct Hu as (_ & _ & _ & -> & _).
        repeat split; [constructor|discriminate].
Qed.

Lemma runAllocation_allocations (env : Env) (allocatedBy : string) (db : DB) :
  exists created,
    allocations (snd (runAllocation env allocatedBy db)) =
      (allocations db ++ created)%list /\
    Forall (madeFor allocatedBy (findApplications env db)) created /\
    (forall stats,
       fst (runAllocation env allocatedBy db) = Ok stats ->
       allocated stats = length created).
Proof.
  unfold runAllocation, tryCatch, bind, query.
  destruct (fails env RunFindApplications).
  { exists []. simpl. rewrite app_nil_r.
    repeat split; [constructor|discriminate]. }
  destruct (processAll_allocations env allocatedBy (findApplications env db)
              (mkStats 0 0 0) db) as (created & Hal & Hfor & Hcount).
  { intros a Ha. apply findApplications_In in Ha.
    destruct Ha as (r & -> & _). discriminate. }
  exists created.
  destruct (processAll env allocatedBy (findApplications env db)
              (mkStats 0 0 0) db) as [[stats|e] db1]; simpl in *.
  - destruct (createAuditLog_result env RunAuditLog allocatedBy CREATE
                "ALLOCATION" "batch"
                (BatchDetails stats (clock env RunAuditLog)) db1)
      as (logs & ->).
    simpl. split; [exact Hal|split; [exact Hfor|exact Hcount]].
  - split; [exact Hal|split; [exact Hfor|discriminate]].
Qed.

(** Property X3 (the allocations of a run).  Whatever the store rejects,
    a run only appends to the allocations: the rows that were there stay,
    in place, and every new row names the caller of the run as
    [allocatedBy] and belongs to one of the selected requests and its
    student.  When the run returns, its [allocated] counter is the number of
    rows it created. *)
Theorem run_creates_allocations (env : Env) (allocatedBy : string) (db : DB) :
  exists created,
    allocations (snd (runAllocation env allocatedBy db)) =
      (allocations db ++ created)%list /\
    Forall (madeFor allocatedBy (findApplications env db)) created /\
    (forall stats,
       fst (runAllocation env allocatedBy db) = Ok stats ->
       allocated stats = length created).
Proof. apply runAllocation_allocations. Qed.

(* ================================================================== *)
(** ** Requests a run does not select *)

Lemma processAll_others (env : Env) (allocatedBy : string) (app : string) :
  forall (apps : list Application.t) (stats : Stats) (db : DB),
    ~ In app (map idOf apps) ->
    let db' := snd (processAll env allocatedBy apps stats db) in
    statusOf db' app = statusOf db app /\
    hasAllocation db' app = hasAllocation db app /\
    hasWaitlistEntry db' app = hasWaitlistEntry db app.
Proof.
  induction apps as [|a apps IH]; intros stats db Hnin; simpl.
  - repeat split.
  - pose proof (frame_processApplication env allocatedBy a stats db) as Hf.
    unfold bind.
    destruct (processApplication env allocatedBy a stats db)
      as [[stats1|e] db1]; simpl in Hf.
    + destruct Hf as (_ & _ & _ & _ & Hf).
      destruct (Hf app) as (Hs & Ha & Hw).
      { intros ->. apply Hnin. now left. }
      destruct (IH stats1 db1) as (Hs' & Ha' & Hw').
      { intros H. apply Hnin. now right. }
      simpl. repeat split; congruence.
    + destruct Hf as (_ & _ & _ & _ & Hf). simpl. apply Hf.
      intros ->. apply Hnin. now left.
Qed.

(** Property X4 (requests outside the selection).  Whatever the store
    rejects, a run leaves every request it did not select (ALLOCATED,
    REJECTED or IN_PROGRESS when the run starts) as it was: same status,
    same allocation, same waitlist entry. *)
Theorem unselected_untouched (env : Env) (allocatedBy : string) (db : DB)
    (app : string) :
  ~ In app (map idOf (findApplications env db)) ->
  let db' := snd (runAllocation env allocatedBy db) in
  statusOf db' app = statusOf db app /\
  hasAllocation db' app = hasAllocation db app /\
  hasWaitlistEntry db' app = hasWaitlistEntry db app.
Proof.
  intros Hnin. unfold runAllocation, tryCatch, bind, query.
  destruct (fails env RunFindApplications); [simpl; repeat split|].
  pose proof (@processAll_others env allocatedBy app
                (findApplications env db) (mkStats 0 0 0) db Hnin) as H.
  cbv zeta in H.
  destruct (processAll env allocatedBy (findApplications env db)
              (mkStats 0 0 0) db) as [[stats|e] db1]; simpl in *.
  - destruct (createAuditLog_result env RunAuditLog allocatedBy CREATE
                "ALLOCATION" "batch"
                (BatchDetails stats (clock env RunAuditLog)) db1)
      as (logs & ->).
    exact H.
  - exact H.
Qed.

Lemma unselected_untouched_witness :
  let db' := snd (runAllocation noFaults "admin" occupiedDb) in
  statusOf db' "app2" = Some ALLOCATED /\
  hasAllocation db' "app2" = true.
Proof.
  assert (Hnin : ~ In "app2" (map idOf (findApplications noFaults occupiedDb))).
  { vm_compute. intros [H|[]]. discriminate. }
  destruct (@unselected_untouched noFaults "admin" occupiedDb "app2" Hnin)
    as (Hs & Ha & _).
  split; [rewrite Hs|rewrite Ha]; reflexivity.
Defined.

(* ================================================================== *)
(** ** The bed a request gets *)

Lemma lockFirst_prefix (env : Env) (app : string) (db : DB) :
  forall (cands : list Bed.t) (bed : Bed.t),
    lockFirst env app db cands = Some bed ->
    exists passed rest,
      cands = (passed ++ bed :: rest)%list /\
      Forall (passedOver env app db) passed /\
      ~ passedOver env app db bed.
Proof.
  induction cands as [|c cands IH]; simpl; intros bed H; [discriminate|].
  destruct (fails env (TxLockBed app (Bed.id c))) eqn:Ef.
  { destruct (IH bed H) as (passed & rest & -> & Hp & Hb).
    exists (c :: passed), rest. repeat split; trivial.
    constructor; [now left|exact Hp]. }
  destruct (0 <? length (lockQuery env app db (Bed.id c)))%nat eqn:El.
  - injection H as <-. exists [], cands. repeat split; [constructor|].
    intros [Hc|Hc]; [congruence|]. rewrite Hc in El. discriminate.
  - destruct (IH bed H) as (passed & rest & -> & Hp & Hb).
    exists (c :: passed), rest. repeat split; trivial.
    constructor; [right|exact Hp].
    destruct (lockQuery env app db (Bed.id c)); [reflexivity|discriminate].
Qed.

(** Property X5 (the bed a request gets).  Whatever the store rejects and
    whatever competing transactions hold, a call of [allocateBed] either
    leaves the store as it was, or commits the first of the candidates whose
    lock query returned its row: every candidate before it was passed
    over, and the committed bed is a row of the store that nobody
    occupied, in an AVAILABLE room, and in one of the preferred hostels
    when the request names any. *)
Theorem committed_bed (env : Env) (application : Application.t)
    (allocatedBy : string) (db : DB) :
  let candidateBeds := findCandidateBeds (baseRoomFilter application) db in
  let db' := snd (allocateBed env application allocatedBy db) in
  db' = db \/
  exists passed bed rest,
    candidateBeds = (passed ++ bed :: rest)%list /\
    Forall (passedOver env (Application.id application) db) passed /\
    ~ passedOver env (Application.id application) db bed /\
    db' = commitWrites env application allocatedBy bed db /\
    In bed (beds db) /\
    matchesRequest db application bed.
Proof.
  intros candidateBeds db'. unfold db'.
  destruct (allocateBed_cases env application allocatedBy db)
    as [H|(bed & Hl & _ & _ & H)]; rewrite H; simpl; [now left|right].
  destruct (lockFirst_prefix _ _ _ _ Hl) as (passed & rest & Hc & Hp & Hb).
  assert (Hin : In bed (findCandidateBeds (baseRoomFilter application) db))
    by (unfold candidateBeds in Hc; rewrite Hc; apply in_elt).
  apply findCandidateBeds_In in Hin. destruct Hin as [Hin Hw].
  apply candidate_matches in Hw.
  exists passed, bed, rest. repeat split; trivial; apply Hw.
Qed.

(** Property X6 (first fit).  When the store rejects nothing, no competing
    transaction holds a bed and the request has its row, a request for
    which a matching bed exists gets one: the matching bed with the
    smallest key. *)
Theorem smallest_matching_bed (env : Env) (application : Application.t)
    (allocatedBy : string) (db : DB) (b : Bed.t) :
  quiet env ->
  hasRow db (Application.id application) = true ->
  In b (beds db) -> matchesRequest db application b ->
  exists chosen,
    snd (allocateBed env application allocatedBy db) =
      commitWrites env application allocatedBy chosen db /\
    In chosen (beds db) /\
    matchesRequest db application chosen /\
    forall b', In b' (beds db) -> matchesRequest db application b' ->
               String.leb (Bed.id chosen) (Bed.id b') = true.
Proof.
  intros Hq Hrow Hb Hm.
  rewrite (@allocateBed_quiet env application allocatedBy db Hq Hrow).
  destruct (findCandidateBeds (baseRoomFilter application) db)
    as [|chosen rest] eqn:Ec.
  { exfalso. apply candidate_matches in Hm.
    rewrite (proj1 (findCandidateBeds_nil _ _) Ec b Hb) in Hm. discriminate. }
  assert (Hin : In chosen (findCandidateBeds (baseRoomFilter application) db))
    by (rewrite Ec; now left).
  apply findCandidateBeds_In in Hin. destruct Hin as [Hin Hw].
  apply candidate_matches in Hw.
  exists chosen. simpl.
  split; [reflexivity|split; [exact Hin|split; [exact Hw|]]].
  intros b' Hb' Hm'. apply candidate_matches in Hm'.
  unfold findCandidateBeds in Ec.
  pose proof (orderBy_sorted bedIdLeb bedIdLeb_total bedIdLeb_trans
                (filter (bedWhere db (baseRoomFilter application)) (beds db)))
    as Hs.
  assert (Hin' : In b' (orderBy bedIdLeb
                          (filter (bedWhere db (baseRoomFilter application))
                                  (beds db)))).
  { apply orderBy_In. apply filter_In. now split. }
  destruct (orderBy bedIdLeb _) as [|c sorted]; [discriminate|].
  simpl in Ec. injection Ec as -> _.
  inversion Hs as [|? ? _ Hall]; subst.
  destruct Hin' as [<-|Hin']; [apply string_leb_refl|].
  rewrite Forall_forall in Hall. exact (Hall _ Hin').
Qed.

Lemma smallest_matching_bed_witness :
  exists chosen,
    snd (allocateBed noFaults (Application.withStudent app1) "admin" testDb) =
      commitWrites noFaults (Application.withStudent app1) "admin" chosen testDb.
Proof.
  assert (Hq : quiet noFaults) by (split; reflexivity).
  assert (Hm : matchesRequest testDb (Application.withStudent app1) testBed).
  { apply candidate_matches. reflexivity. }
  destruct (@smallest_matching_bed noFaults (Application.withStudent app1)
              "admin" testDb testBed Hq eq_refl (or_introl eq_refl) Hm)
    as (chosen & H & _).
  exists chosen. exact H.
Defined.

(* ================================================================== *)
(** ** A run in which nothing fails *)

Lemma processAll_quiet_stats (env : Env) (allocatedBy : string) :
  quiet env ->
  forall (apps : list Application.t) (stats : Stats) (db : DB),
    (forall a, In a apps ->
               Application.student a <> None /\
               hasRow db (Application.id a) = true) ->
    exists stats' db',
      processAll env allocatedBy apps stats db = (Ok stats', db') /\
      errors stats' = errors stats /\
      (allocated stats' + waitlisted stats' =
       allocated stats + waitlisted stats + length apps)%nat.
Proof.
  intros Hq. induction apps as [|a apps IH]; intros stats db Hall; simpl.
  - exists stats, db. repeat split. lia.
  - destruct (Hall a (or_introl eq_refl)) as [Hst Hrow].
    pose proof (frame_processApplication env allocatedBy a stats db) as Hf.
    unfold bind.
    rewrite (@processApplication_quiet env allocatedBy a stats db Hq Hrow Hst)
      in *.
    destruct (findCandidateBeds (baseRoomFilter a) db) as [|bed rest].
    + simpl in Hf. destruct Hf as (_ & _ & _ & Hids & _).
      destruct (IH (incWaitlisted stats) (afterWaitlist env a db))
        as (stats' & db' & Hrun & He & Hc).
      { intros a' Ha'. destruct (Hall a' (or_intror Ha')) as [Hst' Hrow'].
        split; trivial. now rewrite (hasRow_ids _ _ _ Hids). }
      exists stats', db'. repeat split; trivial. simpl in Hc. lia.
    + simpl in Hf. destruct Hf as (_ & _ & _ & Hids & _).
      destruct (IH (incAllocated stats)
                   (commitWrites env a allocatedBy bed (afterMark a db)))
        as (stats' & db' & Hrun & He & Hc).
      { intros a' Ha'. destruct (Hall a' (or_intror Ha')) as [Hst' Hrow'].
        split; trivial. now rewrite (hasRow_ids _ _ _ Hids). }
      exists stats', db'. repeat split; trivial. simpl in Hc. lia.
Qed.

(** Property X7 (a run in which nothing fails).  When the store rejects
    nothing and no competing transaction holds a bed, a run returns, counts
    no error, and counts every selected request as allocated or as
    waitlisted.  In the store it leaves, no request is PENDING, and every
    request that is still WAITLISTED has its waitlist entry and no longer
    has any candidate bed: nobody waits while a bed that matches is free. *)
Theorem quiet_run_settles (env : Env) (allocatedBy : string) (db : DB) :
  quiet env ->
  NoDup (map Application.id (applications db)) ->
  exists stats db',
    runAllocation env allocatedBy db = (Ok stats, db') /\
    errors stats = 0%nat /\
    (allocated stats + waitlisted stats)%nat =
      length (findApplications env db) /\
    (forall r, In r (applications db') -> Application.status r <> PENDING) /\
    (forall r, In r (applications db') -> Application.status r = WAITLISTED ->
       hasWaitlistEntry db' (Application.id r) = true /\
       findCandidateBeds (baseRoomFilter (Application.withStudent r)) db' = []).
Proof.
  intros Hq Hnd.
  destruct (@runAllocation_settles env allocatedBy db Hq Hnd)
    as (stats & db' & Hrun & _ & Hset).
  exists stats, db'. split; [exact Hrun|].
  assert (Hstats : errors stats = 0%nat /\
                   (allocated stats + waitlisted stats)%nat =
                     length (findApplications env db)).
  { revert Hrun. unfold runAllocation, tryCatch, bind, query.
    rewrite (proj1 Hq).
    destruct (@processAll_quiet_stats env allocatedBy Hq
                (findApplications env db) (mkStats 0 0 0) db)
      as (stats' & db1 & -> & He & Hc).
    { intros a Ha. apply findApplications_In in Ha.
      destruct Ha as (r & -> & Hin & _). split; [discriminate|].
      now apply hasRow_In. }
    destruct (createAuditLog_result env RunAuditLog allocatedBy CREATE
                "ALLOCATION" "batch"
                (BatchDetails stats' (clock env RunAuditLog)) db1)
      as (logs & ->).
    unfold ret. intros [= <- _]. simpl in *. split; [exact He|lia]. }
  destruct Hstats as [He Hc]. repeat split; trivial.
  - intros r Hin Hp.
    destruct (Hset r Hin) as (Hw & _).
    { apply selectable_spec. now left. }
    congruence.
  - apply (Hset r H). apply selectable_spec. now right.
  - apply (Hset r H). apply selectable_spec. now right.
Qed.

Lemma quiet_run_settles_witness :
  exists stats db',
    runAllocation noFaults "admin" testDb = (Ok stats, db') /\
    errors stats = 0%nat.
Proof.
  assert (Hq : quiet noFaults) by (split; reflexivity).
  assert (Hnd : NoDup (map Application.id (applications testDb))).
  { simpl. constructor; [simpl; intros [H|[]]; discriminate|].
    constructor; [simpl; tauto|constructor]. }
  destruct (@quiet_run_settles noFaults "admin" testDb Hq Hnd)
    as (stats & db' & Hrun & He & _).
  exists stats, db'. split; [exact Hrun|exact He].
Defined.

(* ================================================================== *)
(** ** A store error inside the allocation transaction *)

(** Property X8 (a failed transaction is a waitlisting).  When the store
    rejects a call of the allocation transaction of a request, and accepts
    the other calls made for it, the request is put on the waitlist and
    counted as waitlisted, not as an error, whether or not a bed that
    matches is free: [allocateBed] turns the error into [false]. *)
Theorem failed_transaction_waitlists (env : Env) (allocatedBy : string)
    (application : Application.t) (stats : Stats) (db : DB) :
  let app := Application.id application in
  txAccepted env app = false ->
  fails env (RunMarkInProgress app) = false ->
  fails env (WlFindMaxRank app) = false ->
  fails env (WlUpsert app) = false ->
  fails env (WlUpdateStatus app) = false ->
  hasRow db app = true ->
  Application.student application <> None ->
  processApplication env allocatedBy application stats db =
    (Ok (incWaitlisted stats), afterWaitlist env application db).
Proof.
  intros app Htx Hmark Hmax Hups Hupd Hrow Hst. subst app.
  unfold processApplication, tryCatch, bind, applicationUpdate.
  rewrite Hmark. unfold hasRow in Hrow. rewrite Hrow.
  change (setApplications _ db) with (afterMark application db).
  destruct (allocateBed_cases env application allocatedBy
              (afterMark application db)) as [H|(bed & _ & Hacc & _)];
    [|congruence].
  rewrite H.
  destruct (addToWaitlist_cases env application (afterMark application db))
    as [[[Hf|Hf] _]|[(_ & _ & [Hf|Hf] & _)|(_ & _ & _ & _ & H')]];
    try congruence.
  - unfold afterMark in Hf. rewrite hasRow_updated in Hf.
    unfold hasRow in Hf. congruence.
  - rewrite H'. destruct (Application.student application);
      [reflexivity|contradiction].
Qed.

Lemma failed_transaction_waitlists_witness :
  findCandidateBeds (baseRoomFilter (Application.withStudent app1)) testDb =
    [testBed] /\
  processApplication commitRejected "admin" (Application.withStudent app1)
    (mkStats 0 0 0) testDb =
    (Ok (mkStats 0 1 0),
     afterWaitlist commitRejected (Application.withStudent app1) testDb).
Proof.
  split; [reflexivity|].
  apply (@failed_transaction_waitlists commitRejected "admin"
           (Application.withStudent app1) (mkStats 0 0 0) testDb);
    try reflexivity.
  discriminate.
Defined.

(* ================================================================== *)
(** ** One waitlist entry per request *)

Lemma existsb_key_false (A : Type) (key : A -> string) (k : string)
    (l : list A) :
  existsb (fun x => key x =? k)%string l = false -> ~ In k (map key l).
Proof.
  induction l as [|x l IH]; simpl; [tauto|].
  intros H. apply orb_false_iff in H. destruct H as [Hx Hl].
  apply String.eqb_neq in Hx. intros [Hk|Hk]; [congruence|now apply IH].
Qed.

Lemma upsertWaitlist_keys (env : Env) (a : Application.t) (r : Z)
    (hostelId : option string) (db : DB) :
  let keys := map WaitlistEntry.applicationId (waitlistEntries db) in
  map WaitlistEntry.applicationId
      (waitlistEntries (upsertWaitlist env a r hostelId db)) =
  if hasWaitlistEntry db (Application.id a) then keys
  else (keys ++ [Application.id a])%list.
Proof.
  unfold upsertWaitlist, hasWaitlistEntry.
  destruct (existsb _ (waitlistEntries db)); simpl.
  - rewrite map_map. apply map_ext. intros e.
    now destruct (WaitlistEntry.applicationId e =? Application.id a)%string.
  - now rewrite map_app.
Qed.

Lemma upsertWaitlist_NoDup (env : Env) (a : Application.t) (r : Z)
    (hostelId : option string) (db : DB) :
  NoDup (map WaitlistEntry.applicationId (waitlistEntries db)) ->
  NoDup (map WaitlistEntry.applicationId
             (waitlistEntries (upsertWaitlist env a r hostelId db))).
Proof.
  intros Hnd. rewrite upsertWaitlist_keys. cbv zeta.
  destruct (hasWaitlistEntry db (Application.id a)) eqn:E; [exact Hnd|].
  apply NoDup_snoc; [exact Hnd|].
  now apply existsb_key_false.
Qed.

Lemma upsertWaitlist_forgetRank (env : Env) (a : Application.t) (r : Z)
    (hostelId : option string) (db : DB) :
  hasWaitlistEntry db (Application.id a) = true ->
  map forgetRank (waitlistEntries (upsertWaitlist env a r hostelId db)) =
  map forgetRank (waitlistEntries db).
Proof.
  unfold upsertWaitlist, hasWaitlistEntry. intros ->. simpl.
  rewrite map_map. apply map_ext. intros e.
  now destruct (WaitlistEntry.applicationId e =? Application.id a)%string.
Qed.

(** Property X9 (one waitlist entry per request).  Whatever the store
    rejects, [addToWaitlist] and a whole run keep the application keys of
    the waitlist entries distinct.  For a request that already has an
    entry, [addToWaitlist] may only change ranks: no entry is added or
    removed, and the key, the hostel scope and the room type of every
    entry stay as they were created, even when the preferences of the
    request have changed since. *)
Theorem waitlist_entries_unique (env : Env) (allocatedBy : string) (db : DB) :
  NoDup (map WaitlistEntry.applicationId (waitlistEntries db)) ->
  (forall application : Application.t,
     let db' := snd (addToWaitlist env application db) in
     NoDup (map WaitlistEntry.applicationId (waitlistEntries db')) /\
     (hasWaitlistEntry db (Application.id application) = true ->
      map forgetRank (waitlistEntries db') =
      map forgetRank (waitlistEntries db))) /\
  NoDup (map WaitlistEntry.applicationId
             (waitlistEntries (snd (runAllocation env allocatedBy db)))).
Proof.
  intros Hnd. split.
  - intros a.
    destruct (addToWaitlist_cases env a db)
      as [[_ (e & H)]|[(_ & _ & _ & e & H)|(_ & _ & _ & _ & H)]];
      rewrite H; simpl; split; trivial;
      try (now apply upsertWaitlist_NoDup);
      now apply upsertWaitlist_forgetRank.
  - pose (R := fun db1 db2 : DB =>
                 NoDup (map WaitlistEntry.applicationId (waitlistEntries db1)) ->
                 NoDup (map WaitlistEntry.applicationId (waitlistEntries db2))).
    assert (Hrefl : forall db1, R db1 db1) by (intros db1 H; exact H).
    assert (Htrans : forall db1 db2 db3, R db1 db2 -> R db2 db3 -> R db1 db3)
      by (intros db1 db2 db3 H12 H23 H; auto).
    apply (@preserves_runAllocation R Hrefl Htrans env allocatedBy); trivial.
    + intros a bed db1 _ H. rewrite commitWrites_waitlistEntries.
      now apply NoDup_map_filter.
    + intros a r db1 H. now apply upsertWaitlist_NoDup.
Qed.

Lemma waitlist_entries_unique_witness :
  NoDup (map WaitlistEntry.applicationId
             (waitlistEntries (snd (runAllocation noFaults "admin" noBedsDb)))).
Proof.
  apply (@waitlist_entries_unique noFaults "admin" noBedsDb).
  simpl. constructor.
Defined.

(* ================================================================== *)
(** ** No student holds two beds *)

Lemma selectable_active (r : Application.row) :
  selectable r = true -> active r = true.
Proof.
  unfold selectable, active, activeStatuses, statusIn.
  destruct (Application.status r); simpl; congruence.
Qed.

Lemma updateStatus_studentId (app : string) (s : ApplicationStatus)
    (r : Application.row) :
  Application.studentId (updateStatus app s r) = Application.studentId r.
Proof.
  unfold updateStatus. now destruct (Application.id r =? app)%string.
Qed.

Lemma updateStatus_other (app : string) (s : ApplicationStatus)
    (r : Application.row) :
  Application.id r <> app -> updateStatus app s r = r.
Proof.
  intros H. unfold updateStatus.
  apply String.eqb_neq in H. now rewrite H.
Qed.

Lemma updateStatus_same (s : ApplicationStatus) (r : Application.row) :
  updateStatus (Application.id r) s r = Application.setStatus s r.
Proof. unfold updateStatus. now rewrite String.eqb_refl. Qed.

Lemma oneBedPerStudent_ext (db db' : DB) :
  applications db' = applications db -> allocations db' = allocations db ->
  oneBedPerStudent db -> oneBedPerStudent db'.
Proof. unfold oneBedPerStudent. intros -> ->. trivial. Qed.

(** A status update of a selectable request, with at most one new
    allocation for its student when the new status is not selectable. *)
Lemma oneBedPerStudent_update (db db' : DB) (r : Application.row)
    (s : ApplicationStatus) (extra : list Allocation.t) :
  oneBedPerStudent db ->
  In r (applications db) -> selectable r = true ->
  applications db' = map (updateStatus (Application.id r) s) (applications db) ->
  allocations db' = (allocations db ++ extra)%list ->
  (extra = [] \/
   exists al, extra = [al] /\
              Allocation.studentId al = Application.studentId r /\
              statusIn [PENDING; WAITLISTED] s = false) ->
  oneBedPerStudent db'.
Proof.
  intros (Hids & Hstu & Hsel & Hact) Hr Hrsel Happ Hal Hextra.
  assert (Hrow : forall r', In r' (applications db') ->
            exists r0, In r0 (applications db) /\
                       r' = updateStatus (Application.id r) s r0 /\
                       (Application.id r0 = Application.id r -> r0 = r)).
  { intros r' Hr'. rewrite Happ in Hr'. apply in_map_iff in Hr'.
    destruct Hr' as (r0 & <- & Hr0). exists r0. repeat split; trivial.
    intros Hid. exact (NoDup_ids_eq _ _ _ Hids Hr0 Hr Hid). }
  assert (Hnone : forall al, In al (allocations db) ->
            Allocation.studentId al <> Application.studentId r).
  { intros al Hin Heq. rewrite (Hsel r al Hr Hin (eq_sym Heq)) in Hrsel.
    discriminate. }
  assert (Hactive : forall r0, In r0 (applications db) ->
            active (updateStatus (Application.id r) s r0) = true ->
            active r0 = true).
  { intros r0 Hr0 Ha.
    destruct (string_dec (Application.id r0) (Application.id r)) as [Hid|Hid].
    - rewrite (NoDup_ids_eq _ _ _ Hids Hr0 Hr Hid).
      now apply selectable_active.
    - now rewrite (@updateStatus_other (Application.id r) s r0 Hid) in Ha. }
  unfold oneBedPerStudent. repeat split.
  - rewrite Happ, map_map.
    erewrite map_ext; [exact Hids|]. intros x. apply updateStatus_id.
  - rewrite Hal. destruct Hextra as [->|(al & -> & Hst & _)].
    + now rewrite app_nil_r.
    + rewrite map_app. simpl. apply NoDup_snoc; trivial.
      intros Hin. apply in_map_iff in Hin. destruct Hin as (al' & Heq & Hin).
      apply (Hnone al' Hin). congruence.
  - intros r' al Hr' Hin Heq.
    destruct (Hrow r' Hr') as (r0 & Hr0 & -> & Hsame).
    rewrite updateStatus_studentId in Heq.
    rewrite Hal in Hin. apply in_app_iff in Hin. destruct Hin as [Hin|Hin].
    + destruct (string_dec (Application.id r0) (Application.id r)) as [Hid|Hid].
      * exfalso. apply (Hnone al Hin). rewrite <- (Hsame Hid). auto.
      * rewrite (@updateStatus_other (Application.id r) s r0 Hid). exact (Hsel r0 al Hr0 Hin Heq).
    + destruct Hextra as [->|(al' & -> & Hst & Hs)]; [contradiction|].
      destruct Hin as [<-|[]].
      destruct (string_dec (Application.id r0) (Application.id r)) as [Hid|Hid].
      * rewrite (Hsame Hid), updateStatus_same. exact Hs.
      * rewrite (@updateStatus_other (Application.id r) s r0 Hid).
        destruct (selectable r0) eqn:E; [exfalso|reflexivity].
        apply Hid. f_equal. apply Hact; trivial;
          try (now apply selectable_active). congruence.
  - intros r1 r2 Hr1 Hr2 Ha1 Ha2 Heq.
    destruct (Hrow r1 Hr1) as (x1 & Hx1 & -> & _).
    destruct (Hrow r2 Hr2) as (x2 & Hx2 & -> & _).
    rewrite !updateStatus_studentId in Heq.
    now rewrite (Hact x1 x2 Hx1 Hx2 (Hactive x1 Hx1 Ha1) (Hactive x2 Hx2 Ha2) Heq).
Qed.

Lemma In_updateStatus_other (app : string) (s : ApplicationStatus)
    (l : list Application.row) (r : Application.row) :
  In r l -> Application.id r <> app -> In r (map (updateStatus app s) l).
Proof.
  intros Hin Hid. apply in_map_iff. exists r. split; [|exact Hin].
  now apply updateStatus_other.
Qed.

Lemma processApplication_oneBed (env : Env) (allocatedBy : string)
    (r : Application.row) (stats : Stats) (db : DB) :
  In r (applications db) -> selectable r = true -> oneBedPerStudent db ->
  let db1 :=
    snd (processApplication env allocatedBy (Application.withStudent r)
                            stats db) in
  oneBedPerStudent db1 /\
  forall r', In r' (applications db) ->
             Application.id r' <> Application.id r ->
             In r' (applications db1).
Proof.
  intros Hr Hsel Hinv.
  assert (Hst : Application.student (Application.withStudent r) <> None)
    by discriminate.
  pose proof (@processApplication_step env allocatedBy
                (Application.withStudent r) stats db Hst) as Hs.
  cbv zeta in *.
  destruct Hs as [(bed & _ & _ & ->)|[Hu _]]; simpl snd.
  - assert (Happ : applications
                     (commitWrites env (Application.withStudent r) allocatedBy
                        bed (afterMark (Application.withStudent r) db)) =
                   map (updateStatus (Application.id r) ALLOCATED)
                       (applications db)).
    { rewrite commitWrites_applications. unfold afterMark. simpl.
      apply updateStatus_twice. }
    split.
    + apply (@oneBedPerStudent_update db _ r ALLOCATED
               [newAllocation env (Application.withStudent r) bed allocatedBy]
               Hinv Hr Hsel Happ).
      * now rewrite commitWrites_allocations.
      * right. eexists. repeat split.
    + intros r' Hr' Hid. rewrite Happ. now apply In_updateStatus_other.
  - destruct Hu as (_ & _ & _ & Hal & _ & [Happ|(s & _ & Happ)]).
    + split; [now apply (@oneBedPerStudent_ext db _ Happ Hal)|].
      intros r' Hr' _. now rewrite Happ.
    + simpl in Happ. split.
      * apply (@oneBedPerStudent_update db _ r s [] Hinv Hr Hsel Happ);
          [now rewrite app_nil_r|now left].
      * intros r' Hr' Hid. rewrite Happ. now apply In_updateStatus_other.
Qed.

Lemma processAll_oneBed (env : Env) (allocatedBy : string) :
  forall (apps : list Application.t) (stats : Stats) (db : DB),
    NoDup (map idOf apps) ->
    (forall a, In a apps ->
       exists r, a = Application.withStudent r /\
                 In r (applications db) /\ selectable r = true) ->
    oneBedPerStudent db ->
    oneBedPerStudent (snd (processAll env allocatedBy apps stats db)).
Proof.
  induction apps as [|a apps IH]; intros stats db Hnd Hall Hinv; simpl;
    [exact Hinv|].
  inversion Hnd as [|? ? Hnin Hnd']; subst.
  destruct (Hall a (or_introl eq_refl)) as (r & -> & Hr & Hsel).
  destruct (@processApplication_oneBed env allocatedBy r stats db Hr Hsel Hinv)
    as [Hinv1 Hkept].
  unfold bind.
  destruct (processApplication env allocatedBy (Application.withStudent r)
                               stats db) as [[stats1|e] db1];
    simpl in *; [|exact Hinv1].
  apply IH; trivial.
  intros a' Ha'. destruct (Hall a' (or_intror Ha')) as (r' & -> & Hr' & Hsel').
  exists r'. repeat split; trivial. apply Hkept; trivial.
  intros Hid. apply Hnin. apply in_map_iff.
  exists (Application.withStudent r'). split; [exact Hid|exact Ha'].
Qed.

Lemma runAllocation_oneBed (env : Env) (allocatedBy : string) (db : DB) :
  oneBedPerStudent db ->
  oneBedPerStudent (snd (runAllocation env allocatedBy db)).
Proof.
  intros Hinv. unfold runAllocation, tryCatch, bind, query.
  destruct (fails env RunFindApplications); [exact Hinv|].
  assert (H : oneBedPerStudent
                (snd (processAll env allocatedBy (findApplications env db)
                                 (mkStats 0 0 0) db))).
  { apply processAll_oneBed; trivial.
    - apply findApplications_NoDup. exact (proj1 Hinv).
    - intros a Ha. now apply findApplications_In in Ha. }
  destruct (processAll env allocatedBy (findApplications env db)
              (mkStats 0 0 0) db) as [[stats|e] db1]; simpl in *; trivial.
  destruct (createAuditLog_result env RunAuditLog allocatedBy CREATE
              "ALLOCATION" "batch"
              (BatchDetails stats (clock env RunAuditLog)) db1)
    as (logs & ->).
  exact H.
Qed.

(* ================================================================== *)
(** ** [POST /api/applications] *)

Lemma existsb_find (A : Type) (f : A -> bool) (l : list A) :
  existsb f l = isSome (find f l).
Proof.
  induction l as [|x l IH]; simpl; [reflexivity|].
  destruct (f x); simpl; [reflexivity|exact IH].
Qed.

Lemma existsb_false_In (A : Type) (f : A -> bool) (l : list A) (x : A) :
  existsb f l = false -> In x l -> f x = false.
Proof.
  intros H Hin. destruct (f x) eqn:E; [|reflexivity].
  rewrite <- H. symmetry. apply existsb_exists. now exists x.
Qed.

(** The handler creates a row exactly when [submitAccepted] holds; in every
    other case it leaves the store as it was and answers 400 or 403, or
    passes the store error on. *)
Lemma submit_cases (web : Web) (user : Account.t) (body : SubmitBody)
    (s : Site) :
  (submitAccepted web user body s = true /\
   submitApplication web user body s =
     (Sent (mkResponse 201
              (Submitted (Application.withStudent (submittedRow web user body)))),
      setStore (setApplications
                  (applications (store s) ++ [submittedRow web user body])
                  (store s)) s)) \/
  (submitAccepted web user body s = false /\
   snd (submitApplication web user body s) = s /\
   forall response,
     fst (submitApplication web user body s) = Sent response ->
     statusCode response = 400 \/ statusCode response = 403).
Proof.
  unfold submitAccepted, submitApplication, reply, hbind, authorize, respond,
    hret, readStore, createApplication, submitErrors, submittedRow,
    hasActiveApplication, hasBed.
  rewrite !existsb_find.
  destruct (Account.role user); simpl;
    try (right; repeat split; intros ? [= <-]; simpl; auto).
  destruct (bodyPreferences body) as [p|]; simpl;
    [|right; repeat split; intros ? [= <-]; simpl; auto].
  destruct (rejects web SubmitFindApplication); simpl;
    [right; repeat split; discriminate|].
  destruct (find _ (applications (store s))); simpl;
    [right; repeat split; intros ? [= <-]; simpl; auto|].
  destruct (rejects web SubmitFindAllocation); simpl;
    [right; repeat split; discriminate|].
  destruct (find _ (allocations (store s))); simpl;
    [right; repeat split; intros ? [= <-]; simpl; auto|].
  destruct (rejects web SubmitCreate); simpl;
    [right; repeat split; discriminate|].
  destruct (hasRow (store s) (freshId web SubmitCreate)); simpl;
    [right; repeat split; discriminate|].
  left. split; reflexivity.
Qed.

Lemma submit_oneBed (web : Web) (user : Account.t) (body : SubmitBody)
    (s : Site) :
  oneBedPerStudent (store s) ->
  oneBedPerStudent (store (snd (submitApplication web user body s))).
Proof.
  intros (Hids & Hstu & Hsel & Hact).
  destruct (submit_cases web user body s) as [[Hacc ->]|(_ & -> & _)];
    [|now repeat split].
  unfold submitAccepted in Hacc.
  apply andb_true_iff in Hacc. destruct Hacc as [Hacc Hkey].
  apply andb_true_iff in Hacc. destruct Hacc as [Hacc _].
  apply andb_true_iff in Hacc. destruct Hacc as [Hacc Hbed].
  apply andb_true_iff in Hacc. destruct Hacc as [Hacc _].
  apply andb_true_iff in Hacc. destruct Hacc as [_ Happ].
  apply negb_true_iff in Hkey, Hbed, Happ.
  set (row := submittedRow web user body).
  assert (Hmine : forall r, In r (applications (store s)) ->
            active r = true -> Application.studentId r <> Account.id user).
  { intros r Hr Ha Heq.
    pose proof (@existsb_false_In _ _ _ r Happ Hr) as Hf. cbv beta in Hf.
    apply String.eqb_eq in Heq. unfold active in Ha. rewrite Heq, Ha in Hf.
    discriminate. }
  assert (Hnobed : forall al, In al (allocations (store s)) ->
            Allocation.studentId al <> Account.id user).
  { intros al Hal Heq.
    pose proof (@existsb_false_In _ _ _ al Hbed Hal) as Hf. simpl in Hf.
    apply String.eqb_eq in Heq. congruence. }
  unfold oneBedPerStudent. simpl. repeat split; trivial.
  - rewrite map_app. simpl. apply NoDup_snoc; trivial.
    apply existsb_key_false. exact Hkey.
  - intros r al Hr Hal Heq. apply in_app_iff in Hr.
    destruct Hr as [Hr|[<-|[]]]; [now apply (Hsel r al)|].
    exfalso. apply (Hnobed al Hal). now rewrite <- Heq.
  - intros r1 r2 Hr1 Hr2 Ha1 Ha2 Heq.
    apply in_app_iff in Hr1. apply in_app_iff in Hr2.
    destruct Hr1 as [Hr1|[<-|[]]], Hr2 as [Hr2|[<-|[]]]; trivial.
    + now apply Hact.
    + exfalso. apply (Hmine r1 Hr1 Ha1). now rewrite Heq.
    + exfalso. apply (Hmine r2 Hr2 Ha2). now rewrite <- Heq.
Qed.

(* ================================================================== *)
(** ** [POST /api/rooms/:id/assign] *)

(** The handler either leaves the store as it was, and does not answer
    201, or made every check and every write of the assignment. *)
Lemma assign_cases (web : Web) (user : Account.t) (roomId : string)
    (body : AssignBody) (s : Site) :
  let res := assignRoom web user roomId body s in
  (snd res = s /\
   forall allocation,
     fst res <> Sent (mkResponse 201 (Assigned allocation))) \/
  exists room student bed,
    assignChecks user roomId body s room student bed /\
    assignEffect web user roomId body student bed s (snd res) /\
    fst res =
      Sent (mkResponse 201
              (Assigned (manualAllocation web user roomId (bodyStudentId body)
                           (store s) bed))) /\
    (requestOf (store s) (bodyStudentId body) = None ->
     hasRow (store s) (freshId web AssignCreateApplication) = false).
Proof.
  unfold assignRoom, reply, hbind, authorize, respond, hret, readStore,
    assignErrors.
  assert (Hno : forall (r : Reply) (s0 : Site),
            (forall a, r <> Sent (mkResponse 201 (Assigned a))) ->
            (snd (r, s0) = s0 /\
             forall a, fst (r, s0) <> Sent (mkResponse 201 (Assigned a))))
    by (intros r s0 Hr; split; [reflexivity|exact Hr]).
  remember (chooseBed (bodyBedNumber body)) as choose eqn:Echoose.
  destruct (Account.role user) eqn:Erole; simpl;
    try (left; apply Hno; discriminate).
  all: destruct (truthy (bodyStudentId body)) eqn:Esid; simpl;
    try (left; apply Hno; discriminate).
  all: assert (Hsid : bodyStudentId body <> "")
    by (unfold truthy in Esid; apply negb_true_iff in Esid;
        now apply String.eqb_neq in Esid).
  all: destruct (bodyBedNumber body) as [n|] eqn:Enum; simpl;
    try (destruct (1 <=? n) eqn:En; simpl;
         [|left; apply Hno; discriminate]).
  all: destruct (rejects web AssignFindRoom); simpl;
    try (left; apply Hno; discriminate).
  all: destruct (findRoom (store s) roomId) as [room|] eqn:Eroom; simpl;
    try (left; apply Hno; discriminate).
  all: destruct (rejects web AssignFindStudent); simpl;
    try (left; apply Hno; discriminate).
  all: destruct (find _ (users s)) as [student|] eqn:Estudent; simpl;
    try (left; apply Hno; discriminate).
  all: destruct (Account.role student) eqn:Estrole; simpl;
    try (left; apply Hno; discriminate).
  all: destruct (rejects web AssignFindAllocation); simpl;
    try (left; apply Hno; discriminate).
  all: destruct (find _ (allocations (store s))) as [al|] eqn:Ebed; simpl;
    try (left; apply Hno; discriminate).
  all: assert (Hnobed : hasBed (store s) (bodyStudentId body) = false)
    by (unfold hasBed; rewrite existsb_find, Ebed; reflexivity).
  all: destruct (choose (bedsOf (store s) room)) as [[bed|] message]
         eqn:Echoice; simpl;
    try (left; apply Hno; discriminate).
  all: unfold transactionH, assignTx, hbind, readStore, raise, updateBedRow.
  all: destruct (rejects web AssignLockBed); simpl;
    try (left; apply Hno; discriminate).
  all: destruct (find _ (beds (store s))) as [lockedBed|] eqn:Elock; simpl;
    try (left; apply Hno; discriminate).
  all: destruct (vacant lockedBed) eqn:Evac; simpl;
    try (left; apply Hno; discriminate).
  all: destruct (rejects web AssignUpdateBed); simpl;
    try (left; apply Hno; discriminate).
  all: destruct (existsb _ (beds (store s))) eqn:Eex; simpl;
    try (left; apply Hno; discriminate).
  all: destruct (rejects web AssignFindApplication); simpl;
    try (left; apply Hno; discriminate).
  all: unfold createApplication, updateApplicationRow, createAllocationRow,
         writeStore, hret; simpl.
  all: unfold assignEffect, manualAllocation, manualApplicationId, requestOf,
         statusIn; simpl.
  all: destruct (find _ (applications (store s))) as [found|] eqn:Efound;
         simpl.
  all: try (destruct (rejects web AssignUpdateApplication); simpl;
            [left; apply Hno; discriminate|];
            destruct (find (fun r => Application.id r =? Application.id found)%string
                           (applications (store s))) as [r0|] eqn:Er0; simpl;
            [|left; apply Hno; discriminate];
            assert (Hr0 : Application.id r0 = Application.id found)
              by (apply find_some in Er0; apply String.eqb_eq; apply Er0);
            rewrite ?Hr0).
  all: try (destruct (rejects web AssignCreateApplication); simpl;
            [left; apply Hno; discriminate|];
            unfold hasRow; simpl;
            destruct (existsb (fun r => Application.id r =?
                                        freshId web AssignCreateApplication)%string
                              (applications (store s))) eqn:Ekey;
            simpl; [left; apply Hno; discriminate|]).
  all: destruct (rejects web AssignCreateAllocation); simpl;
    try (left; apply Hno; discriminate).
  all: destruct (existsb _ (allocations (store s))); simpl;
    try (left; apply Hno; discriminate).
  all: destruct (rejects web AssignCreateAuditLog); simpl;
    try (left; apply Hno; discriminate).
  all: destruct (rejects web AssignCommit); simpl;
    try (left; apply Hno; discriminate).
  all: right; exists room, student, bed.
  all: unfold assignChecks; rewrite ?Erole, ?Eroom, ?Enum, <- ?Echoose,
         ?Echoice; simpl.
  all: repeat split; auto; try discriminate.
Qed.

Lemma chooseBed_Some (bedNumber : option Z) (roomBeds : list Bed.t)
    (bed : Bed.t) :
  fst (chooseBed bedNumber roomBeds) = Some bed ->
  In bed roomBeds /\ vacant bed = true /\
  (forall n, bedNumber = Some n -> n <> 0 -> Bed.bedNumber bed = n).
Proof.
  unfold chooseBed. destruct bedNumber as [n|]; simpl.
  - destruct (n =? 0) eqn:En; simpl; intros H; apply find_some in H.
    + repeat split; try apply H. intros k [= <-] Hk.
      apply Z.eqb_eq in En. contradiction.
    + destruct H as [Hin H]. apply andb_true_iff in H. destruct H as [Hn Hv].
      repeat split; trivial. intros k [= <-] _. now apply Z.eqb_eq in Hn.
  - intros H. apply find_some in H. repeat split; try apply H. discriminate.
Qed.

Lemma vacant_spec (b : Bed.t) :
  vacant b = true <-> Bed.occupiedBy b = None \/ Bed.occupiedBy b = Some "".
Proof.
  unfold vacant, truthy. destruct (Bed.occupiedBy b) as [o|]; [|tauto].
  rewrite negb_true_iff, negb_false_iff, String.eqb_eq.
  split; [intros ->; now right|intros [H|[= ->]]; [discriminate|reflexivity]].
Qed.

Lemma assignChecks_bed (user : Account.t) (roomId : string) (body : AssignBody)
    (s : Site) (room : Room.t) (student : Account.t) (bed : Bed.t) :
  assignChecks user roomId body s room student bed ->
  In bed (beds (store s)) /\ Bed.roomId bed = Room.id room /\
  vacant bed = true /\ Room.id room = roomId.
Proof.
  intros (_ & _ & Hroom & _ & _ & _ & Hbed).
  apply chooseBed_Some in Hbed. destruct Hbed as (Hin & Hv & _).
  unfold bedsOf in Hin. apply filter_In in Hin. destruct Hin as [Hin Hr].
  apply String.eqb_eq in Hr. unfold findRoom in Hroom.
  apply find_some in Hroom. destruct Hroom as [_ Hid].
  apply String.eqb_eq in Hid. auto.
Qed.

(** A manual assignment keeps the occupancy invariant, in a store whose
    allocations all name a student. *)
Lemma assign_occupancy (web : Web) (user : Account.t) (roomId : string)
    (body : AssignBody) (s : Site) :
  occupancyConsistent (store s) ->
  (forall al, In al (allocations (store s)) -> Allocation.studentId al <> "") ->
  let s' := snd (assignRoom web user roomId body s) in
  occupancyConsistent (store s') /\
  (forall al, In al (allocations (store s')) -> Allocation.studentId al <> "").
Proof.
  intros [Hnd Hocc] Hne.
  destruct (assign_cases web user roomId body s)
    as [[-> _]|(room & student & bed & Hchk & Heff & _)];
    [now repeat split|].
  cbv zeta.
  destruct (assignChecks_bed Hchk) as (Hbed & _ & Hvac & _).
  destruct Hchk as (_ & Hsid & _).
  destruct Heff as (_ & _ & Hbeds & _ & Hal & _).
  cbv zeta in Hbeds, Hal.
  assert (Hnew : ~ In (Bed.id bed) (map Allocation.bedId (allocations (store s)))).
  { intros Hin. apply in_map_iff in Hin. destruct Hin as (al & Hid & Hin).
    pose proof (Hocc al bed Hin Hbed (eq_sym Hid)) as Ho.
    apply vacant_spec in Hvac. destruct Hvac as [Hv|Hv]; rewrite Hv in Ho;
      [discriminate|].
    injection Ho as Ho. now apply (Hne al Hin). }
  split; [split|].
  - rewrite Hal, map_app. simpl. now apply NoDup_snoc.
  - intros al b' Hin Hb' Hid. rewrite Hbeds in Hb'. rewrite Hal in Hin.
    apply in_map_iff in Hb'. destruct Hb' as (b & <- & Hb).
    apply in_app_iff in Hin. destruct Hin as [Hin|[<-|[]]].
    + destruct (Bed.id b =? Bed.id bed)%string eqn:E.
      * apply String.eqb_eq in E. simpl in Hid. exfalso. apply Hnew.
        rewrite <- E, Hid. now apply in_map.
      * now apply Hocc.
    + simpl in Hid. destruct (Bed.id b =? Bed.id bed)%string eqn:E.
      * reflexivity.
      * apply String.eqb_neq in E. contradiction.
  - intros al Hin. rewrite Hal in Hin. apply in_app_iff in Hin.
    destruct Hin as [Hin|[<-|[]]]; [now apply Hne|exact Hsid].
Qed.

Lemma requestOf_Some (db : DB) (studentId : string) (r : Application.row) :
  requestOf db studentId = Some r ->
  In r (applications db) /\ Application.studentId r = studentId /\
  selectable r = true.
Proof.
  unfold requestOf. intros H. apply find_some in H. destruct H as [Hin H].
  apply andb_true_iff in H. destruct H as [Hs Hsel].
  apply String.eqb_eq in Hs. auto.
Qed.

Lemma requestOf_None (db : DB) (studentId : string) (r : Application.row) :
  requestOf db studentId = None -> In r (applications db) ->
  Application.studentId r = studentId -> selectable r = false.
Proof.
  unfold requestOf. intros H Hin Hs.
  pose proof (find_none _ _ H r Hin) as Hf. cbv beta in Hf.
  apply String.eqb_eq in Hs. rewrite Hs in Hf. exact Hf.
Qed.

Lemma assign_oneBed (web : Web) (user : Account.t) (roomId : string)
    (body : AssignBody) (s : Site) :
  oneBedPerStudent (store s) ->
  oneBedPerStudent (store (snd (assignRoom web user roomId body s))).
Proof.
  intros Hinv.
  destruct (assign_cases web user roomId body s)
    as [[-> _]|(room & student & bed & Hchk & Heff & _ & Hkey)]; [exact Hinv|].
  destruct Hchk as (_ & _ & _ & _ & _ & Hnobed & _).
  destruct Heff as (_ & _ & _ & Happ & Hal & _).
  cbv zeta in Happ, Hal.
  assert (Hnone : forall al, In al (allocations (store s)) ->
            Allocation.studentId al <> bodyStudentId body).
  { intros al Hin Heq.
    pose proof (@existsb_false_In _ _ _ al Hnobed Hin) as Hf. cbv beta in Hf.
    apply String.eqb_eq in Heq. congruence. }
  destruct (requestOf (store s) (bodyStudentId body)) as [found|] eqn:Efound.
  - destruct (requestOf_Some _ _ Efound) as (Hin & Hst & Hsel).
    apply (@oneBedPerStudent_update (store s) _ found ALLOCATED _
             Hinv Hin Hsel Happ Hal).
    right. eexists. repeat split. simpl. now rewrite Hst.
  - destruct Hinv as (Hids & Hstu & Hsel & Hact).
    specialize (Hkey eq_refl).
    unfold oneBedPerStudent. rewrite Happ, Hal. repeat split.
    + rewrite map_app. simpl. apply NoDup_snoc; trivial.
      now apply existsb_key_false.
    + rewrite map_app. simpl. apply NoDup_snoc; trivial.
      intros Hin. apply in_map_iff in Hin. destruct Hin as (al & Heq & Hin).
      now apply (Hnone al Hin).
    + intros r al Hr Hin Heq.
      apply in_app_iff in Hr. apply in_app_iff in Hin.
      destruct Hr as [Hr|[<-|[]]]; [|reflexivity].
      destruct Hin as [Hin|[<-|[]]]; [now apply (Hsel r al)|].
      now apply (requestOf_None _ _ Efound Hr).
    + intros r1 r2 Hr1 Hr2 Ha1 Ha2 Heq.
      apply in_app_iff in Hr1. apply in_app_iff in Hr2.
      destruct Hr1 as [Hr1|[<-|[]]]; [|discriminate].
      destruct Hr2 as [Hr2|[<-|[]]]; [|discriminate].
      now apply Hact.
Qed.

(* ================================================================== *)
(** ** [POST /api/allocate/run] *)

Lemma runRoute_cases (web : Web) (user : Account.t) (s : Site) :
  runRoute web user s =
  match Account.role user with
  | ADMIN =>
      match runAllocation (engine web) (Account.id user) (store s) with
      | (Ok stats, db') =>
          (Sent (mkResponse 200 (RunCompleted stats)), setStore db' s)
      | (Err e, db') => (Next (Raised e), setStore db' s)
      end
  | _ => (Sent (mkResponse 403 (Failure "Insufficient permissions")), s)
  end.
Proof.
  unfold runRoute, reply, hbind, authorize, respond, hret, liftM.
  destruct (Account.role user); simpl; trivial.
  now destruct (runAllocation (engine web) (Account.id user) (store s))
    as [[stats|e] db'].
Qed.

(** Property X10 (who may start a run).  [POST /api/allocate/run] reaches
    the engine for an ADMIN only: any other user is answered 403 and the
    store stays as it was.  For an ADMIN the route answers 200 with the
    counters of the run, or passes the error of the run to [next], and
    keeps what the run wrote in both cases.  The route only appends to the
    allocations, every allocation it creates names the requesting admin as
    [allocatedBy], and the [allocated] counter of a 200 response is the
    number of allocations created. *)
Theorem run_route (web : Web) (user : Account.t) (s : Site) :
  let res := runRoute web user s in
  users (snd res) = users s /\
  routeAudit (snd res) = routeAudit s /\
  (Account.role user <> ADMIN ->
   res = (Sent (mkResponse 403 (Failure "Insufficient permissions")), s)) /\
  (Account.role user = ADMIN ->
   store (snd res) =
     snd (runAllocation (engine web) (Account.id user) (store s)) /\
   fst res =
     match fst (runAllocation (engine web) (Account.id user) (store s)) with
     | Ok stats => Sent (mkResponse 200 (RunCompleted stats))
     | Err e => Next (Raised e)
     end) /\
  exists created,
    allocations (store (snd res)) = (allocations (store s) ++ created)%list /\
    Forall (fun al => Allocation.allocatedBy al = Account.id user) created /\
    (forall stats,
       fst res = Sent (mkResponse 200 (RunCompleted stats)) ->
       allocated stats = length created).
Proof.
  cbv zeta. rewrite runRoute_cases.
  destruct (runAllocation_allocations (engine web) (Account.id user) (store s))
    as (created & Hal & Hfor & Hcount).
  assert (Hby : Forall (fun al => Allocation.allocatedBy al = Account.id user)
                       created).
  { revert Hfor. apply Forall_impl. now intros al [Hby _]. }
  assert (Hnil : exists created0,
            allocations (store s) = (allocations (store s) ++ created0)%list /\
            Forall (fun al => Allocation.allocatedBy al = Account.id user)
                   created0 /\
            forall stats,
              Sent (mkResponse 403 (Failure "Insufficient permissions")) =
              Sent (mkResponse 200 (RunCompleted stats)) ->
              allocated stats = length created0).
  { exists []. rewrite app_nil_r. repeat split; [constructor|discriminate]. }
  destruct (Account.role user); simpl;
    try (repeat split; trivial; discriminate).
  destruct (runAllocation (engine web) (Account.id user) (store s))
    as [[stats|e] db']; simpl in *.
  - repeat split; try contradiction. exists created. repeat split; trivial.
    intros ? [= <-]. now apply Hcount.
  - repeat split; try contradiction. exists created. repeat split; trivial.
    discriminate.
Qed.

(* ================================================================== *)
(** ** What becomes of each selected request when nothing fails *)

Lemma afterWaitlist_own (env : Env) (a : Application.t) (db : DB) :
  hasRow db (Application.id a) = true ->
  statusOf (afterWaitlist env a db) (Application.id a) = Some WAITLISTED /\
  hasWaitlistEntry (afterWaitlist env a db) (Application.id a) = true.
Proof.
  intros Hrow. unfold afterWaitlist. cbv zeta. split.
  - apply statusOf_updated.
    destruct (upsertWaitlist_others env a
                (assignedRank (waitlistHostel a) (afterMark a db))
                (waitlistHostel a) (afterMark a db))
      as (_ & _ & _ & Happ & _).
    unfold hasRow. rewrite Happ. unfold afterMark.
    change (hasRow (setApplications
                      (map (updateStatus (Application.id a) IN_PROGRESS)
                           (applications db)) db) (Application.id a) = true).
    now rewrite hasRow_updated.
  - change (hasWaitlistEntry
              (upsertWaitlist env a
                 (assignedRank (waitlistHostel a) (afterMark a db))
                 (waitlistHostel a) (afterMark a db)) (Application.id a) = true).
    rewrite upsertWaitlist_hasWaitlistEntry, String.eqb_refl.
    apply orb_true_r.
Qed.

Lemma commitWrites_own (env : Env) (a : Application.t) (allocatedBy : string)
    (bed : Bed.t) (db : DB) :
  hasRow db (Application.id a) = true ->
  let db1 := commitWrites env a allocatedBy bed (afterMark a db) in
  statusOf db1 (Application.id a) = Some ALLOCATED /\
  hasAllocation db1 (Application.id a) = true /\
  hasWaitlistEntry db1 (Application.id a) = false.
Proof.
  intros Hrow. cbv zeta.
  rewrite commitWrites_statusOf, commitWrites_hasAllocation,
    commitWrites_hasWaitlistEntry, String.eqb_refl.
  repeat split; [|apply orb_true_r].
  unfold afterMark. rewrite (statusOf_updated _ IN_PROGRESS _ Hrow).
  reflexivity.
Qed.

Lemma processAll_quiet_served (env : Env) (allocatedBy : string) :
  quiet env ->
  forall (apps : list Application.t) (stats : Stats) (db : DB),
    NoDup (map idOf apps) ->
    (forall a, In a apps ->
               Application.student a <> None /\
               hasRow db (Application.id a) = true) ->
    forall a, In a apps ->
      served (snd (processAll env allocatedBy apps stats db)) (Application.id a).
Proof.
  intros Hq. induction apps as [|a apps IH]; intros stats db Hnd Hall a0 Ha0;
    [contradiction|].
  inversion Hnd as [|? ? Hnin Hnd']; subst.
  destruct (Hall a (or_introl eq_refl)) as [Hst Hrow].
  pose proof (frame_processApplication env allocatedBy a stats db) as Hf.
  simpl. unfold bind.
  assert (Hown : served (snd (processApplication env allocatedBy a stats db))
                        (Application.id a)).
  { rewrite (@processApplication_quiet env allocatedBy a stats db Hq Hrow Hst).
    destruct (findCandidateBeds (baseRoomFilter a) db) as [|bed rest]; simpl.
    - right. now apply afterWaitlist_own.
    - left. now apply commitWrites_own. }
  assert (Hok : exists stats1,
            fst (processApplication env allocatedBy a stats db) = Ok stats1).
  { rewrite (@processApplication_quiet env allocatedBy a stats db Hq Hrow Hst).
    destruct (findCandidateBeds (baseRoomFilter a) db); eexists; reflexivity. }
  destruct Hok as (stats1 & Hok).
  destruct (processApplication env allocatedBy a stats db) as [r db1].
  simpl in *. subst r. destruct Hf as (_ & _ & _ & Hids & _).
  destruct Ha0 as [<-|Ha0].
  - destruct (@processAll_others env allocatedBy (Application.id a) apps
                stats1 db1 Hnin) as (Hs & Hal & Hw).
    unfold served. rewrite Hs, Hal, Hw. exact Hown.
  - apply IH; trivial. intros a' Ha'.
    destruct (Hall a' (or_intror Ha')) as [Hst' Hrow'].
    split; trivial. now rewrite (hasRow_ids _ _ _ Hids).
Qed.

Lemma runAllocation_quiet_served (env : Env) (allocatedBy : string) (db : DB) :
  quiet env ->
  NoDup (map Application.id (applications db)) ->
  exists stats db',
    runAllocation env allocatedBy db = (Ok stats, db') /\
    forall a : Application.t,
      In a (findApplications env db) -> served db' (Application.id a).
Proof.
  intros Hq Hnd.
  assert (Hall : forall a, In a (findApplications env db) ->
            Application.student a <> None /\
            hasRow db (Application.id a) = true).
  { intros a Ha. apply findApplications_In in Ha.
    destruct Ha as (r & -> & Hin & _). split; [discriminate|].
    now apply hasRow_In. }
  pose proof (@processAll_quiet_served env allocatedBy Hq
                (findApplications env db) (mkStats 0 0 0) db
                (findApplications_NoDup env db Hnd) Hall) as Hserved.
  destruct (@processAll_quiet_stats env allocatedBy Hq
              (findApplications env db) (mkStats 0 0 0) db Hall)
    as (stats & db1 & Hrun & _).
  unfold runAllocation, tryCatch, bind, query.
  rewrite (proj1 Hq), Hrun. rewrite Hrun in Hserved. simpl in Hserved.
  destruct (createAuditLog_result env RunAuditLog allocatedBy CREATE
              "ALLOCATION" "batch"
              (BatchDetails stats (clock env RunAuditLog)) db1)
    as (logs & ->).
  exists stats, (setAuditLogs logs db1). split; [reflexivity|].
  intros a Ha. exact (Hserved a Ha).
Qed.

(** Property X11 (a submission and the next run).  A submission that is
    accepted adds one PENDING request, which the next run selects.  When
    an ADMIN then starts a run in which nothing fails, the route answers
    200 and the submitted request ends ALLOCATED with an allocation and no
    waitlist entry, or WAITLISTED with a waitlist entry. *)
Theorem submitted_request_is_served (web : Web) (student admin : Account.t)
    (body : SubmitBody) (s : Site) :
  quiet (engine web) ->
  NoDup (map Application.id (applications (store s))) ->
  Account.role admin = ADMIN ->
  submitAccepted web student body s = true ->
  let s1 := snd (submitApplication web student body s) in
  let app := Application.id (submittedRow web student body) in
  statusOf (store s1) app = Some PENDING /\
  In (Application.withStudent (submittedRow web student body))
     (findApplications (engine web) (store s1)) /\
  exists stats s2,
    runRoute web admin s1 = (Sent (mkResponse 200 (RunCompleted stats)), s2) /\
    served (store s2) app.
Proof.
  intros Hq Hnd Hadmin Hacc s1 app.
  destruct (submit_cases web student body s) as [[_ Hsub]|[Hno _]];
    [|congruence].
  unfold s1. rewrite Hsub. simpl snd.
  set (row := submittedRow web student body) in *.
  set (db1 := setApplications (applications (store s) ++ [row]) (store s)).
  assert (Hkey : hasRow (store s) (Application.id row) = false).
  { unfold submitAccepted in Hacc. apply andb_true_iff in Hacc.
    destruct Hacc as [_ Hkey]. now apply negb_true_iff in Hkey. }
  assert (Hnd1 : NoDup (map Application.id (applications db1))).
  { unfold db1. simpl. rewrite map_app. simpl. apply NoDup_snoc; trivial.
    now apply existsb_key_false. }
  assert (Hin : In row (applications db1))
    by (unfold db1; simpl; apply in_app_iff; right; now left).
  assert (Hsel : In (Application.withStudent row)
                    (findApplications (engine web) db1)).
  { apply findApplications_In. exists row. repeat split; trivial. }
  split; [|split; [exact Hsel|]].
  - subst app. simpl store. fold row.
    now rewrite (statusOf_In db1 row Hnd1 Hin).
  - destruct (@runAllocation_quiet_served (engine web) (Account.id admin) db1
                Hq Hnd1) as (stats & db2 & Hrun & Hserved).
    exists stats, (setStore db2 (setStore db1 s)). split.
    + rewrite runRoute_cases, Hadmin. simpl store. now rewrite Hrun.
    + exact (Hserved _ Hsel).
Qed.

Lemma submitted_request_is_served_witness :
  exists stats s2,
    runRoute calm adminAccount
      (snd (submitApplication calm studentAccount1
              (mkSubmitBody testPreferences None)
              (mkSite emptyDb testUsers []))) =
      (Sent (mkResponse 200 (RunCompleted stats)), s2) /\
    served (store s2) "app-new".
Proof.
  assert (Hq : quiet (engine calm)) by (split; reflexivity).
  assert (Hnd : NoDup (map Application.id
                         (applications (store (mkSite emptyDb testUsers [])))))
    by (simpl; constructor).
  destruct (@submitted_request_is_served calm studentAccount1 adminAccount
              (mkSubmitBody testPreferences None) (mkSite emptyDb testUsers [])
              Hq Hnd eq_refl eq_refl) as (_ & _ & H).
  exact H.
Defined.

(* ================================================================== *)
(** ** Manual assignment: what it keeps and what it leaves behind *)

(** Property X12 (a manual assignment is all or nothing).  Whatever the
    store rejects, [POST /api/rooms/:id/assign] either leaves the store
    exactly as it was and does not answer 201 (a refusal, or an error
    inside the transaction, which is rolled back), or it answers 201 after
    every check of the handler passed (the requester is a WARDEN or an
    ADMIN, the room exists, the user exists and is a STUDENT without an
    allocation, the bed is a vacant bed of the room) and every write was
    made: the bed is occupied by the student, the PENDING or WAITLISTED
    request of the student, or a new one, is ALLOCATED, and one
    allocation and one audit record are added.  No room and no waitlist
    entry is changed. *)
Theorem assign_all_or_nothing (web : Web) (user : Account.t) (roomId : string)
    (body : AssignBody) (s : Site) :
  let res := assignRoom web user roomId body s in
  (snd res = s /\
   forall allocation,
     fst res <> Sent (mkResponse 201 (Assigned allocation))) \/
  exists room student bed,
    assignChecks user roomId body s room student bed /\
    assignEffect web user roomId body student bed s (snd res) /\
    fst res =
      Sent (mkResponse 201
              (Assigned (manualAllocation web user roomId (bodyStudentId body)
                           (store s) bed))) /\
    In bed (beds (store s)) /\ Bed.roomId bed = roomId /\ vacant bed = true.
Proof.
  cbv zeta.
  destruct (assign_cases web user roomId body s)
    as [H|(room & student & bed & Hchk & Heff & Hres & _)]; [now left|right].
  exists room, student, bed.
  destruct (assignChecks_bed Hchk) as (Hin & Hroom & Hvac & Hid).
  repeat split; trivial; try apply Hchk; try apply Heff. congruence.
Qed.

(** Property X13 (a manual assignment keeps the occupancy invariant).  In
    a store whose allocations all name a student, a manual assignment keeps
    the invariant of X1: the bed of every allocation is occupied by the
    student of the allocation, and no bed has two allocations. *)
Theorem assign_keeps_occupancy (web : Web) (user : Account.t)
    (roomId : string) (body : AssignBody) (s : Site) :
  occupancyConsistent (store s) ->
  (forall al, In al (allocations (store s)) -> Allocation.studentId al <> "") ->
  let s' := snd (assignRoom web user roomId body s) in
  occupancyConsistent (store s') /\
  (forall al, In al (allocations (store s')) -> Allocation.studentId al <> "").
Proof. apply assign_occupancy. Qed.

Lemma assign_keeps_occupancy_witness :
  let s' := snd (assignRoom calm wardenAccount "room101" assignStudent1
                            waitlistedSite) in
  occupancyConsistent (store s') /\
  map Allocation.bedId (allocations (store s')) = ["bed1"].
Proof.
  split; [|reflexivity].
  apply (@assign_keeps_occupancy calm wardenAccount "room101" assignStudent1
           waitlistedSite).
  - split; simpl; [constructor|intros a b []].
  - intros al [].
Defined.

(** Property X14 (no student holds two beds).  The three entry points
    that write requests and allocations keep this invariant, whatever the
    store rejects: application keys are distinct, a student has at most
    one allocation, a student who has one has no PENDING or WAITLISTED
    request, and a student has at most one PENDING, WAITLISTED or
    IN_PROGRESS request.  It holds after a submission, after a manual
    assignment, after a run of the engine and after the route that starts
    one. *)
Theorem one_bed_per_student (web : Web) (user : Account.t) (s : Site) :
  oneBedPerStudent (store s) ->
  (forall body,
     oneBedPerStudent (store (snd (submitApplication web user body s)))) /\
  (forall roomId body,
     oneBedPerStudent (store (snd (assignRoom web user roomId body s)))) /\
  (forall env allocatedBy,
     oneBedPerStudent (snd (runAllocation env allocatedBy (store s)))) /\
  oneBedPerStudent (store (snd (runRoute web user s))).
Proof.
  intros Hinv. split; [|split; [|split]].
  - intros body. now apply submit_oneBed.
  - intros roomId body. now apply assign_oneBed.
  - intros env allocatedBy. now apply runAllocation_oneBed.
  - rewrite runRoute_cases. destruct (Account.role user); trivial.
    pose proof (@runAllocation_oneBed (engine web) (Account.id user) (store s)
                  Hinv) as H.
    now destruct (runAllocation (engine web) (Account.id user) (store s))
      as [[stats|e] db'].
Qed.

Lemma one_bed_per_student_witness :
  oneBedPerStudent
    (store (snd (assignRoom calm wardenAccount "room101" assignStudent1
                            waitlistedSite))) /\
  map Allocation.studentId
      (allocations
         (store (snd (assignRoom calm wardenAccount "room101" assignStudent1
                                 waitlistedSite)))) = ["student1"].
Proof.
  split; [|reflexivity].
  apply (@one_bed_per_student calm wardenAccount waitlistedSite).
  unfold oneBedPerStudent. simpl. repeat split.
  - constructor; [simpl; intros [H|[]]; discriminate|].
    constructor; [simpl; tauto|constructor].
  - constructor.
  - intros r al _ [].
  - intros r1 r2 [<-|[<-|[]]] [<-|[<-|[]]] _ _; trivial; discriminate.
Defined.

(** Property X15 (a manual assignment leaves the waitlist entry).  Unlike
    [allocateBed], the manual assignment does not delete the waitlist
    entry of the request it allocates: when the student's request was on
    the waitlist, after a 201 the request is ALLOCATED, has an allocation
    and still has its waitlist entry, with its rank, so the store no
    longer satisfies [exclusive]. *)
Theorem assign_keeps_waitlist_entry (web : Web) (user : Account.t)
    (roomId : string) (body : AssignBody) (s : Site)
    (allocation : Allocation.t) (request : Application.row) :
  fst (assignRoom web user roomId body s) =
    Sent (mkResponse 201 (Assigned allocation)) ->
  requestOf (store s) (bodyStudentId body) = Some request ->
  hasWaitlistEntry (store s) (Application.id request) = true ->
  let db' := store (snd (assignRoom web user roomId body s)) in
  Allocation.applicationId allocation = Application.id request /\
  statusOf db' (Application.id request) = Some ALLOCATED /\
  hasAllocation db' (Application.id request) = true /\
  hasWaitlistEntry db' (Application.id request) = true /\
  waitlistEntries db' = waitlistEntries (store s) /\
  ~ exclusive db'.
Proof.
  intros Hres Hreq Hentry.
  destruct (assign_cases web user roomId body s)
    as [[_ Hno]|(room & student & bed & _ & Heff & Hres' & _)];
    [now elim (Hno allocation)|].
  cbv zeta. rewrite Hres' in Hres. injection Hres as <-.
  destruct Heff as (_ & _ & _ & Happ & Hal & Hwl & _).
  cbv zeta in Happ, Hal, Hwl. rewrite Hreq in Happ.
  set (db' := store (snd (assignRoom web user roomId body s))) in *.
  assert (Hid : Allocation.applicationId
                  (manualAllocation web user roomId (bodyStudentId body)
                     (store s) bed) = Application.id request)
    by (unfold manualAllocation, manualApplicationId; now rewrite Hreq).
  assert (Hrow : hasRow (store s) (Application.id request) = true)
    by (apply hasRow_In; apply (requestOf_Some _ _ Hreq)).
  assert (Hstatus : statusOf db' (Application.id request) = Some ALLOCATED).
  { unfold statusOf. rewrite Happ.
    exact (statusOf_updated _ ALLOCATED _ Hrow). }
  assert (Halloc : hasAllocation db' (Application.id request) = true).
  { unfold hasAllocation. rewrite Hal, existsb_app. cbn [existsb].
    rewrite Hid, String.eqb_refl. now rewrite !orb_true_r. }
  assert (Hkept : hasWaitlistEntry db' (Application.id request) = true)
    by (unfold hasWaitlistEntry; now rewrite Hwl).
  repeat split; trivial.
  intros Hex. rewrite (Hex _ Halloc) in Hkept. discriminate.
Qed.

Lemma assign_keeps_waitlist_entry_witness :
  let res := assignRoom calm wardenAccount "room101" assignStudent1
                        waitlistedSite in
  hasAllocation (store (snd res)) "app1" = true /\
  hasWaitlistEntry (store (snd res)) "app1" = true /\
  ~ exclusive (store (snd res)).
Proof.
  destruct (@assign_keeps_waitlist_entry calm wardenAccount "room101"
              assignStudent1 waitlistedSite
              (manualAllocation calm wardenAccount "room101" "student1"
                                waitlistedDb testBed)
              app1Waitlisted eq_refl eq_refl eq_refl)
    as (_ & _ & Ha & Hw & _ & Hex).
  exact (conj Ha (conj Hw Hex)).
Defined.

Lemma find_key_NoDup (A : Type) (key : A -> string) (l : list A) (x : A) :
  NoDup (map key l) -> In x l ->
  find (fun y => key y =? key x)%string l = Some x.
Proof.
  intros Hnd Hin.
  destruct (find (fun y => key y =? key x)%string l) as [y|] eqn:E.
  - apply find_some in E. destruct E as [Hy Hk]. apply String.eqb_eq in Hk.
    f_equal. exact (NoDup_key_eq key _ _ _ Hnd Hy Hin Hk).
  - pose proof (find_none _ _ E x Hin) as Hf. cbv beta in Hf.
    now rewrite String.eqb_refl in Hf.
Qed.

Lemma find_key_In (A : Type) (key : A -> string) (l : list A) (x : A) :
  In x l ->
  exists y, find (fun y => key y =? key x)%string l = Some y /\ key y = key x.
Proof.
  intros Hin.
  destruct (find (fun y => key y =? key x)%string l) as [y|] eqn:E.
  - exists y. split; [reflexivity|].
    apply find_some in E. now apply String.eqb_eq.
  - pose proof (find_none _ _ E x Hin) as Hf. cbv beta in Hf.
    now rewrite String.eqb_refl in Hf.
Qed.

(** The checks of the handler are enough for a 201. *)
Lemma assign_succeeds (web : Web) (user : Account.t)
    (roomId : string) (body : AssignBody) (s : Site) (room : Room.t)
    (student : Account.t) (bed : Bed.t) :
  (forall op, rejects web op = false) ->
  assignChecks user roomId body s room student bed ->
  (forall n, bodyBedNumber body = Some n -> 1 <= n) ->
  NoDup (map Bed.id (beds (store s))) ->
  (requestOf (store s) (bodyStudentId body) = None ->
   hasRow (store s) (freshId web AssignCreateApplication) = false) ->
  existsb (fun x => Allocation.id x =? freshId web AssignCreateAllocation)%string
          (allocations (store s)) = false ->
  fst (assignRoom web user roomId body s) =
    Sent (mkResponse 201
            (Assigned (manualAllocation web user roomId (bodyStudentId body)
                         (store s) bed))).
Proof.
  intros Hrej Hchk Hnum Hnd Hkey Hfree.
  destruct (assignChecks_bed Hchk) as (Hin & _ & Hvac & _).
  destruct Hchk as (Hrole & Hsid & Hroom & Hstudent & Hstrole & Hnobed & Hbed).
  assert (Herr : assignErrors body = []).
  { unfold assignErrors, truthy.
    apply String.eqb_neq in Hsid. rewrite Hsid. simpl.
    destruct (bodyBedNumber body) as [n|]; [|reflexivity].
    specialize (Hnum n eq_refl). apply Z.leb_le in Hnum. now rewrite Hnum. }
  assert (Hnone : find (fun a => Allocation.studentId a =? bodyStudentId body)%string
                       (allocations (store s)) = None).
  { unfold hasBed in Hnobed. rewrite existsb_find in Hnobed.
    now destruct (find _ (allocations (store s))). }
  assert (Hlock : find (fun b => Bed.id b =? Bed.id bed)%string
                       (beds (store s)) = Some bed)
    by now apply find_key_NoDup.
  assert (Hex : existsb (fun b => Bed.id b =? Bed.id bed)%string
                        (beds (store s)) = true)
    by now apply (existsb_id Bed.id).
  assert (Hauth : authorize [WARDEN; ADMIN] (Some user) = hret tt)
    by (unfold authorize; destruct Hrole as [-> | ->]; reflexivity).
  unfold assignRoom, reply, hbind. rewrite Hauth, Herr.
  unfold hret.
  change (0 <? Datatypes.length (@nil string))%nat with false. cbv beta iota.
  unfold readStore at 1. cbv beta iota. rewrite Hrej, Hroom.
  cbn [option_map]. cbv beta iota.
  unfold readStore at 1. cbv beta iota. rewrite Hrej, Hstudent.
  cbv beta iota. rewrite Hstrole. cbn [UserRole_eqb negb]. cbv beta iota.
  unfold readStore at 1. cbv beta iota. rewrite Hrej, Hnone. cbv beta iota.
  destruct (chooseBed (bodyBedNumber body) (bedsOf (store s) room))
    as [chosen message] eqn:Echoice.
  simpl in Hbed. subst chosen. cbv beta iota.
  unfold transactionH, assignTx, hbind, readStore, raise, updateBedRow,
    createApplication, updateApplicationRow, createAllocationRow, writeStore,
    hret, manualAllocation, manualApplicationId.
  rewrite !Hrej, Hlock. cbv beta iota. rewrite Hvac. cbn [negb].
  cbv beta iota. rewrite Hex.
  cbn [store setStore applications setBeds allocations setApplications].
  fold (requestOf (store s) (bodyStudentId body)).
  destruct (requestOf (store s) (bodyStudentId body)) as [found|] eqn:Efound;
    cbv beta iota;
    cbn [store setStore applications setBeds allocations setApplications].
  - destruct (requestOf_Some _ _ Efound) as (Hfin & _).
    destruct (find_key_In Application.id _ _ Hfin) as (r0 & -> & Hr0).
    cbv beta iota.
    cbn [store setStore applications setBeds allocations setApplications
         Allocation.id].
    rewrite Hfree. cbv beta iota.
    cbn [store setStore beds setBeds allocations applications
         setApplications setAllocations fst snd Application.id
         Application.setStatus].
    rewrite Hr0. reflexivity.
  - unfold hasRow in *. cbn [applications setBeds Application.id].
    rewrite (Hkey eq_refl). cbv beta iota.
    cbn [store setStore applications setBeds allocations setApplications
         Allocation.id].
    rewrite Hfree. cbv beta iota.
    cbn [store setStore beds setBeds allocations applications
         setApplications setAllocations fst snd Application.id].
    reflexivity.
Qed.

(** Property X16 (a manual assignment does not look at the room status).
    When the store rejects nothing, bed keys are distinct and the
    generated keys are free, the checks of the handler are enough for a
    201: the requester is a WARDEN or an ADMIN, the room exists, the user
    exists and is a STUDENT without an allocation, and the room has a
    vacant bed (with the number asked for, when one is given).  The status
    of the room is not among them: a student can be assigned to a bed of a
    room that is under MAINTENANCE, RESERVED or OCCUPIED. *)
Theorem assign_ignores_room_status (web : Web) (user : Account.t)
    (roomId : string) (body : AssignBody) (s : Site) (room : Room.t)
    (student : Account.t) (bed : Bed.t) :
  (forall op, rejects web op = false) ->
  assignChecks user roomId body s room student bed ->
  (forall n, bodyBedNumber body = Some n -> 1 <= n) ->
  NoDup (map Bed.id (beds (store s))) ->
  (requestOf (store s) (bodyStudentId body) = None ->
   hasRow (store s) (freshId web AssignCreateApplication) = false) ->
  existsb (fun x => Allocation.id x =? freshId web AssignCreateAllocation)%string
          (allocations (store s)) = false ->
  fst (assignRoom web user roomId body s) =
    Sent (mkResponse 201
            (Assigned (manualAllocation web user roomId (bodyStudentId body)
                         (store s) bed))) /\
  In (occupy (bodyStudentId body) bed)
     (beds (store (snd (assignRoom web user roomId body s)))).
Proof.
  intros Hrej Hchk Hnum Hnd Hkey Hfree.
  pose proof (@assign_succeeds web user roomId body s room student bed
                Hrej Hchk Hnum Hnd Hkey Hfree) as Hres.
  split; [exact Hres|].
  destruct (assignChecks_bed Hchk) as (Hin & _).
  destruct (assign_cases web user roomId body s)
    as [[_ Hno]|(room' & student' & bed' & _ & Heff & Hres' & _)].
  { now elim (Hno _ Hres). }
  rewrite Hres' in Hres. injection Hres as Hid.
  destruct Heff as (_ & _ & Hbeds & _). cbv zeta in Hbeds. rewrite Hbeds.
  apply in_map_iff. exists bed. rewrite Hid, String.eqb_refl. now split.
Qed.

Lemma assign_ignores_room_status_witness :
  findRoom (store maintenanceSite) "room101" =
    Some (Room.mk "room101" "block1" "101" 2 MAINTENANCE) /\
  fst (assignRoom calm wardenAccount "room101" assignStudent1 maintenanceSite) =
    Sent (mkResponse 201
            (Assigned (Allocation.mk "alloc-new" "app1" "student1" "room101"
                                     "bed1" 5000 "warden"))).
Proof.
  split; [reflexivity|].
  refine (proj1 (@assign_ignores_room_status calm wardenAccount "room101"
                   assignStudent1 maintenanceSite
                   (Room.mk "room101" "block1" "101" 2 MAINTENANCE)
                   studentAccount1 testBed _ _ _ _ _ _)).
  - reflexivity.
  - unfold assignChecks. simpl. repeat split; auto. discriminate.
  - discriminate.
  - simpl. constructor; [simpl; tauto|constructor].
  - discriminate.
  - reflexivity.
Defined.

(* ================================================================== *)
(** ** CSV export *)

Lemma append_assoc_s (a b c : string) : ((a ++ b) ++ c = a ++ (b ++ c))%string.
Proof. induction a as [|x a IH]; simpl; [reflexivity|now rewrite IH]. Qed.

Lemma append_nil_r_s (a : string) : (a ++ "" = a)%string.
Proof. induction a as [|x a IH]; simpl; [reflexivity|now rewrite IH]. Qed.

Lemma append_inv_head (a b c : string) : (a ++ b = a ++ c)%string -> b = c.
Proof. induction a as [|x a IH]; simpl; [trivial|]. intros [= H]. auto. Qed.

Lemma readQuoted_escape (field t : string) :
  unquoted t ->
  readQuoted (escapeQuotes field ++ String doubleQuote t) = Some (field, t).
Proof.
  intros Ht. induction field as [|c field IH]; simpl.
  - destruct t as [|c' t']; [reflexivity|].
    simpl in Ht. apply Ascii.eqb_neq in Ht. now rewrite Ht.
  - destruct (Ascii.eqb c doubleQuote) eqn:E; simpl.
    + rewrite IH. apply Ascii.eqb_eq in E. now subst c.
    + now rewrite E, IH.
Qed.

Lemma csvField_tail (f1 f2 t1 t2 : string) :
  unquoted t1 -> unquoted t2 ->
  (csvField f1 ++ t1 = csvField f2 ++ t2)%string -> f1 = f2 /\ t1 = t2.
Proof.
  intros H1 H2. unfold csvField. simpl. rewrite !append_assoc_s. simpl.
  intros [= H].
  pose proof (@readQuoted_escape f1 t1 H1) as R1.
  pose proof (@readQuoted_escape f2 t2 H2) as R2.
  rewrite H, R2 in R1. now injection R1 as -> ->.
Qed.

Lemma csvRow_cons (f : string) (fields : list string) :
  csvRow (f :: fields) =
  (csvField f ++ match fields with
                 | [] => ""
                 | _ :: _ => String comma (csvRow fields)
                 end)%string.
Proof.
  unfold csvRow. simpl. destruct fields; simpl; [now rewrite append_nil_r_s|].
  reflexivity.
Qed.

Lemma comma_not_quote : comma <> doubleQuote.
Proof. discriminate. Qed.

Lemma newline_not_quote : newline <> doubleQuote.
Proof. discriminate. Qed.

(** A line, followed by a text that starts neither with a quote nor with
    a comma, determines its fields and that text. *)
Lemma csvRow_tail (l1 : list string) :
  forall (l2 : list string) (t1 t2 : string),
    l1 <> [] -> l2 <> [] ->
    (t1 = "" \/ exists u, t1 = String newline u) ->
    (t2 = "" \/ exists u, t2 = String newline u) ->
    (csvRow l1 ++ t1 = csvRow l2 ++ t2)%string -> l1 = l2 /\ t1 = t2.
Proof.
  assert (Hunq : forall t, t = "" \/ (exists u, t = String newline u) ->
                           unquoted t).
  { intros t [->|(u & ->)]; simpl; [exact I|exact newline_not_quote]. }
  assert (Hnc : forall t u, t = "" \/ (exists v, t = String newline v) ->
                            t <> String comma u).
  { intros t u [->|(v & ->)]; discriminate. }
  induction l1 as [|f1 l1 IH]; intros l2 t1 t2 Hn1 Hn2 Ht1 Ht2;
    [contradiction|].
  destruct l2 as [|f2 l2]; [contradiction|].
  rewrite !csvRow_cons, !append_assoc_s. intros H.
  destruct l1 as [|g1 l1], l2 as [|g2 l2]; simpl in H.
  - apply csvField_tail in H; auto. destruct H as [-> ->]. now split.
  - apply csvField_tail in H; auto; [|simpl; exact comma_not_quote].
    destruct H as [_ H]. now elim (Hnc _ _ Ht1 H).
  - apply csvField_tail in H; auto; [|simpl; exact comma_not_quote].
    destruct H as [_ H]. symmetry in H. now elim (Hnc _ _ Ht2 H).
  - apply csvField_tail in H; try (simpl; exact comma_not_quote).
    destruct H as [-> H]. injection H as H.
    destruct (IH (g2 :: l2) t1 t2) as [Hl Ht]; trivial; try discriminate.
    split; [now rewrite Hl|exact Ht].
Qed.

Lemma join_cons (sep x : string) (l : list string) :
  join sep (x :: l) =
  (x ++ match l with [] => "" | _ :: _ => sep ++ join sep l end)%string.
Proof. simpl. destruct l; [now rewrite append_nil_r_s|reflexivity]. Qed.

(** Property X17 (the CSV export is unambiguous).  The quoting of the
    report lines doubles every double quote and wraps each field in double
    quotes, so that a line determines its fields, whatever commas, quotes
    or line breaks the fields contain, and a document with a given header
    determines its records (each with at least one field, as the nine and
    ten fields of the two reports). *)
Theorem csv_unambiguous :
  (forall fields1 fields2,
     csvRow fields1 = csvRow fields2 -> fields1 = fields2) /\
  (forall csvHeader records1 records2,
     Forall (fun r => r <> []) records1 ->
     Forall (fun r => r <> []) records2 ->
     csvDocument csvHeader records1 = csvDocument csvHeader records2 ->
     records1 = records2).
Proof.
  split.
  - intros l1 l2 H.
    destruct l1 as [|f1 l1], l2 as [|f2 l2]; trivial;
      try (rewrite csvRow_cons in H; discriminate).
    assert (H' : (csvRow (f1 :: l1) ++ "" = csvRow (f2 :: l2) ++ "")%string)
      by now rewrite !append_nil_r_s.
    apply csvRow_tail in H'; auto; try discriminate. apply H'.
  - intros header records1 records2 H1 H2 H.
    unfold csvDocument in H. apply append_inv_head in H.
    revert records2 H2 H.
    induction H1 as [|r1 records1 Hr1 H1 IH]; intros records2 H2 H.
    + destruct H2 as [|r2 records2 Hr2 H2]; [reflexivity|].
      simpl map in H. rewrite join_cons in H.
      destruct r2 as [|f fs]; [contradiction|].
      rewrite csvRow_cons in H. discriminate.
    + destruct H2 as [|r2 records2 Hr2 H2].
      { simpl map in H. rewrite join_cons in H.
        destruct r1 as [|f fs]; [contradiction|].
        rewrite csvRow_cons in H. discriminate. }
      simpl map in H. rewrite !join_cons in H.
      apply csvRow_tail in H; trivial.
      * destruct H as [-> H]. f_equal.
        destruct records1 as [|x1 records1], records2 as [|x2 records2];
          simpl map in H; trivial; try discriminate.
        injection H as H. now apply IH.
      * destruct (map csvRow records1); [now left|right; eexists; reflexivity].
      * destruct (map csvRow records2); [now left|right; eexists; reflexivity].
Qed.

(* ================================================================== *)
(** ** The routes that change and delete users *)

Lemma logAudit_kept (web : Web) (op : RouteOp)
    (actorId action targetType targetId : string) (details : RouteDetails)
    (s : Site) :
  store (logAudit web op actorId action targetType targetId details s) =
    store s /\
  users (logAudit web op actorId action targetType targetId details s) =
    users s.
Proof. unfold logAudit. now destruct (rejects web op). Qed.

(** The role route leaves the tables of the engine alone; it changes no
    user, or gives the role of the body to the user of the path, who is
    not the requester unless the role is ADMIN. *)
Lemma updateRole_cases (web : Web) (user : Account.t) (id : string)
    (role : option UserRole) (s : Site) :
  let s' := snd (updateRole web user id role s) in
  store s' = store s /\
  (users s' = users s \/
   exists r, role = Some r /\
             (id <> Account.id user \/ r = ADMIN) /\
             users s' = map (fun u => if (Account.id u =? id)%string
                                      then setRole r u else u) (users s)).
Proof.
  unfold updateRole, authorized, authorize, auditMiddleware, reply, hbind,
    respond, hret, readStore, updateUserRole.
  destruct (negb (existsb (UserRole_eqb (Account.role user)) [ADMIN]));
    simpl; [now split; [|left]|].
  destruct role as [r|]; simpl; [|now split; [|left]].
  destruct ((id =? Account.id user)%string && negb (UserRole_eqb r ADMIN))
    eqn:Eself; simpl; [now split; [|left]|].
  destruct (rejects web RoleFindUser); simpl; [now split; [|left]|].
  destruct (find (fun u => Account.id u =? id)%string (users s))
    as [existing|] eqn:Efind; simpl; [|now split; [|left]].
  destruct (rejects web RoleUpdateUser); simpl; [now split; [|left]|].
  rewrite Efind. simpl.
  assert (Hr : id <> Account.id user \/ r = ADMIN).
  { apply andb_false_iff in Eself. destruct Eself as [E|E].
    - left. now apply String.eqb_neq.
    - right. apply negb_false_iff in E. now destruct r. }
  unfold logAudit.
  destruct (rejects web RoleAuditLog), (rejects web RoleRequestLog); simpl;
    (split; [reflexivity|right; exists r; repeat split; trivial]).
Qed.

Lemma deleteUser_cases (web : Web) (user : Account.t) (id : string)
    (s : Site) :
  let res := deleteUser web user id s in
  (store (snd res) = store s /\ users (snd res) = users s /\
   forall m, fst res <> Sent (mkResponse 200 (Done m))) \/
  (id <> Account.id user /\
   fst res = Sent (mkResponse 200 (Done "User deleted successfully")) /\
   store (snd res) = store (deleteCascade id s) /\
   users (snd res) = users (deleteCascade id s)).
Proof.
  unfold deleteUser, authorized, authorize, auditMiddleware, reply, hbind,
    respond, hret, readStore, writeStore.
  destruct (negb (existsb (UserRole_eqb (Account.role user)) [ADMIN]));
    simpl; [left; repeat split; discriminate|].
  destruct (id =? Account.id user)%string eqn:Eself; simpl;
    [left; repeat split; discriminate|].
  apply String.eqb_neq in Eself.
  destruct (rejects web DeleteFindUser); simpl;
    [left; repeat split; discriminate|].
  destruct (find _ (users s)); simpl; [|left; repeat split; discriminate].
  destruct (rejects web DeleteUser); simpl;
    [left; repeat split; discriminate|].
  right. split; [exact Eself|].
  unfold logAudit. destruct (rejects web DeleteRequestLog); simpl;
    repeat split.
Qed.

(** Property X18 (administrators cannot lock themselves out).  An ADMIN
    who is a row of [users] is still that row, with the role ADMIN, after
    any request they send to the role route or to the delete route,
    whatever the store rejects: these two routes never remove the
    requesting administrator.  The role route changes none of the tables
    of the engine; a user who holds a bed keeps it when they are no longer
    a STUDENT. *)
Theorem requester_stays_admin (web : Web) (user : Account.t) (id : string)
    (role : option UserRole) (s : Site) :
  In user (users s) -> Account.role user = ADMIN ->
  In user (users (snd (updateRole web user id role s))) /\
  In user (users (snd (deleteUser web user id s))) /\
  store (snd (updateRole web user id role s)) = store s.
Proof.
  intros Hin Hadmin.
  destruct (updateRole_cases web user id role s) as [Hs Hu].
  split; [|split; [|exact Hs]].
  - destruct Hu as [->|(r & _ & Hr & ->)]; [exact Hin|].
    apply in_map_iff. exists user. split; [|exact Hin].
    destruct (Account.id user =? id)%string eqn:E; [|reflexivity].
    apply String.eqb_eq in E. destruct Hr as [Hr| ->]; [now elim Hr|].
    destruct user; simpl in *. now subst.
  - destruct (deleteUser_cases web user id s)
      as [(_ & -> & _)|(Hne & _ & _ & ->)]; [exact Hin|].
    simpl. apply filter_In. split; [exact Hin|].
    apply negb_true_iff, String.eqb_neq. congruence.
Qed.

Lemma requester_stays_admin_witness :
  In adminAccount
     (users (snd (updateRole calm adminAccount "admin" (Some ADMIN)
                             waitlistedSite))) /\
  fst (updateRole calm adminAccount "admin" (Some STUDENT) waitlistedSite) =
    Sent (mkResponse 400 (Failure "You cannot remove your own admin role")) /\
  fst (deleteUser calm adminAccount "admin" waitlistedSite) =
    Sent (mkResponse 400 (Failure "You cannot delete your own account")).
Proof.
  split; [|split; reflexivity].
  apply (@requester_stays_admin calm adminAccount "admin" (Some ADMIN)
           waitlistedSite).
  - simpl. tauto.
  - reflexivity.
Defined.

Lemma release_id (id : string) (b : Bed.t) : Bed.id (release id b) = Bed.id b.
Proof.
  unfold release. destruct (Bed.occupiedBy b) as [u|]; [|reflexivity].
  now destruct (u =? id)%string.
Qed.

Lemma release_occupiedBy (id : string) (b : Bed.t) :
  Bed.occupiedBy (release id b) <> Some id /\
  (Bed.occupiedBy b <> Some id -> release id b = b).
Proof.
  unfold release. destruct (Bed.occupiedBy b) as [u|] eqn:E.
  - destruct (u =? id)%string eqn:Eu; simpl.
    + apply String.eqb_eq in Eu. subst u. split; [discriminate|now intros H].
    + apply String.eqb_neq in Eu. split; [|reflexivity].
      rewrite E. congruence.
  - split; [|reflexivity]. rewrite E. discriminate.
Qed.

Lemma deleteCascade_occupancy (id : string) (s : Site) :
  occupancyConsistent (store s) ->
  occupancyConsistent (store (deleteCascade id s)).
Proof.
  intros [Hnd Hocc]. unfold deleteCascade, occupancyConsistent. simpl. split.
  - now apply NoDup_map_filter.
  - intros al b' Hal Hb' Hid.
    apply filter_In in Hal. destruct Hal as [Hal Hkeep].
    apply andb_true_iff in Hkeep. destruct Hkeep as [Hst _].
    apply negb_true_iff, String.eqb_neq in Hst.
    apply in_map_iff in Hb'. destruct Hb' as (b & <- & Hb).
    rewrite release_id in Hid.
    pose proof (Hocc al b Hal Hb Hid) as Ho.
    rewrite (proj2 (release_occupiedBy id b)); [exact Ho|].
    rewrite Ho. congruence.
Qed.

Lemma deleteCascade_oneBed (id : string) (s : Site) :
  oneBedPerStudent (store s) ->
  oneBedPerStudent (store (deleteCascade id s)).
Proof.
  intros (Hids & Hstu & Hsel & Hact).
  unfold deleteCascade, oneBedPerStudent. simpl. repeat split.
  - now apply NoDup_map_filter.
  - now apply NoDup_map_filter.
  - intros r al Hr Hal. apply filter_In in Hr. apply filter_In in Hal.
    apply Hsel; [apply Hr|apply Hal].
  - intros r1 r2 Hr1 Hr2. apply filter_In in Hr1. apply filter_In in Hr2.
    apply Hact; [apply Hr1|apply Hr2].
Qed.

Lemma requestOfUser_false (db : DB) (id app : string) :
  requestOfUser db id app = false <->
  forall r, In r (applications db) -> Application.id r = app ->
            Application.studentId r <> id.
Proof.
  unfold requestOfUser. split.
  - intros H r Hin Hid Hst.
    assert (Ht : existsb (fun r => (Application.id r =? app)%string &&
                                   (Application.studentId r =? id)%string)
                         (applications db) = true).
    { apply existsb_exists. exists r. split; [exact Hin|].
      apply andb_true_iff. split; now apply String.eqb_eq. }
    congruence.
  - intros H. apply not_true_is_false. intros Ht.
    apply existsb_exists in Ht. destruct Ht as (r & Hin & Hr).
    apply andb_true_iff in Hr. destruct Hr as [Hid Hst].
    apply String.eqb_eq in Hid, Hst. exact (H r Hin Hid Hst).
Qed.

(** Property X19 (deleting a user).  When [DELETE /api/users/:id] answers
    200, the foreign keys of the migration have taken what the user held
    and nothing else.  The rows that are left are the users with another
    key, the requests of other students, the allocations whose student is
    another user and whose request is not one of the deleted user, the
    waitlist entries of requests that are left, and the audit records of
    the engine whose actor is another user; the beds stay, those of the
    deleted user without occupant; blocks and rooms are as they were.  The
    column [allocated_by] has no foreign key: an allocation that the
    deleted user made for another student is kept and still names the
    deleted key.  The invariants of X1 and X14 still hold when they held
    before.  In every other case the users and the tables of the engine
    are as they were. *)
Theorem user_deletion (web : Web) (user : Account.t) (id : string) (s : Site) :
  let res := deleteUser web user id s in
  let db := store s in
  let db' := store (snd res) in
  (occupancyConsistent db -> occupancyConsistent db') /\
  (oneBedPerStudent db -> oneBedPerStudent db') /\
  map Bed.id (beds db') = map Bed.id (beds db) /\
  ((forall m, fst res <> Sent (mkResponse 200 (Done m))) ->
   db' = db /\ users (snd res) = users s) /\
  ((exists m, fst res = Sent (mkResponse 200 (Done m))) ->
   id <> Account.id user /\
   (forall u, In u (users (snd res)) <->
              In u (users s) /\ Account.id u <> id) /\
   blocks db' = blocks db /\ rooms db' = rooms db /\
   beds db' = map (release id) (beds db) /\
   (forall b, In b (beds db') -> Bed.occupiedBy b <> Some id) /\
   (forall b, In b (beds db) -> Bed.occupiedBy b <> Some id ->
              In b (beds db')) /\
   (forall r, In r (applications db') <->
              In r (applications db) /\ Application.studentId r <> id) /\
   (forall al, In al (allocations db') <->
               In al (allocations db) /\ Allocation.studentId al <> id /\
               ofOther db id (Allocation.applicationId al)) /\
   (forall e, In e (waitlistEntries db') <->
              In e (waitlistEntries db) /\
              ofOther db id (WaitlistEntry.applicationId e)) /\
   (forall l, In l (auditLogs db') <->
              In l (auditLogs db) /\ AuditLog.actorId l <> id) /\
   (forall al, In al (allocations db) ->
               Allocation.allocatedBy al = id ->
               Allocation.studentId al <> id ->
               ofOther db id (Allocation.applicationId al) ->
               exists al', In al' (allocations db') /\
                           Allocation.allocatedBy al' = id)).
Proof.
  cbv zeta.
  destruct (deleteUser_cases web user id s)
    as [(Hs & Hu & Hno)|(Hne & Hres & Hs & Hu)]; rewrite Hs.
  - split; [trivial|split; [trivial|split; [reflexivity|split]]].
    + intros _. now split.
    + intros (m & Hm). now elim (Hno m).
  - split; [apply deleteCascade_occupancy|].
    split; [apply deleteCascade_oneBed|].
    split.
    { unfold deleteCascade. simpl. rewrite map_map.
      apply map_ext, release_id. }
    split; [intros Hno; now elim (Hno _ Hres)|].
    intros _. rewrite Hu. unfold deleteCascade. simpl.
    assert (Hneq : forall a b : string,
              negb (a =? b)%string = true <-> a <> b).
    { intros a b. rewrite negb_true_iff. apply String.eqb_neq. }
    assert (Hal : forall al,
              In al (filter
                       (fun a => negb (Allocation.studentId a =? id)%string &&
                                 negb (requestOfUser (store s) id
                                         (Allocation.applicationId a)))
                       (allocations (store s))) <->
              In al (allocations (store s)) /\
              Allocation.studentId al <> id /\
              ofOther (store s) id (Allocation.applicationId al)).
    { intros al. unfold ofOther. rewrite filter_In, andb_true_iff, Hneq, negb_true_iff.
      now rewrite requestOfUser_false. }
    split; [exact Hne|].
    split; [intros u; now rewrite filter_In, Hneq|].
    split; [reflexivity|]. split; [reflexivity|]. split; [reflexivity|].
    split.
    { intros b Hin. apply in_map_iff in Hin. destruct Hin as (b0 & <- & _).
      apply release_occupiedBy. }
    split.
    { intros b Hin Hocc. apply in_map_iff. exists b. split; [|exact Hin].
      now apply release_occupiedBy. }
    split; [intros r; now rewrite filter_In, Hneq|].
    split; [exact Hal|].
    split.
    { intros e. unfold ofOther. rewrite filter_In, negb_true_iff.
      now rewrite requestOfUser_false. }
    split; [intros l; now rewrite filter_In, Hneq|].
    intros al Hin Hby Hst Hother. exists al. split; [|exact Hby].
    apply Hal. auto.
Qed.

(** The warden assigned a bed to [student1]; an administrator then deletes
    the warden account.  The allocation is kept, and names an account that
    no longer exists. *)
Example deleted_allocator_still_named :
  let assigned := snd (assignRoom calm wardenAccount "room101" assignStudent1
                                  waitlistedSite) in
  let res := deleteUser calm adminAccount "warden" assigned in
  fst res = Sent (mkResponse 200 (Done "User deleted successfully")) /\
  map Account.id (users (snd res)) = ["student1"; "student2"; "admin"] /\
  map Allocation.allocatedBy (allocations (store (snd res))) = ["warden"].
Proof. vm_compute. repeat split. Qed.

(* ================================================================== *)
(** ** The answer of [allocateBed] when the student is loaded *)

(** Property X20 (true means committed).  For a request that carries its
    student, as every request of a batch run does, [allocateBed] answers
    [true] exactly when its transaction committed, and [false] with the
    store unchanged otherwise: no failure of the mail transport changes
    the answer or the store. *)
Theorem loaded_student_true_iff_committed (env : Env)
    (application : Application.t) (allocatedBy : string) (db : DB) :
  Application.student application <> None ->
  allocateBed env application allocatedBy db = (Ok false, db) \/
  exists bed,
    lockedBed env application db = Some bed /\
    txAccepted env (Application.id application) = true /\
    allocateBed env application allocatedBy db =
      (Ok true, commitWrites env application allocatedBy bed db) /\
    hasAllocation (commitWrites env application allocatedBy bed db)
                  (Application.id application) = true.
Proof.
  intros Hst.
  destruct (allocateBed_cases env application allocatedBy db)
    as [H|(bed & Hl & Hacc & _ & H)]; [now left|right].
  exists bed. repeat split; trivial.
  - rewrite H. now destruct (Application.student application).
  - rewrite commitWrites_hasAllocation, String.eqb_refl. apply orb_true_r.
Qed.

Lemma loaded_student_true_iff_committed_witness :
  fst (allocateBed noFaults (Application.withStudent app1) "admin" testDb) =
    Ok true.
Proof.
  assert (Hst : Application.student (Application.withStudent app1) <> None)
    by discriminate.
  destruct (@loaded_student_true_iff_committed noFaults
              (Application.withStudent app1) "admin" testDb Hst)
    as [H|(bed & _ & _ & H & _)].
  - vm_compute in H. discriminate H.
  - now rewrite H.
Defined.

(* ================================================================== *)
(** ** An error in the middle of [addToWaitlist] *)

(** Property X21 (the waitlist entry survives an error).
    [addToWaitlist] writes the waitlist entry and the status in two store
    calls, outside any transaction.  When the first is accepted and the
    second is rejected, the batch runner counts an error and puts the
    status back, but the entry stays, with the rank it was given: the
    request is PENDING (or WAITLISTED, as it was) and has a waitlist
    entry. *)
Theorem waitlist_entry_survives_error (env : Env) (allocatedBy : string)
    (application : Application.t) (stats : Stats) (db : DB) :
  let app := Application.id application in
  findCandidateBeds (baseRoomFilter application) db = [] ->
  fails env (RunMarkInProgress app) = false ->
  fails env (WlFindMaxRank app) = false ->
  fails env (WlUpsert app) = false ->
  fails env (WlUpdateStatus app) = true ->
  fails env (RunResetStatus app) = false ->
  hasRow db app = true ->
  selectable application = true ->
  exists db',
    processApplication env allocatedBy application stats db =
      (Ok (incErrors stats), db') /\
    statusOf db' app = Some (Application.status application) /\
    hasWaitlistEntry db' app = true /\
    rankOf db' app = Some (assignedRank (waitlistHostel application) db) /\
    hasAllocation db' app = hasAllocation db app.
Proof.
  intros app Hnone Hmark Hmax Hups Hupd Hreset Hrow Hsel. subst app.
  unfold processApplication, tryCatch, bind, applicationUpdate.
  rewrite Hmark. unfold hasRow in Hrow. rewrite Hrow.
  change (setApplications _ db) with (afterMark application db).
  set (db1 := afterMark application db).
  assert (Hnone1 : findCandidateBeds (baseRoomFilter application) db1 = [])
    by (rewrite <- Hnone; now apply findCandidateBeds_ext).
  rewrite (allocateBed_no_candidate env application allocatedBy db1 Hnone1).
  destruct (addToWaitlist_cases env application db1)
    as [[[Hf|Hf] _]|[(_ & _ & _ & e & H)|(_ & _ & Hf & _)]];
    try congruence.
  rewrite H. clear H.
  set (db2 := upsertWaitlist env application
                (assignedRank (waitlistHostel application) db1)
                (waitlistHostel application) db1).
  destruct (upsertWaitlist_others env application
              (assignedRank (waitlistHostel application) db1)
              (waitlistHostel application) db1)
    as (_ & _ & _ & Happ & Hal & _).
  fold db2 in Happ, Hal.
  assert (Hrow2 : hasRow db2 (Application.id application) = true).
  { unfold hasRow. rewrite Happ. unfold db1, afterMark.
    change (hasRow (setApplications
                      (map (updateStatus (Application.id application)
                                         IN_PROGRESS) (applications db)) db)
                   (Application.id application) = true).
    now rewrite hasRow_updated. }
  rewrite (@resetOnError_Ok env application stats e db2 Hreset Hrow2).
  eexists. split; [reflexivity|].
  rewrite (resetStatus_selectable _ Hsel).
  repeat split.
  - now apply statusOf_updated.
  - change (hasWaitlistEntry db2 (Application.id application) = true).
    unfold db2. rewrite upsertWaitlist_hasWaitlistEntry, String.eqb_refl.
    apply orb_true_r.
  - change (rankOf db2 (Application.id application) =
            Some (assignedRank (waitlistHostel application) db)).
    unfold db2. now rewrite rankOf_upsert.
  - change (hasAllocation db2 (Application.id application) =
            hasAllocation db (Application.id application)).
    unfold hasAllocation. now rewrite Hal.
Qed.

Lemma waitlist_entry_survives_error_witness :
  exists db',
    processApplication statusUpdateRejected "admin"
      (Application.withStudent app1) (mkStats 0 0 0) noBedsDb =
      (Ok (mkStats 0 0 1), db') /\
    statusOf db' "app1" = Some PENDING /\
    rankOf db' "app1" = Some 1.
Proof.
  destruct (@waitlist_entry_survives_error statusUpdateRejected "admin"
              (Application.withStudent app1) (mkStats 0 0 0) noBedsDb
              eq_refl eq_refl eq_refl eq_refl eq_refl eq_refl eq_refl eq_refl)
    as (db' & Hrun & Hs & _ & Hr & _).
  exists db'. repeat split; trivial.
Defined.

(* ================================================================== *)
(** ** No overtaking among requests that ask for the same beds *)

Lemma processAll_app (env : Env) (allocatedBy : string)
    (l1 l2 : list Application.t) :
  forall (stats : Stats) (db : DB),
    processAll env allocatedBy (l1 ++ l2) stats db =
    bind (processAll env allocatedBy l1 stats)
         (fun stats' => processAll env allocatedBy l2 stats') db.
Proof.
  induction l1 as [|a l1 IH]; intros stats db; simpl.
  - unfold bind, ret. reflexivity.
  - unfold bind in *.
    destruct (processApplication env allocatedBy a stats db) as [[s1|e] db1];
      [|reflexivity].
    apply IH.
Qed.

Lemma processAll_ids (env : Env) (allocatedBy : string) :
  forall (apps : list Application.t) (stats : Stats) (db : DB),
    map Application.id
        (applications (snd (processAll env allocatedBy apps stats db))) =
    map Application.id (applications db).
Proof.
  induction apps as [|a apps IH]; intros stats db; simpl; [reflexivity|].
  pose proof (frame_processApplication env allocatedBy a stats db) as Hf.
  unfold bind.
  destruct (processApplication env allocatedBy a stats db) as [[s1|e] db1];
    simpl in *; destruct Hf as (_ & _ & _ & Hids & _); [|exact Hids].
  now rewrite IH.
Qed.

(** In a run in which nothing fails, a filter that has no candidate bed
    has none after the handling of a request. *)
Lemma quiet_step_nil (env : Env) (allocatedBy : string) (a : Application.t)
    (stats : Stats) (db : DB) (f : RoomFilter) :
  quiet env -> hasRow db (Application.id a) = true ->
  Application.student a <> None ->
  findCandidateBeds f db = [] ->
  findCandidateBeds f (snd (processApplication env allocatedBy a stats db)) = [].
Proof.
  intros Hq Hrow Hst Hnil.
  rewrite (@processApplication_quiet env allocatedBy a stats db Hq Hrow Hst).
  destruct (findCandidateBeds (baseRoomFilter a) db) as [|bed rest]; simpl.
  - rewrite <- Hnil. apply findCandidateBeds_ext; reflexivity ||
      (unfold afterWaitlist; cbv zeta; simpl;
       apply (upsertWaitlist_others env a
                (assignedRank (waitlistHostel a) (afterMark a db))
                (waitlistHostel a) (afterMark a db))).
  - apply (@findCandidateBeds_nil_occupy f db _ (Bed.id bed)
             (Application.studentId a)); trivial.
Qed.

Lemma processAll_quiet_nil (env : Env) (allocatedBy : string) (f : RoomFilter) :
  quiet env ->
  forall (apps : list Application.t) (stats : Stats) (db : DB),
    (forall a, In a apps ->
               Application.student a <> None /\
               hasRow db (Application.id a) = true) ->
    findCandidateBeds f db = [] ->
    findCandidateBeds f (snd (processAll env allocatedBy apps stats db)) = [].
Proof.
  intros Hq. induction apps as [|a apps IH]; intros stats db Hall Hnil;
    simpl; [exact Hnil|].
  destruct (Hall a (or_introl eq_refl)) as [Hst Hrow].
  pose proof (@quiet_step_nil env allocatedBy a stats db f Hq Hrow Hst Hnil)
    as Hnil1.
  pose proof (frame_processApplication env allocatedBy a stats db) as Hf.
  unfold bind.
  destruct (processApplication env allocatedBy a stats db) as [[s1|e] db1];
    simpl in *; [|exact Hnil1].
  destruct Hf as (_ & _ & _ & Hids & _).
  apply IH; trivial. intros a' Ha'.
  destruct (Hall a' (or_intror Ha')) as [Hst' Hrow'].
  split; trivial. now rewrite (hasRow_ids _ _ _ Hids).
Qed.

Lemma processAll_no_overtaking (env : Env) (allocatedBy : string) :
  quiet env ->
  forall (l1 : list Application.t) (a : Application.t)
         (l2 : list Application.t) (b : Application.t)
         (l3 : list Application.t) (stats : Stats) (db : DB),
    NoDup (map idOf (l1 ++ a :: l2 ++ b :: l3)) ->
    (forall x, In x (l1 ++ a :: l2 ++ b :: l3) ->
               Application.student x <> None /\
               hasRow db (Application.id x) = true) ->
    baseRoomFilter a = baseRoomFilter b ->
    let db' :=
      snd (processAll env allocatedBy (l1 ++ a :: l2 ++ b :: l3) stats db) in
    statusOf db' (Application.id a) = Some ALLOCATED \/
    statusOf db' (Application.id b) = Some WAITLISTED.
Proof.
  intros Hq l1 a l2 b l3 stats db Hnd Hall Hfilter. cbv zeta.
  assert (Hrows : forall (l : list Application.t) s0 (db0 db1 : DB) todo,
            (forall x, In x todo ->
                       Application.student x <> None /\
                       hasRow db0 (Application.id x) = true) ->
            db1 = snd (processAll env allocatedBy l s0 db0) ->
            forall x, In x todo ->
                      Application.student x <> None /\
                      hasRow db1 (Application.id x) = true).
  { intros l s0 db0 db1 todo H0 -> x Hx. destruct (H0 x Hx) as [Hst Hrow].
    split; trivial.
    now rewrite (hasRow_ids _ _ _ (processAll_ids env allocatedBy l s0 db0)). }
  (* the requests before [a] *)
  rewrite processAll_app. unfold bind.
  destruct (@processAll_quiet_stats env allocatedBy Hq l1 stats db)
    as (s1 & db1 & Hrun1 & _).
  { intros x Hx. apply Hall. apply in_or_app. now left. }
  assert (Hall1 : forall x, In x (a :: l2 ++ b :: l3) ->
            Application.student x <> None /\
            hasRow db1 (Application.id x) = true).
  { apply (Hrows l1 stats db db1).
    - intros x Hx. apply Hall. apply in_or_app. now right.
    - now rewrite Hrun1. }
  rewrite Hrun1. clear Hrun1.
  rewrite map_app in Hnd. apply NoDup_app_remove_l in Hnd.
  change (map idOf (a :: l2 ++ b :: l3))
    with (idOf a :: map idOf (l2 ++ b :: l3)) in Hnd.
  inversion Hnd as [|? ? Hnin Hnd']; subst. clear Hnd.
  (* the turn of [a] *)
  destruct (Hall1 a (or_introl eq_refl)) as [Hsta Hrowa].
  cbn [processAll]. unfold bind.
  pose proof (@processApplication_quiet env allocatedBy a s1 db1
                Hq Hrowa Hsta) as Hturn.
  destruct (findCandidateBeds (baseRoomFilter a) db1) as [|bed rest] eqn:Ec.
  2:{ (* [a] is allocated, and stays so *)
      rewrite Hturn. left.
      destruct (@processAll_others env allocatedBy (Application.id a)
                  (l2 ++ b :: l3) (incAllocated s1)
                  (commitWrites env a allocatedBy bed (afterMark a db1)) Hnin)
        as (-> & _).
      now apply commitWrites_own. }
  (* [a] is waitlisted: its filter has no candidate from now on *)
  rewrite Hturn.
  set (dbA := afterWaitlist env a db1) in *.
  assert (HnilA : findCandidateBeds (baseRoomFilter a) dbA = []).
  { pose proof (@quiet_step_nil env allocatedBy a s1 db1 (baseRoomFilter a)
                  Hq Hrowa Hsta Ec) as H.
    now rewrite Hturn in H. }
  assert (HallA : forall x, In x (l2 ++ b :: l3) ->
            Application.student x <> None /\
            hasRow dbA (Application.id x) = true).
  { intros x Hx. destruct (Hall1 x (or_intror Hx)) as [Hst Hrow].
    split; trivial.
    pose proof (frame_processApplication env allocatedBy a s1 db1) as Hf.
    rewrite Hturn in Hf. simpl in Hf. destruct Hf as (_ & _ & _ & Hids & _).
    now rewrite (hasRow_ids _ _ _ Hids). }
  rewrite processAll_app. unfold bind.
  destruct (@processAll_quiet_stats env allocatedBy Hq l2
              (incWaitlisted s1) dbA)
    as (s2 & db2 & Hrun2 & _).
  { intros x Hx. apply HallA. apply in_or_app. now left. }
  assert (Hnil2 : findCandidateBeds (baseRoomFilter a) db2 = []).
  { pose proof (@processAll_quiet_nil env allocatedBy (baseRoomFilter a) Hq l2
                  (incWaitlisted s1) dbA) as H.
    rewrite Hrun2 in H. apply H; trivial.
    intros x Hx. apply HallA. apply in_or_app. now left. }
  assert (Hall2 : forall x, In x (b :: l3) ->
            Application.student x <> None /\
            hasRow db2 (Application.id x) = true).
  { apply (Hrows l2 (incWaitlisted s1) dbA db2).
    - intros x Hx. apply HallA. apply in_or_app. now right.
    - now rewrite Hrun2. }
  rewrite Hrun2. clear Hrun2.
  (* the turn of [b]: no candidate either *)
  destruct (Hall2 b (or_introl eq_refl)) as [Hstb Hrowb].
  cbn [processAll]. unfold bind.
  rewrite (@processApplication_quiet env allocatedBy b s2 db2 Hq Hrowb Hstb).
  rewrite <- Hfilter, Hnil2.
  rewrite map_app in Hnd'. apply NoDup_app_remove_l in Hnd'.
  inversion Hnd' as [|? ? Hninb _]; subst.
  right.
  destruct (@processAll_others env allocatedBy (Application.id b) l3
              (incWaitlisted s2) (afterWaitlist env b db2) Hninb)
    as (Hs & _).
  rewrite Hs. exact (proj1 (afterWaitlist_own env b db2 Hrowb)).
Qed.

(** Property X22 (no overtaking).  In a run in which nothing fails, of two
    selected requests that name the same preferred hostels, the one that
    is processed first is not passed over: either it ends ALLOCATED, or
    the later one ends WAITLISTED.  So the later request is given a bed
    only when the earlier one has been given one. *)
Theorem no_overtaking (env : Env) (allocatedBy : string) (db : DB)
    (l1 : list Application.t) (a : Application.t)
    (l2 : list Application.t) (b : Application.t)
    (l3 : list Application.t) :
  quiet env ->
  NoDup (map Application.id (applications db)) ->
  findApplications env db = (l1 ++ a :: l2 ++ b :: l3)%list ->
  baseRoomFilter a = baseRoomFilter b ->
  let db' := snd (runAllocation env allocatedBy db) in
  statusOf db' (Application.id a) = Some ALLOCATED \/
  statusOf db' (Application.id b) = Some WAITLISTED.
Proof.
  intros Hq Hnd Hfound Hfilter.
  assert (Hall : forall x, In x (findApplications env db) ->
            Application.student x <> None /\
            hasRow db (Application.id x) = true).
  { intros x Hx. apply findApplications_In in Hx.
    destruct Hx as (r & -> & Hin & _). split; [discriminate|].
    now apply hasRow_In. }
  pose proof (findApplications_NoDup env db Hnd) as Hnd'.
  destruct (@processAll_quiet_stats env allocatedBy Hq
              (findApplications env db) (mkStats 0 0 0) db Hall)
    as (stats & db1 & Hrun & _).
  rewrite Hfound in Hall, Hnd'.
  pose proof (@processAll_no_overtaking env allocatedBy Hq l1 a l2 b l3
                (mkStats 0 0 0) db Hnd' Hall Hfilter) as Hturns.
  cbv zeta in Hturns. rewrite <- Hfound in Hturns.
  rewrite Hrun in Hturns. simpl in Hturns.
  unfold runAllocation, tryCatch, bind, query.
  rewrite (proj1 Hq), Hrun.
  destruct (createAuditLog_result env RunAuditLog allocatedBy CREATE
              "ALLOCATION" "batch"
              (BatchDetails stats (clock env RunAuditLog)) db1)
    as (logs & ->).
  exact Hturns.
Qed.

Lemma no_overtaking_witness :
  statusOf (snd (runAllocation noFaults "admin" testDb)) "app1"
    = Some ALLOCATED \/
  statusOf (snd (runAllocation noFaults "admin" testDb)) "app2"
    = Some WAITLISTED.
Proof.
  assert (Hq : quiet noFaults) by (split; reflexivity).
  assert (Hnd : NoDup (map Application.id (applications testDb))).
  { simpl. constructor; [simpl; intros [H|[]]; discriminate|].
    constructor; [simpl; tauto|constructor]. }
  exact (@no_overtaking noFaults "admin" testDb
           [] (Application.withStudent app1)
           [] (Application.withStudent app2) []
           Hq Hnd eq_refl eq_refl).
Defined.
